(** * OpenBench web front end: run events, run detail page, run form

    A shallow embedding of the TypeScript sources

    - [frontend/src/api/client.ts]   (module [Client]),
    - [pages/RunDetail.tsx]          (module [RunDetailPage]),
    - [components/RunForm.tsx]       (module [RunForm]),
    - [pages/NewRun.tsx], [pages/Dashboard.tsx], [components/RunTable.tsx]
      and [components/LogTail.tsx]   (modules [NewRun], [Dashboard],
      [RunTable], [LogTail]),

    together with a model of the run coordinator that lives behind the HTTP
    boundary (module [Coordinator]), and then the properties of the live
    event pipeline that these sources decide.

    Conventions.  A TypeScript [number] is a [number] below: either [NaN] or
    a rational; the sources only parse, compare and pass numbers along, they
    never compute with them.  [T | null] and an optional field [f?: T] are
    both [option T].  A call that may throw returns a [Completion]. *)

From Stdlib Require Import QArith Lqa DecimalString Ascii String.
From stdpp Require Import base option list strings gmap.

Set Warnings "-register-all".

Local Open Scope string_scope.
Local Open Scope list_scope.

(** ** JavaScript values used by the sources *)

Module JS.

Inductive number : Type :=
| NaN
| Num (q : Q).

(** What a [throw] carries: an [Error] object (with its class name and
    message) or any other value. *)
Inductive Thrown : Type :=
| ErrorObj (name : string) (message : string)
| NonError (v : string).

Definition new_Error (message : string) : Thrown := ErrorObj "Error" message.

(** [err instanceof Error] *)
Definition instanceof_Error (t : Thrown) : bool :=
  match t with
  | ErrorObj _ _ => true
  | NonError _ => false
  end.

Inductive Completion (A : Type) : Type :=
| Return (a : A)
| Throw (e : Thrown).
Arguments Return {A} a.
Arguments Throw {A} e.

(** The result of [JSON.parse]: a JSON value.  An object is the list of its
    members, each key once. *)
Inductive JSON : Type :=
| JNull
| JBool (b : bool)
| JNum (q : Q)
| JStr (s : string)
| JArr (items : list JSON)
| JObj (members : list (string * JSON)).

Fixpoint assoc (k : string) (l : list (string * JSON)) : option JSON :=
  match l with
  | [] => None
  | (k', v) :: l' => if String.eqb k k' then Some v else assoc k l'
  end.

(** [v.k] for a parsed JSON value [v]; [None] is [undefined].  Reading a
    property of [null] throws a [TypeError]; strings, numbers, booleans and
    arrays have no member called [k] for the keys the sources read. *)
Definition get_prop (v : JSON) (k : string) : Completion (option JSON) :=
  match v with
  | JNull =>
      Throw (ErrorObj "TypeError" ("Cannot read properties of null (reading '" +:+ k +:+ "')"))
  | JObj members => Return (assoc k members)
  | _ => Return None
  end.

(** Truthiness, as used by [||]. *)
Definition truthy (v : option JSON) : bool :=
  match v with
  | None => false
  | Some JNull => false
  | Some (JBool b) => b
  | Some (JNum q) => negb (Qeq_bool q 0)
  | Some (JStr s) => negb (String.eqb s "")
  | Some (JArr _) => true
  | Some (JObj _) => true
  end.

(** [`${n}`] for a natural number. *)
Definition decimal (n : N) : string := NilZero.string_of_uint (N.to_uint n).

(** [s || undefined] for [s : string | null | undefined]. *)
Definition or_undefined (s : option string) : option string :=
  match s with
  | Some s' => if String.eqb s' "" then None else Some s'
  | None => None
  end.

End JS.
Export JS.

(** ** [frontend/src/api/client.ts] *)

Module Client.

Definition API_BASE : string := "/api".

(** *** Data types *)

Module RunConfig.
Record t : Type := mk {
  schema_version : option number;
  benchmark : string;
  model : string;
  limit : option number;
  temperature : option number;
  top_p : option number;
  max_tokens : option number;
  timeout : option number;
  epochs : option number;
  max_connections : option number
}.
End RunConfig.

(** [RunDetail extends RunSummary]; [status] is a string at run time (the
    page stores [event.status as RunDetailType['status']] unchecked). *)
Module RunDetail.
Record t : Type := mk {
  run_id : string;
  benchmark : string;
  model : string;
  status : string;
  created_at : string;
  finished_at : option string;
  primary_metric : option number;
  started_at : option string;
  artifact_dir : option string;
  exit_code : option number;
  error : option string;
  config : option RunConfig.t;
  command : option string;
  artifacts : list string;
  stdout_tail : option string;
  stderr_tail : option string
}.
End RunDetail.

Inductive Stream : Type := stdout | stderr.

Module SSEStatusEvent.
Record t : Type := mk { status : string; timestamp : string }.
End SSEStatusEvent.

Module SSELogLineEvent.
Record t : Type := mk { stream : Stream; line : string }.
End SSELogLineEvent.

Module SSEProgressEvent.
Record t : Type := mk {
  current : number;
  total : number;
  percentage : number;
  message : option string
}.
End SSEProgressEvent.

Module SSECompletedEvent.
Record t : Type := mk { exit_code : number; finished_at : option string }.
End SSECompletedEvent.

Module SSEFailedEvent.
Record t : Type := mk {
  exit_code : number;
  error : option string;
  finished_at : option string
}.
End SSEFailedEvent.

Module SSECanceledEvent.
Record t : Type := mk { finished_at : option string }.
End SSECanceledEvent.

Module SSEHeartbeatEvent.
Record t : Type := mk { timestamp : string }.
End SSEHeartbeatEvent.

(** The member names of the seven payload interfaces, with the members
    declared optional ([?]) marked [true]. *)
Definition payload_members (type : string) : list (string * bool) :=
  if String.eqb type "status" then [("status", false); ("timestamp", false)]
  else if String.eqb type "log_line" then [("stream", false); ("line", false)]
  else if String.eqb type "progress" then
    [("current", false); ("total", false); ("percentage", false); ("message", true)]
  else if String.eqb type "completed" then [("exit_code", false); ("finished_at", false)]
  else if String.eqb type "failed" then
    [("exit_code", false); ("error", false); ("finished_at", false)]
  else if String.eqb type "canceled" then [("finished_at", false)]
  else if String.eqb type "heartbeat" then [("timestamp", false)]
  else [].

(** A handler runs in the subscriber's world [W]; it returns the new world
    and what it threw, if anything.  It acts on that world only: a handler
    that itself closes the source it is subscribed to is not covered. *)
Definition Handler (W A : Type) : Type := A -> W -> W * option Thrown.

Module SSEEventHandlers.
Record t (W : Type) : Type := mk {
  onStatus : option (Handler W SSEStatusEvent.t);
  onLogLine : option (Handler W SSELogLineEvent.t);
  onProgress : option (Handler W SSEProgressEvent.t);
  onCompleted : option (Handler W SSECompletedEvent.t);
  onFailed : option (Handler W SSEFailedEvent.t);
  onCanceled : option (Handler W SSECanceledEvent.t);
  onHeartbeat : option (Handler W SSEHeartbeatEvent.t);
  onError : option (Handler W Thrown)
}.
Arguments mk {W}.
Arguments onStatus {W}.
Arguments onLogLine {W}.
Arguments onProgress {W}.
Arguments onCompleted {W}.
Arguments onFailed {W}.
Arguments onCanceled {W}.
Arguments onHeartbeat {W}.
Arguments onError {W}.
End SSEEventHandlers.

(** *** [ApiClient.request] *)

Module RequestInit.
Record t : Type := mk {
  method : option string;
  headers : gmap string string;
  body : option string
}.
Definition empty : t := mk None ∅ None.
End RequestInit.

(** What [fetch] resolves to.  [json] is the outcome of [response.json()]:
    the parsed body, or a rejection when the body is not JSON. *)
Module Response.
Record t : Type := mk {
  ok : bool;
  status : N;
  json : Completion JSON
}.
End Response.

Section Request.

(** The network: [fetch] acts on the state [W] of whatever answers, and may
    reject.  [Number_toString] is the built-in number formatting. *)
Context {W : Type}.
Variable fetch : string -> RequestInit.t -> W -> Completion Response.t * W.
Variable Number_toString : Q -> string.

(** [String(v)] *)
Fixpoint ToString (v : JSON) : string :=
  match v with
  | JNull => "null"
  | JBool true => "true"
  | JBool false => "false"
  | JNum q => Number_toString q
  | JStr s => s
  | JArr items =>
      String.concat ","
        (map (fun x => match x with JNull => "" | _ => ToString x end) items)
  | JObj _ => "[object Object]"
  end.

(** The options [request] hands to [fetch]: [{ ...options, headers: {
    'Content-Type': 'application/json', ...options.headers } }]. *)
Definition sent_init (options : RequestInit.t) : RequestInit.t :=
  RequestInit.mk (RequestInit.method options)
    (RequestInit.headers options ∪ {["Content-Type" := "application/json"]})
    (RequestInit.body options).

(** [await response.json().catch(() => ({}))] *)
Definition error_body (response : Response.t) : JSON :=
  match Response.json response with
  | Return j => j
  | Throw _ => JObj []
  end.

Definition request (endpoint : string) (options : RequestInit.t) (w : W)
  : Completion JSON * W :=
  let '(fetched, w') := fetch (API_BASE +:+ endpoint) (sent_init options) w in
  match fetched with
  | Throw e => (Throw e, w')
  | Return response =>
      if negb (Response.ok response) then
        let error := error_body response in
        match get_prop error "detail" with
        | Throw e => (Throw e, w')
        | Return detail =>
            let message :=
              match detail with
              | Some d =>
                  if truthy detail then ToString d
                  else "Request failed: " +:+ decimal (Response.status response)
              | None => "Request failed: " +:+ decimal (Response.status response)
              end in
            (Throw (new_Error message), w')
        end
      else (Response.json response, w')
  end.

(** The [detail] member of the error body, [None] when there is none. *)
Definition detail_of (response : Response.t) : option JSON :=
  match error_body response with
  | JObj members => assoc "detail" members
  | _ => None
  end.

Definition fallback_message (response : Response.t) : string :=
  "Request failed: " +:+ decimal (Response.status response).

(** The message as the specification words it: the [detail] member when it is
    present, the fallback otherwise. *)
Definition stated_message (response : Response.t) : string :=
  match detail_of response with
  | Some d => ToString d
  | None => fallback_message response
  end.

(** The message of the code: the [detail] member when it is truthy, the
    fallback otherwise. *)
Definition thrown_message (response : Response.t) : string :=
  if truthy (detail_of response)
  then match detail_of response with
       | Some d => ToString d
       | None => fallback_message response
       end
  else fallback_message response.

Definition healthCheck : W -> Completion JSON * W :=
  request "/health" RequestInit.empty.

Definition listBenchmarks : W -> Completion JSON * W :=
  request "/benchmarks" RequestInit.empty.

Definition getBenchmark (name : string) : W -> Completion JSON * W :=
  request ("/benchmarks/" +:+ name) RequestInit.empty.

Definition listRuns (limit : N) : W -> Completion JSON * W :=
  request ("/runs?limit=" +:+ decimal limit) RequestInit.empty.

Definition getRun (runId : string) (logLines : N) : W -> Completion JSON * W :=
  request ("/runs/" +:+ runId +:+ "?log_lines=" +:+ decimal logLines) RequestInit.empty.

Definition cancelRun (runId : string) : W -> Completion JSON * W :=
  request ("/runs/" +:+ runId +:+ "/cancel") (RequestInit.mk (Some "POST") ∅ None).

End Request.

(** *** [ApiClient.subscribeToRunEvents] *)

(** [JSON.parse(e.data) as T]: the text does not parse (a [SyntaxError] with
    the given message), or it parses to a [T]. *)
Inductive Data (T : Type) : Type :=
| Malformed (message : string)
| Parsed (v : T).
Arguments Malformed {T} message.
Arguments Parsed {T} v.

(** An event arriving on the stream, by its [type].  [other_event] stands
    for a type that is none of the seven below. *)
Inductive MessageEvent : Type :=
| status_event (data : Data SSEStatusEvent.t)
| log_line_event (data : Data SSELogLineEvent.t)
| progress_event (data : Data SSEProgressEvent.t)
| completed_event (data : Data SSECompletedEvent.t)
| failed_event (data : Data SSEFailedEvent.t)
| canceled_event (data : Data SSECanceledEvent.t)
| heartbeat_event (data : Data SSEHeartbeatEvent.t)
| other_event (type : string).

Definition event_type (e : MessageEvent) : string :=
  match e with
  | status_event _ => "status"
  | log_line_event _ => "log_line"
  | progress_event _ => "progress"
  | completed_event _ => "completed"
  | failed_event _ => "failed"
  | canceled_event _ => "canceled"
  | heartbeat_event _ => "heartbeat"
  | other_event type => type
  end.

(** A listener is only run on events of its own type; asked for the data
    of any other event, the model answers that it does not parse. *)
Definition not_this_event {T : Type} : Data T := Malformed "Unexpected token".

Definition as_SSEStatusEvent (e : MessageEvent) : Data SSEStatusEvent.t :=
  match e with status_event d => d | _ => not_this_event end.
Definition as_SSELogLineEvent (e : MessageEvent) : Data SSELogLineEvent.t :=
  match e with log_line_event d => d | _ => not_this_event end.
Definition as_SSEProgressEvent (e : MessageEvent) : Data SSEProgressEvent.t :=
  match e with progress_event d => d | _ => not_this_event end.
Definition as_SSECompletedEvent (e : MessageEvent) : Data SSECompletedEvent.t :=
  match e with completed_event d => d | _ => not_this_event end.
Definition as_SSEFailedEvent (e : MessageEvent) : Data SSEFailedEvent.t :=
  match e with failed_event d => d | _ => not_this_event end.
Definition as_SSECanceledEvent (e : MessageEvent) : Data SSECanceledEvent.t :=
  match e with canceled_event d => d | _ => not_this_event end.
Definition as_SSEHeartbeatEvent (e : MessageEvent) : Data SSEHeartbeatEvent.t :=
  match e with heartbeat_event d => d | _ => not_this_event end.

(** The members of [SSEEventHandlers]. *)
Inductive Slot : Type :=
| OnStatus | OnLogLine | OnProgress | OnCompleted | OnFailed | OnCanceled
| OnHeartbeat | OnError.

(** One invocation of a handler, and whether it threw. *)
Record Call : Type := mkCall { slot : Slot; threw : bool }.

Inductive ReadyState : Type := CONNECTING | OPEN | CLOSED.

(** The state of one subscription: the connection, the subscriber's world,
    and the handler invocations so far, oldest first. *)
Record Subscription (W : Type) : Type := mkSubscription {
  readyState : ReadyState;
  world : W;
  calls : list Call
}.
Arguments mkSubscription {W}.
Arguments readyState {W}.
Arguments world {W}.
Arguments calls {W}.

Definition Listener (W : Type) : Type :=
  MessageEvent -> Subscription W -> Subscription W.

Record EventSource (W : Type) : Type := mkEventSource {
  url : string;
  listeners : list (string * Listener W);
  onerror : Subscription W -> Subscription W
}.
Arguments mkEventSource {W}.
Arguments url {W}.
Arguments listeners {W}.
Arguments onerror {W}.

Section Subscribe.

Context {W : Type}.

(** [eventSource.close()] *)
Definition close (sub : Subscription W) : Subscription W :=
  mkSubscription CLOSED (world sub) (calls sub).

(** [handlers.h?.(a)] *)
Definition invoke {A : Type} (s : Slot) (h : option (Handler W A)) (a : A)
    (sub : Subscription W) : Subscription W * option Thrown :=
  match h with
  | None => (sub, None)
  | Some f =>
      let '(w', t) := f a (world sub) in
      (mkSubscription (readyState sub) w' (calls sub ++ [mkCall s (bool_decide (is_Some t))]), t)
  end.

Variable handlers : SSEEventHandlers.t W.

(** [catch (err) { handlers.onError?.(err instanceof Error ? err : new
    Error(fallback)) }]; what [onError] itself throws leaves the listener. *)
Definition catch_report (fallback : string) (err : Thrown)
    (sub : Subscription W) : Subscription W :=
  fst (invoke OnError (SSEEventHandlers.onError handlers)
         (if instanceof_Error err then err else new_Error fallback) sub).

(** [try { const data = JSON.parse(e.data) as A; handlers.h?.(data); rest }
     catch (err) { handler err }] *)
Definition try_listener {A : Type} (s : Slot) (h : option (Handler W A))
    (rest : Subscription W -> Subscription W)
    (handler : Thrown -> Subscription W -> Subscription W)
    (data : Data A) (sub : Subscription W) : Subscription W :=
  match data with
  | Malformed message => handler (ErrorObj "SyntaxError" message) sub
  | Parsed v =>
      match invoke s h v sub with
      | (sub', None) => rest sub'
      | (sub', Some err) => handler err sub'
      end
  end.

Definition status_listener : Listener W := fun e =>
  try_listener OnStatus (SSEEventHandlers.onStatus handlers) id
    (catch_report "Failed to parse status event") (as_SSEStatusEvent e).

Definition log_line_listener : Listener W := fun e =>
  try_listener OnLogLine (SSEEventHandlers.onLogLine handlers) id
    (catch_report "Failed to parse log_line event") (as_SSELogLineEvent e).

Definition progress_listener : Listener W := fun e =>
  try_listener OnProgress (SSEEventHandlers.onProgress handlers) id
    (catch_report "Failed to parse progress event") (as_SSEProgressEvent e).

Definition completed_listener : Listener W := fun e =>
  try_listener OnCompleted (SSEEventHandlers.onCompleted handlers) close
    (catch_report "Failed to parse completed event") (as_SSECompletedEvent e).

Definition failed_listener : Listener W := fun e =>
  try_listener OnFailed (SSEEventHandlers.onFailed handlers) close
    (catch_report "Failed to parse failed event") (as_SSEFailedEvent e).

Definition canceled_listener : Listener W := fun e =>
  try_listener OnCanceled (SSEEventHandlers.onCanceled handlers) close
    (catch_report "Failed to parse canceled event") (as_SSECanceledEvent e).

(** Heartbeat errors are non-critical: the [catch] block is empty. *)
Definition heartbeat_listener : Listener W := fun e =>
  try_listener OnHeartbeat (SSEEventHandlers.onHeartbeat handlers) id
    (fun _ sub => sub) (as_SSEHeartbeatEvent e).

(** [eventSource.onerror]: report, then close; a throwing [onError] skips
    the [close]. *)
Definition onerror_listener (sub : Subscription W) : Subscription W :=
  match invoke OnError (SSEEventHandlers.onError handlers)
          (new_Error "SSE connection error") sub with
  | (sub', None) => close sub'
  | (sub', Some _) => sub'
  end.

(** [eventSource.addEventListener(type, l)] *)
Definition addEventListener (type : string) (l : Listener W)
    (es : EventSource W) : EventSource W :=
  mkEventSource (url es) (listeners es ++ [(type, l)]) (onerror es).

Definition set_onerror (f : Subscription W -> Subscription W)
    (es : EventSource W) : EventSource W :=
  mkEventSource (url es) (listeners es) f.

Definition new_EventSource (u : string) : EventSource W :=
  mkEventSource u [] (fun sub => sub).

Definition subscribeToRunEvents (runId : string) : EventSource W :=
  let eventSource := new_EventSource (API_BASE +:+ "/runs/" +:+ runId +:+ "/events") in
  let eventSource := addEventListener "status" status_listener eventSource in
  let eventSource := addEventListener "log_line" log_line_listener eventSource in
  let eventSource := addEventListener "progress" progress_listener eventSource in
  let eventSource := addEventListener "completed" completed_listener eventSource in
  let eventSource := addEventListener "failed" failed_listener eventSource in
  let eventSource := addEventListener "canceled" canceled_listener eventSource in
  let eventSource := addEventListener "heartbeat" heartbeat_listener eventSource in
  set_onerror onerror_listener eventSource.

(** The function [subscribeToRunEvents] returns. *)
Definition cleanup : Subscription W -> Subscription W := close.

End Subscribe.

(** *** The browser side of an [EventSource] *)

(** What the browser does with the connection: it opens it, a message
    arrives, or the connection fails (for good when [fatal], otherwise the
    browser goes back to connecting). *)
Inductive Incoming : Type :=
| Opened
| Message (e : MessageEvent)
| ConnectionError (fatal : bool).

Section Browser.

Context {W : Type}.

(** A fresh connection in the subscriber's world [w]. *)
Definition connect (w : W) : Subscription W := mkSubscription CONNECTING w [].

(** Run the listeners registered for the type of [e], in registration
    order. *)
Fixpoint run_listeners (ls : list (string * Listener W)) (e : MessageEvent)
    (sub : Subscription W) : Subscription W :=
  match ls with
  | [] => sub
  | (type, l) :: ls' =>
      run_listeners ls' e (if String.eqb type (event_type e) then l e sub else sub)
  end.

(** Nothing is dispatched once the source is [CLOSED]; messages are
    dispatched while it is [OPEN].  A message goes to the listeners
    registered for its type; [onerror] is the handler of the events of type
    [error], so it runs for a message the server names [error] as it does
    for a failure of the connection (it was set after the listeners, and
    runs after them). *)
Definition dispatch (es : EventSource W) (i : Incoming)
    (sub : Subscription W) : Subscription W :=
  match readyState sub, i with
  | CLOSED, _ => sub
  | CONNECTING, Opened => mkSubscription OPEN (world sub) (calls sub)
  | OPEN, Opened => sub
  | OPEN, Message e =>
      let sub' := run_listeners (listeners es) e sub in
      if String.eqb (event_type e) "error" then onerror es sub' else sub'
  | CONNECTING, Message _ => sub
  | _, ConnectionError fatal =>
      onerror es
        (mkSubscription (if fatal then CLOSED else CONNECTING) (world sub) (calls sub))
  end.

Fixpoint deliver (es : EventSource W) (incoming : list Incoming)
    (sub : Subscription W) : Subscription W :=
  match incoming with
  | [] => sub
  | i :: rest => deliver es rest (dispatch es i sub)
  end.

End Browser.

(** *** Vocabulary for the properties of a subscription *)

(** The event types the live event boundary names. *)
Definition event_kinds : list string :=
  ["status"; "log_line"; "progress"; "completed"; "failed"; "canceled"; "heartbeat"].

(** The handlers of the terminal events. *)
Definition terminal_slot (s : Slot) : bool :=
  match s with
  | OnCompleted | OnFailed | OnCanceled => true
  | _ => false
  end.

(** The handlers of [status], [log_line], [progress] and [heartbeat]. *)
Definition stream_slot (s : Slot) : bool :=
  match s with
  | OnStatus | OnLogLine | OnProgress | OnHeartbeat => true
  | _ => false
  end.

(** A call of a terminal handler that returned normally. *)
Definition returned_from_terminal (c : Call) : bool :=
  terminal_slot (slot c) && negb (threw c).

(** No terminal handler has returned normally in [l]. *)
Definition quiet (l : list Call) : Prop :=
  Forall (fun c => returned_from_terminal c = false) l.


(** What one listener may do to a subscription with no terminal return so
    far: leave the source as it is and add calls that are no terminal
    return, or close it and add at most one call. *)
Definition listener_step {W : Type} (sub sub' : Subscription W) : Prop :=
  quiet (calls sub) ->
  (readyState sub' = readyState sub /\ quiet (calls sub'))
  \/ (readyState sub' = CLOSED
      /\ (quiet (calls sub') \/ exists c, calls sub' = calls sub ++ [c])).

(** [handlers.h?.(v)] returns normally in the world [w]: there is no
    handler, or the handler does not throw. *)
Definition returns_normally {W A : Type} (h : option (Handler W A)) (v : A) (w : W) : Prop :=
  match h with
  | Some f => snd (f v w) = None
  | None => True
  end.

(** On an open source [es], a message made by [event] with a payload that
    parses closes the source, provided the handler [h] returns normally. *)
Definition closes_after {W A : Type} (es : EventSource W)
    (event : Data A -> MessageEvent) (h : option (Handler W A)) : Prop :=
  forall (sub : Subscription W) (v : A),
    readyState sub = OPEN ->
    returns_normally h v (world sub) ->
    readyState (dispatch es (Message (event (Parsed v))) sub) = CLOSED.

(** A terminal handler that returned normally is the last call, and the
    source is then closed. *)
Definition closed_after_terminal {W : Type} (sub : Subscription W) : Prop :=
  match readyState sub with
  | CLOSED => quiet (calls sub) \/ exists l c, calls sub = l ++ [c] /\ quiet l
  | _ => quiet (calls sub)
  end.

(** *** The other data types and [createRun] *)

Module Benchmark.
Record t : Type := mk {
  name : string;
  category : string;
  description_short : string;
  description : option string;
  tags : list string
}.
End Benchmark.

Module RunSummary.
Record t : Type := mk {
  run_id : string;
  benchmark : string;
  model : string;
  status : string;
  created_at : string;
  finished_at : option string;
  primary_metric : option number
}.
End RunSummary.

Section CreateRun.

Context {W : Type}.
Variable fetch : string -> RequestInit.t -> W -> Completion Response.t * W.
Variable Number_toString : Q -> string.
(** The built-in [JSON.stringify], on a run config. *)
Variable JSON_stringify : RunConfig.t -> string.

Definition createRun (config : RunConfig.t) : W -> Completion JSON * W :=
  request fetch Number_toString "/runs"
    (RequestInit.mk (Some "POST") ∅ (Some (JSON_stringify config))).

(** [`${v}`] for a value read off a parsed body. *)
Definition template (v : option JSON) : string :=
  match v with
  | Some j => ToString Number_toString j
  | None => "undefined"
  end.

End CreateRun.

(** *** Vocabulary for the error paths of a subscription *)

(** A network that answers with [respond] and records each call, oldest
    first. *)
Definition recording (respond : string -> RequestInit.t -> Completion Response.t)
  : string -> RequestInit.t -> list (string * RequestInit.t)
    -> Completion Response.t * list (string * RequestInit.t) :=
  fun u init log => (respond u init, log ++ [(u, init)]).

(** What [handlers.onError?.(err)] leaves of the world [w]. *)
Definition reported {W : Type} (handlers : SSEEventHandlers.t W) (err : Thrown) (w : W) : W :=
  match SSEEventHandlers.onError handlers with
  | Some g => fst (g err w)
  | None => w
  end.

(** The calls [sub'] has made since [sub] are all calls of the handler [s]. *)
Definition only_called {W : Type} (s : Slot) (sub sub' : Subscription W) : Prop :=
  exists added,
    calls sub' = calls sub ++ added
    /\ length added <= 1
    /\ Forall (fun c => slot c = s) added.

(** On an open source [es], a message made by [event] whose data does not
    parse is reported to [onError] as the [SyntaxError] itself; no other
    handler is called and the source stays open. *)
Definition reports_malformed {W A : Type} (es : EventSource W)
    (handlers : SSEEventHandlers.t W) (event : Data A -> MessageEvent) : Prop :=
  forall (sub : Subscription W) (message : string),
    readyState sub = OPEN ->
    world (dispatch es (Message (event (Malformed message))) sub)
    = reported handlers (ErrorObj "SyntaxError" message) (world sub)
    /\ readyState (dispatch es (Message (event (Malformed message))) sub) = OPEN
    /\ only_called OnError sub (dispatch es (Message (event (Malformed message))) sub).

(** On an open source [es], when the handler [h] of a message made by
    [event] throws [err], [onError] is handed [err] if it is an [Error] and
    a new [Error] with the message [fallback] otherwise, in the world the
    handler left; the source stays open. *)
Definition reports_throw {W A : Type} (es : EventSource W)
    (handlers : SSEEventHandlers.t W) (event : Data A -> MessageEvent)
    (h : option (Handler W A)) (fallback : string) : Prop :=
  forall (sub : Subscription W) (f : Handler W A) (v : A) (w' : W) (err : Thrown),
    readyState sub = OPEN ->
    h = Some f ->
    f v (world sub) = (w', Some err) ->
    world (dispatch es (Message (event (Parsed v))) sub)
    = reported handlers (if instanceof_Error err then err else new_Error fallback) w'
    /\ readyState (dispatch es (Message (event (Parsed v))) sub) = OPEN.

End Client.

(** ** [pages/RunDetail.tsx] *)

Module RunDetailPage.
Import Client.

(** The component's state: the [useState] cells, the two refs, and the
    route parameter [id]. *)
Record State : Type := mkState {
  id : option string;
  run : option RunDetail.t;
  loading : bool;
  error : option string;
  stdoutLines : list string;
  stderrLines : list string;
  progress : option SSEProgressEvent.t;
  isSSEConnected : bool;
  sseCleanup : bool;
  hasInitializedSSE : bool
}.

(** After the first render: [useState] initial values, [id] from the route. *)
Definition initial (id : option string) : State :=
  mkState id None true None [] [] None false false false.

(** [!s] for [s : string | undefined] *)
Definition falsy (s : option string) : bool :=
  match s with
  | None => true
  | Some s' => String.eqb s' ""
  end.

Definition setRun (f : option RunDetail.t -> option RunDetail.t) (s : State) : State :=
  mkState (id s) (f (run s)) (loading s) (error s) (stdoutLines s) (stderrLines s)
    (progress s) (isSSEConnected s) (sseCleanup s) (hasInitializedSSE s).

Definition setLoading (b : bool) (s : State) : State :=
  mkState (id s) (run s) b (error s) (stdoutLines s) (stderrLines s)
    (progress s) (isSSEConnected s) (sseCleanup s) (hasInitializedSSE s).

Definition setError (e : option string) (s : State) : State :=
  mkState (id s) (run s) (loading s) e (stdoutLines s) (stderrLines s)
    (progress s) (isSSEConnected s) (sseCleanup s) (hasInitializedSSE s).

Definition setStdoutLines (f : list string -> list string) (s : State) : State :=
  mkState (id s) (run s) (loading s) (error s) (f (stdoutLines s)) (stderrLines s)
    (progress s) (isSSEConnected s) (sseCleanup s) (hasInitializedSSE s).

Definition setStderrLines (f : list string -> list string) (s : State) : State :=
  mkState (id s) (run s) (loading s) (error s) (stdoutLines s) (f (stderrLines s))
    (progress s) (isSSEConnected s) (sseCleanup s) (hasInitializedSSE s).

Definition setProgress (p : option SSEProgressEvent.t) (s : State) : State :=
  mkState (id s) (run s) (loading s) (error s) (stdoutLines s) (stderrLines s)
    p (isSSEConnected s) (sseCleanup s) (hasInitializedSSE s).

Definition setIsSSEConnected (b : bool) (s : State) : State :=
  mkState (id s) (run s) (loading s) (error s) (stdoutLines s) (stderrLines s)
    (progress s) b (sseCleanup s) (hasInitializedSSE s).

Definition set_sseCleanup (b : bool) (s : State) : State :=
  mkState (id s) (run s) (loading s) (error s) (stdoutLines s) (stderrLines s)
    (progress s) (isSSEConnected s) b (hasInitializedSSE s).

Definition set_hasInitializedSSE (b : bool) (s : State) : State :=
  mkState (id s) (run s) (loading s) (error s) (stdoutLines s) (stderrLines s)
    (progress s) (isSSEConnected s) (sseCleanup s) b.

(** [{ ...prev, status }] *)
Definition with_status (status : string) (prev : RunDetail.t) : RunDetail.t :=
  RunDetail.mk (RunDetail.run_id prev) (RunDetail.benchmark prev) (RunDetail.model prev)
    status (RunDetail.created_at prev) (RunDetail.finished_at prev)
    (RunDetail.primary_metric prev) (RunDetail.started_at prev)
    (RunDetail.artifact_dir prev) (RunDetail.exit_code prev) (RunDetail.error prev)
    (RunDetail.config prev) (RunDetail.command prev) (RunDetail.artifacts prev)
    (RunDetail.stdout_tail prev) (RunDetail.stderr_tail prev).

(** [{ ...prev, status: 'completed', exit_code, finished_at }] *)
Definition with_completed (exit_code : option number) (finished_at : option string)
    (prev : RunDetail.t) : RunDetail.t :=
  RunDetail.mk (RunDetail.run_id prev) (RunDetail.benchmark prev) (RunDetail.model prev)
    "completed" (RunDetail.created_at prev) finished_at
    (RunDetail.primary_metric prev) (RunDetail.started_at prev)
    (RunDetail.artifact_dir prev) exit_code (RunDetail.error prev)
    (RunDetail.config prev) (RunDetail.command prev) (RunDetail.artifacts prev)
    (RunDetail.stdout_tail prev) (RunDetail.stderr_tail prev).

(** [{ ...prev, status: 'failed', exit_code, error, finished_at }] *)
Definition with_failed (exit_code : option number) (error finished_at : option string)
    (prev : RunDetail.t) : RunDetail.t :=
  RunDetail.mk (RunDetail.run_id prev) (RunDetail.benchmark prev) (RunDetail.model prev)
    "failed" (RunDetail.created_at prev) finished_at
    (RunDetail.primary_metric prev) (RunDetail.started_at prev)
    (RunDetail.artifact_dir prev) exit_code error
    (RunDetail.config prev) (RunDetail.command prev) (RunDetail.artifacts prev)
    (RunDetail.stdout_tail prev) (RunDetail.stderr_tail prev).

(** [{ ...prev, status: 'canceled', finished_at }] *)
Definition with_canceled (finished_at : option string) (prev : RunDetail.t) : RunDetail.t :=
  RunDetail.mk (RunDetail.run_id prev) (RunDetail.benchmark prev) (RunDetail.model prev)
    "canceled" (RunDetail.created_at prev) finished_at
    (RunDetail.primary_metric prev) (RunDetail.started_at prev)
    (RunDetail.artifact_dir prev) (RunDetail.exit_code prev) (RunDetail.error prev)
    (RunDetail.config prev) (RunDetail.command prev) (RunDetail.artifacts prev)
    (RunDetail.stdout_tail prev) (RunDetail.stderr_tail prev).

(** *** The handlers passed to [api.subscribeToRunEvents]

    State setters do not throw, so each handler returns normally. *)

Definition onStatus : Handler State SSEStatusEvent.t := fun event s =>
  (setRun (fmap (with_status (SSEStatusEvent.status event))) s, None).

Definition onLogLine : Handler State SSELogLineEvent.t := fun event s =>
  match SSELogLineEvent.stream event with
  | stdout => (setStdoutLines (fun prev => prev ++ [SSELogLineEvent.line event]) s, None)
  | stderr => (setStderrLines (fun prev => prev ++ [SSELogLineEvent.line event]) s, None)
  end.

Definition onProgress : Handler State SSEProgressEvent.t := fun event s =>
  (setProgress (Some event) s, None).

Definition onCompleted : Handler State SSECompletedEvent.t := fun event s =>
  (setIsSSEConnected false
     (setRun (fmap (with_completed (Some (SSECompletedEvent.exit_code event))
                      (or_undefined (SSECompletedEvent.finished_at event)))) s),
   None).

Definition onFailed : Handler State SSEFailedEvent.t := fun event s =>
  (setIsSSEConnected false
     (setRun (fmap (with_failed (Some (SSEFailedEvent.exit_code event))
                      (or_undefined (SSEFailedEvent.error event))
                      (or_undefined (SSEFailedEvent.finished_at event)))) s),
   None).

Definition onCanceled : Handler State SSECanceledEvent.t := fun event s =>
  (setIsSSEConnected false
     (setRun (fmap (with_canceled (or_undefined (SSECanceledEvent.finished_at event)))) s),
   None).

(** SSE failed, fall back to polling. *)
Definition onError : Handler State Thrown := fun _ s =>
  (set_hasInitializedSSE false (setIsSSEConnected false s), None).

Definition handlers : SSEEventHandlers.t State :=
  SSEEventHandlers.mk (Some onStatus) (Some onLogLine) (Some onProgress)
    (Some onCompleted) (Some onFailed) (Some onCanceled) None (Some onError).

(** [subscribeToEvents]: the new state and the event source it opened, if
    it opened one. *)
Definition subscribeToEvents (s : State) : State * option (EventSource State) :=
  match id s with
  | Some i =>
      if falsy (id s) || hasInitializedSSE s then (s, None)
      else
        (setIsSSEConnected true (set_sseCleanup true (set_hasInitializedSSE true s)),
         Some (subscribeToRunEvents handlers i))
  | None => (s, None)
  end.

Definition isActive (s : State) : bool :=
  match run s with
  | Some r => String.eqb (RunDetail.status r) "running" || String.eqb (RunDetail.status r) "queued"
  | None => false
  end.

(** The effect that starts SSE when the run is active. *)
Definition startSSE_effect (s : State) : State * option (EventSource State) :=
  if isActive s then subscribeToEvents s else (s, None).

(** The cleanup of that effect: it calls the function [sseCleanup] holds,
    which closes the source, and clears the ref. *)
Definition startSSE_cleanup (sub : Subscription State) : Subscription State :=
  if sseCleanup (world sub)
  then mkSubscription CLOSED (set_sseCleanup false (world sub)) (calls sub)
  else sub.

(** The polling effect: [Some ms] when it holds an interval that calls
    [loadRun] every [ms] milliseconds. *)
Definition pollInterval (s : State) : option N :=
  if falsy (id s) || isSSEConnected s then None
  else
    match run s with
    | Some r =>
        if String.eqb (RunDetail.status r) "running" || String.eqb (RunDetail.status r) "queued"
        then Some 2000%N else None
    | None => Some 2000%N
    end.

(** ["a\nb".split('\n')] *)
Fixpoint split (sep : ascii) (s : string) : list string :=
  match s with
  | EmptyString => [""]
  | String c s' =>
      if Ascii.eqb c sep then "" :: split sep s'
      else
        match split sep s' with
        | [] => [String c ""]
        | h :: t => String c h :: t
        end
  end.

Definition newline : ascii := Ascii.ascii_of_nat 10.

Section Api.

Context {W : Type}.
Variable fetch : string -> RequestInit.t -> W -> Completion Response.t * W.
Variable Number_toString : Q -> string.
(** [as RunDetail]: the page reads the parsed body at this type. *)
Variable as_RunDetail : JSON -> RunDetail.t.

(** The state updates of [loadRun] once [api.getRun(id)] has settled. *)
Definition loadRun_settled (r : Completion JSON) (s : State) : State :=
  match r with
  | Return body =>
      let data := as_RunDetail body in
      let s := setError None (setRun (fun _ => Some data) s) in
      let s :=
        match RunDetail.stdout_tail data with
        | Some tail =>
            if negb (isSSEConnected s) && negb (String.eqb tail "")
            then setStdoutLines (fun _ => split newline tail) s else s
        | None => s
        end in
      let s :=
        match RunDetail.stderr_tail data with
        | Some tail =>
            if negb (isSSEConnected s) && negb (String.eqb tail "")
            then setStderrLines (fun _ => split newline tail) s else s
        | None => s
        end in
      setLoading false s
  | Throw err =>
      let message :=
        match err with
        | ErrorObj _ message => message
        | NonError _ => "Failed to load run"
        end in
      setLoading false (setError (Some message) s)
  end.

Definition loadRun (s : State) (w : W) : State * W :=
  match id s with
  | Some i =>
      if falsy (id s) then (s, w)
      else
        let '(r, w') := getRun fetch Number_toString i 100 w in
        (loadRun_settled r s, w')
  | None => (s, w)
  end.

(** [useEffect(() => { loadRun(); }, [loadRun])], after the first render
    (which runs it too): [loadRun] is rebuilt when [id] or [isSSEConnected]
    changes, and the effect then calls the new one.  [before] is the state
    of the previous render. *)
Definition loadRun_rebuilt (before s : State) : bool :=
  negb (bool_decide (id before = id s))
  || negb (Bool.eqb (isSSEConnected before) (isSSEConnected s)).

Definition initialLoad_effect (before s : State) (w : W) : State * W :=
  if loadRun_rebuilt before s then loadRun s w else (s, w).

Definition handleCancel (s : State) (w : W) : State * W :=
  match id s with
  | Some i =>
      if falsy (id s) then (s, w)
      else
        match cancelRun fetch Number_toString i w with
        | (Return _, w') => loadRun s w'
        | (Throw err, w') =>
            let message :=
              match err with
              | ErrorObj _ message => message
              | NonError _ => "Failed to cancel run"
              end in
            (setError (Some message) s, w')
        end
  | None => (s, w)
  end.

End Api.

(** *** Vocabulary for the properties of the page *)

(** The lines of the [log_line] events of one stream, in order. *)
Fixpoint lines_of (st : Stream) (events : list SSELogLineEvent.t) : list string :=
  match events with
  | [] => []
  | e :: rest =>
      match st, SSELogLineEvent.stream e with
      | stdout, stdout | stderr, stderr => SSELogLineEvent.line e :: lines_of st rest
      | _, _ => lines_of st rest
      end
  end.

(** The browser hands each of [events] to the page as a [log_line] message. *)
Definition log_line_messages (events : list SSELogLineEvent.t) : list Incoming :=
  map (fun e => Message (log_line_event (Parsed e))) events.

(** *** Rendering and the effects between renders *)

(** [a || b] for strings that may be [undefined]. *)
Definition or_else (a b : option string) : option string :=
  match a with
  | Some x => if String.eqb x "" then b else Some x
  | None => b
  end.

(** [lines.join('\n')] *)
Definition join (lines : list string) : string :=
  String.concat (String newline "") lines.

(** [displayStdout] and [displayStderr]: the live lines, else the tail of
    the run record [r], else the empty string. *)
Definition displayStdout (s : State) (r : RunDetail.t) : string :=
  default ""
    (or_else (or_else (Some (join (stdoutLines s))) (RunDetail.stdout_tail r)) (Some "")).

Definition displayStderr (s : State) (r : RunDetail.t) : string :=
  default ""
    (or_else (or_else (Some (join (stderrLines s))) (RunDetail.stderr_tail r)) (Some "")).

(** What the component returns: the loading skeleton, the error page with
    its text, or the page of the run. *)
Inductive View : Type :=
| Skeleton
| ErrorPage (text : string)
| RunPage (r : RunDetail.t).

Definition render (s : State) : View :=
  if loading s then Skeleton
  else
    match or_else (error s) None, run s with
    | Some text, _ => ErrorPage text
    | None, None => ErrorPage "Run not found"
    | None, Some r => RunPage r
    end.

(** [run?.status], the dependency of the effect that starts SSE. *)
Definition status_dep (s : State) : option string := RunDetail.status <$> run s.

(** The effect that starts SSE, run again: the cleanup of its last run,
    then the effect itself.  The second component is the new source, if the
    effect opened one. *)
Definition startSSE_rerun (sub : Subscription State)
  : Subscription State * option (EventSource State) :=
  let sub1 := startSSE_cleanup sub in
  let '(s2, opened) := startSSE_effect (world sub1) in
  (mkSubscription (readyState sub1) s2 (calls sub1), opened).

(** After the state went from [before] to the world of [sub]: the effect
    that starts SSE runs again when [run?.status] has changed. *)
Definition after_update (before : State) (sub : Subscription State)
  : Subscription State * option (EventSource State) :=
  if decide (status_dep before = status_dep (world sub)) then (sub, None)
  else startSSE_rerun sub.

(** A [completed], [failed] or [canceled] message whose data parses. *)
Definition terminal_message (m : MessageEvent) : Prop :=
  match m with
  | completed_event (Parsed _) | failed_event (Parsed _) | canceled_event (Parsed _) => True
  | _ => False
  end.

End RunDetailPage.

(** ** [components/RunForm.tsx] *)

Module RunForm.
Import Client.

(** The providers and the ids of their models (names and descriptions of the
    models are display text and left out). *)
Definition MODEL_PROVIDERS : list (string * string * list string) := [
  ("OpenAI", "openai",
    [
      "openai/gpt-4o"; "openai/gpt-4o-2024-11-20"; "openai/gpt-4o-2024-08-06";
      "openai/gpt-4o-2024-05-13"; "openai/chatgpt-4o-latest";
      "openai/gpt-4o-mini"; "openai/gpt-4o-mini-2024-07-18";
      "openai/gpt-4-turbo"; "openai/gpt-4-turbo-2024-04-09";
      "openai/gpt-4-turbo-preview"; "openai/gpt-4-0125-preview";
      "openai/gpt-4-1106-preview"; "openai/gpt-4"; "openai/gpt-4-0613";
      "openai/gpt-4-32k"; "openai/gpt-4-32k-0613"; "openai/gpt-3.5-turbo";
      "openai/gpt-3.5-turbo-0125"; "openai/gpt-3.5-turbo-1106";
      "openai/gpt-3.5-turbo-16k"; "openai/o1-preview"; "openai/o1-mini"
    ]);
  ("Anthropic", "anthropic",
    [
      "anthropic/claude-3-5-sonnet-20241022";
      "anthropic/claude-3-5-sonnet-20240620";
      "anthropic/claude-3-opus-20240229";
      "anthropic/claude-3-sonnet-20240229";
      "anthropic/claude-3-haiku-20240307"; "anthropic/claude-2.1";
      "anthropic/claude-2"; "anthropic/claude-instant-1.2"
    ]);
  ("Google", "google",
    [
      "google/gemini-2.0-flash-exp"; "google/gemini-exp-1206";
      "google/gemini-exp-1121"; "google/gemini-1.5-pro-latest";
      "google/gemini-1.5-pro"; "google/gemini-1.5-pro-002";
      "google/gemini-1.5-flash-latest"; "google/gemini-1.5-flash";
      "google/gemini-1.5-flash-002"; "google/gemini-1.5-flash-8b";
      "google/gemini-pro"; "google/gemini-pro-vision"
    ]);
  ("Meta Llama", "meta-llama",
    [
      "meta-llama/llama-3.3-70b-instruct";
      "meta-llama/llama-3.2-90b-vision-instruct";
      "meta-llama/llama-3.2-11b-vision-instruct";
      "meta-llama/llama-3.2-3b-instruct"; "meta-llama/llama-3.2-1b-instruct";
      "meta-llama/llama-3.1-405b-instruct";
      "meta-llama/llama-3.1-70b-instruct"; "meta-llama/llama-3.1-8b-instruct";
      "meta-llama/llama-3-70b-instruct"; "meta-llama/llama-3-8b-instruct";
      "meta-llama/llama-2-70b-chat"; "meta-llama/llama-2-13b-chat";
      "meta-llama/llama-2-7b-chat"
    ]);
  ("Mistral AI", "mistral",
    [
      "mistral/mistral-large-latest"; "mistral/mistral-large-2411";
      "mistral/mistral-large-2407"; "mistral/mistral-medium-latest";
      "mistral/mistral-medium-2312"; "mistral/mistral-small-latest";
      "mistral/mistral-small-2402"; "mistral/pixtral-large-latest";
      "mistral/pixtral-12b"; "mistral/mixtral-8x22b-instruct";
      "mistral/mixtral-8x7b-instruct"; "mistral/mistral-7b-instruct";
      "mistral/codestral-latest"; "mistral/codestral-2405"
    ]);
  ("Cohere", "cohere",
    [
      "cohere/command-r-plus"; "cohere/command-r-plus-08-2024";
      "cohere/command-r"; "cohere/command-r-08-2024"; "cohere/command";
      "cohere/command-light"; "cohere/command-nightly"
    ]);
  ("Groq", "groq",
    [
      "groq/llama-3.3-70b-versatile"; "groq/llama-3.3-70b-specdec";
      "groq/llama-3.1-405b-reasoning"; "groq/llama-3.1-70b-versatile";
      "groq/llama-3.1-8b-instant"; "groq/llama-3.2-1b-preview";
      "groq/llama-3.2-3b-preview"; "groq/llama-3.2-11b-vision-preview";
      "groq/llama-3.2-90b-vision-preview"; "groq/llama-3-70b-8192";
      "groq/llama-3-8b-8192"; "groq/llama-guard-3-8b";
      "groq/mixtral-8x7b-32768"; "groq/gemma2-9b-it"; "groq/gemma-7b-it";
      "groq/distil-whisper-large-v3-en"; "groq/whisper-large-v3";
      "groq/whisper-large-v3-turbo"
    ]);
  ("xAI", "xai",
    [
      "xai/grok-beta"; "xai/grok-2-1212"; "xai/grok-2-latest";
      "xai/grok-2-vision-1212"
    ]);
  ("DeepSeek", "deepseek",
    [
      "deepseek/deepseek-chat"; "deepseek/deepseek-coder";
      "deepseek/deepseek-r1"
    ]);
  ("Alibaba Qwen", "qwen",
    [
      "qwen/qwen-2.5-72b-instruct"; "qwen/qwen-2.5-32b-instruct";
      "qwen/qwen-2.5-14b-instruct"; "qwen/qwen-2.5-7b-instruct";
      "qwen/qwen-2-72b-instruct"; "qwen/qwen-2-7b-instruct";
      "qwen/qwq-32b-preview"; "qwen/qwen-2-vl-72b-instruct";
      "qwen/qwen-2-vl-7b-instruct"
    ]);
  ("Perplexity", "perplexity",
    [
      "perplexity/llama-3.1-sonar-huge-128k-online";
      "perplexity/llama-3.1-sonar-large-128k-online";
      "perplexity/llama-3.1-sonar-large-128k-chat";
      "perplexity/llama-3.1-sonar-small-128k-online";
      "perplexity/llama-3.1-sonar-small-128k-chat"
    ]);
  ("AI21 Labs", "ai21",
    [
      "ai21/jamba-1-5-large"; "ai21/jamba-1-5-mini"; "ai21/jamba-instruct"
    ]);
  ("Amazon", "amazon",
    [
      "amazon/nova-pro-v1"; "amazon/nova-lite-v1"; "amazon/nova-micro-v1"
    ]);
  ("Inflection", "inflection",
    [
      "inflection/inflection-3-pi"; "inflection/inflection-3-productivity"
    ]);
  ("Microsoft", "microsoft",
    [
      "microsoft/phi-4"; "microsoft/phi-3.5-mini-128k-instruct";
      "microsoft/phi-3-medium-128k-instruct"; "microsoft/wizardlm-2-8x22b"
    ]);
  ("NousResearch", "nousresearch",
    [
      "nousresearch/hermes-3-llama-3.1-405b";
      "nousresearch/hermes-3-llama-3.1-70b";
      "nousresearch/hermes-2-pro-llama-3-8b"
    ]);
  ("OpenRouter", "openrouter",
    [
      "openrouter/auto"
    ]);
  ("Other", "other",
    [
      "custom"
    ])
].

Definition allModelIds : list string :=
  flat_map (fun p => snd p) MODEL_PROVIDERS.

(** [allModelIds.includes(m)] *)
Definition includes (m : string) (l : list string) : bool :=
  existsb (String.eqb m) l.

(** The form's [useState] cells. *)
Record State : Type := mkState {
  benchmark : string;
  model : string;
  customModel : string;
  limit : option number;
  showAdvanced : bool;
  temperature : option number;
  topP : option number;
  maxTokens : option number;
  timeout : option number;
  epochs : option number;
  maxConnections : option number
}.

(** The cells after the first render with the given [prefill], and after the
    effect that opens the advanced settings when one of them is prefilled. *)
Definition initial (prefill : option RunConfig.t) : State :=
  match prefill with
  | None => mkState "" "" "" (Some (Num 10)) false None None None None None None
  | Some p =>
      let hasModel := negb (String.eqb (RunConfig.model p) "") in
      let isPrefillModelKnown :=
        if hasModel then includes (RunConfig.model p) allModelIds else false in
      mkState
        (RunConfig.benchmark p)
        (if hasModel then (if isPrefillModelKnown then RunConfig.model p else "custom") else "")
        (if hasModel && negb isPrefillModelKnown then RunConfig.model p else "")
        (match RunConfig.limit p with Some l => Some l | None => Some (Num 10) end)
        (bool_decide (is_Some (RunConfig.temperature p))
         || bool_decide (is_Some (RunConfig.top_p p))
         || bool_decide (is_Some (RunConfig.max_tokens p))
         || bool_decide (is_Some (RunConfig.timeout p))
         || bool_decide (is_Some (RunConfig.epochs p))
         || bool_decide (is_Some (RunConfig.max_connections p)))
        (RunConfig.temperature p) (RunConfig.top_p p) (RunConfig.max_tokens p)
        (RunConfig.timeout p) (RunConfig.epochs p) (RunConfig.max_connections p)
  end.

(** [handleSubmit]: the config passed to [onSubmit], if it is called. *)
Definition handleSubmit (s : State) : option RunConfig.t :=
  let finalModel := if String.eqb (model s) "custom" then customModel s else model s in
  if String.eqb (benchmark s) "" || String.eqb finalModel "" then None
  else
    Some (RunConfig.mk None (benchmark s) finalModel (limit s)
            (temperature s) (topP s) (maxTokens s) (timeout s) (epochs s)
            (maxConnections s)).

Section Input.

(** The built-ins [parseInt] and [parseFloat]. *)
Variable parseInt : string -> number.
Variable parseFloat : string -> number.

(** [handleNumberInput]: the value handed to the setter. *)
Definition handleNumberInput (value : string) (isFloat : bool) : option number :=
  if String.eqb value "" then None
  else Some (if isFloat then parseFloat value else parseInt value).

(** What the user does with the form. *)
Inductive Event : Type :=
| SelectBenchmark (name : string)
| SelectModel (id : string)
| TypeCustomModel (text : string)
| ChangeLimit (value : string)
| ToggleAdvanced
| ChangeTemperature (value : string)
| ChangeTopP (value : string)
| ChangeMaxTokens (value : string)
| ChangeTimeout (value : string)
| ChangeEpochs (value : string)
| ChangeMaxConnections (value : string)
| Submit.

(** [<input type="number" min max>] showing the state value [v]: an empty
    control (no value, or [NaN]) has no range to violate. *)
Definition in_range (min max : Q) (v : option number) : bool :=
  match v with
  | None => true
  | Some NaN => true
  | Some (Num q) => Qle_bool min q && Qle_bool q max
  end.

(** The part of the browser's constraint validation that the [min] and
    [max] attributes decide: every number input that is rendered is within
    its range.  The advanced inputs are rendered only under
    [showAdvanced &&].  The browser refuses a submit for other reasons too
    (a value off the [step] of its input, text that is no number), so every
    submit it lets through passes this check, and not conversely. *)
Definition withinMinMax (s : State) : bool :=
  in_range 1 10000 (limit s)
  && (if showAdvanced s then
        in_range 0 2 (temperature s)
        && in_range 0 1 (topP s)
        && in_range 1 128000 (maxTokens s)
        && in_range 1 3600 (timeout s)
        && in_range 1 100 (epochs s)
        && in_range 1 100 (maxConnections s)
      else true).

(** The [disabled] attribute of the submit button. *)
Definition submitDisabled (loading : bool) (s : State) : bool :=
  String.eqb (benchmark s) ""
  || String.eqb (model s) ""
  || (String.eqb (model s) "custom" && String.eqb (customModel s) "")
  || loading.

(** One user event: the new state and the config handed to [onSubmit], if
    any.  An input that is not rendered receives no events.  A [Submit] is
    the user asking for a submit: it reaches [handleSubmit] only when the
    button is enabled and the browser's validation lets it through, of which
    the range check is modelled; so [step] lets through every submit the
    browser does. *)
Definition step (loading : bool) (s : State) (e : Event) : State * option RunConfig.t :=
  let advanced (s' : State) := if showAdvanced s then s' else s in
  match e with
  | SelectBenchmark name =>
      (mkState name (model s) (customModel s) (limit s) (showAdvanced s)
         (temperature s) (topP s) (maxTokens s) (timeout s) (epochs s) (maxConnections s), None)
  | SelectModel m =>
      (mkState (benchmark s) m (customModel s) (limit s) (showAdvanced s)
         (temperature s) (topP s) (maxTokens s) (timeout s) (epochs s) (maxConnections s), None)
  | TypeCustomModel text =>
      (if String.eqb (model s) "custom" then
         mkState (benchmark s) (model s) text (limit s) (showAdvanced s)
           (temperature s) (topP s) (maxTokens s) (timeout s) (epochs s) (maxConnections s)
       else s, None)
  | ChangeLimit value =>
      (mkState (benchmark s) (model s) (customModel s) (handleNumberInput value false)
         (showAdvanced s)
         (temperature s) (topP s) (maxTokens s) (timeout s) (epochs s) (maxConnections s), None)
  | ToggleAdvanced =>
      (mkState (benchmark s) (model s) (customModel s) (limit s) (negb (showAdvanced s))
         (temperature s) (topP s) (maxTokens s) (timeout s) (epochs s) (maxConnections s), None)
  | ChangeTemperature value =>
      (advanced
         (mkState (benchmark s) (model s) (customModel s) (limit s) (showAdvanced s)
            (handleNumberInput value true) (topP s) (maxTokens s) (timeout s) (epochs s)
            (maxConnections s)), None)
  | ChangeTopP value =>
      (advanced
         (mkState (benchmark s) (model s) (customModel s) (limit s) (showAdvanced s)
            (temperature s) (handleNumberInput value true) (maxTokens s) (timeout s)
            (epochs s) (maxConnections s)), None)
  | ChangeMaxTokens value =>
      (advanced
         (mkState (benchmark s) (model s) (customModel s) (limit s) (showAdvanced s)
            (temperature s) (topP s) (handleNumberInput value false) (timeout s)
            (epochs s) (maxConnections s)), None)
  | ChangeTimeout value =>
      (advanced
         (mkState (benchmark s) (model s) (customModel s) (limit s) (showAdvanced s)
            (temperature s) (topP s) (maxTokens s) (handleNumberInput value false)
            (epochs s) (maxConnections s)), None)
  | ChangeEpochs value =>
      (advanced
         (mkState (benchmark s) (model s) (customModel s) (limit s) (showAdvanced s)
            (temperature s) (topP s) (maxTokens s) (timeout s)
            (handleNumberInput value false) (maxConnections s)), None)
  | ChangeMaxConnections value =>
      (advanced
         (mkState (benchmark s) (model s) (customModel s) (limit s) (showAdvanced s)
            (temperature s) (topP s) (maxTokens s) (timeout s) (epochs s)
            (handleNumberInput value false)), None)
  | Submit =>
      if submitDisabled loading s then (s, None)
      else if withinMinMax s then (s, handleSubmit s)
      else (s, None)
  end.

(** A session with the form: the final state and the configs handed to
    [onSubmit], oldest first. *)
Fixpoint session (loading : bool) (s : State) (es : list Event) : State * list RunConfig.t :=
  match es with
  | [] => (s, [])
  | e :: es' =>
      let '(s', submitted) := step loading s e in
      let '(s'', later) := session loading s' es' in
      (s'', match submitted with Some c => c :: later | None => later end)
  end.

End Input.

(** The parameter bounds of the submission boundary. *)
Definition positive (v : option number) : Prop :=
  match v with
  | None => True
  | Some NaN => False
  | Some (Num q) => (0 < q)%Q
  end.

Definition between (lo hi : Q) (v : option number) : Prop :=
  match v with
  | None => True
  | Some NaN => False
  | Some (Num q) => (lo <= q)%Q /\ (q <= hi)%Q
  end.

Definition within_bounds (c : RunConfig.t) : Prop :=
  positive (RunConfig.limit c)
  /\ between 0 2 (RunConfig.temperature c)
  /\ between 0 1 (RunConfig.top_p c)
  /\ positive (RunConfig.max_tokens c)
  /\ positive (RunConfig.timeout c)
  /\ positive (RunConfig.epochs c)
  /\ positive (RunConfig.max_connections c).


(** The config [handleSubmit] builds from the cells [s]. *)
Definition config_of (s : State) : RunConfig.t :=
  RunConfig.mk None (benchmark s)
    (if String.eqb (model s) "custom" then customModel s else model s)
    (limit s) (temperature s) (topP s) (maxTokens s) (timeout s) (epochs s)
    (maxConnections s).

(** [parseInt] and [parseFloat] on a non-empty string of decimal digits:
    both return the number the digits denote.  (On other strings this
    function answers [NaN]; the built-ins accept more.) *)
Fixpoint digits_value (acc : N) (s : string) : option N :=
  match s with
  | EmptyString => Some acc
  | String c s' =>
      let n := N_of_ascii c in
      if (48 <=? n)%N && (n <=? 57)%N then digits_value (10 * acc + (n - 48))%N s'
      else None
  end.

Definition parseDigits (s : string) : number :=
  match s with
  | EmptyString => NaN
  | _ =>
      match digits_value 0 s with
      | Some n => Num (inject_Z (Z.of_N n))
      | None => NaN
      end
  end.

(** *** The providers offered in the model menu *)

(** Map model prefixes to API key providers (some models can use multiple
    providers). *)
Definition MODEL_PREFIX_TO_PROVIDERS : list (string * list string) := [
  ("openai", ["openai"]);
  ("anthropic", ["anthropic"]);
  ("google", ["google"]);
  ("meta-llama", ["together"; "groq"; "fireworks"; "openrouter"]);
  ("mistral", ["mistral"; "together"; "openrouter"]);
  ("cohere", ["cohere"]);
  ("groq", ["groq"]);
  ("xai", ["openrouter"]);
  ("deepseek", ["together"; "openrouter"]);
  ("qwen", ["together"; "openrouter"]);
  ("perplexity", ["openrouter"]);
  ("ai21", ["openrouter"]);
  ("amazon", ["openrouter"]);
  ("inflection", ["openrouter"]);
  ("microsoft", ["openrouter"]);
  ("nousresearch", ["together"; "openrouter"]);
  ("openrouter", ["openrouter"]);
  ("other", ["custom"])
].

(** [MODEL_PREFIX_TO_PROVIDERS[prefix] || []] *)
Definition possibleProviders (prefix : string) : list string :=
  match List.find (fun entry => String.eqb (fst entry) prefix) MODEL_PREFIX_TO_PROVIDERS with
  | Some entry => snd entry
  | None => []
  end.

(** [filteredProviders], for the [provider] members of the user's API
    keys: the "other" category always, the rest if the user has any of the
    possible provider keys. *)
Definition filteredProviders (apiKeys : list string) : list (string * string * list string) :=
  List.filter
    (fun provider =>
       String.eqb (snd (fst provider)) "other"
       || existsb (fun p => includes p apiKeys) (possibleProviders (snd (fst provider))))
    MODEL_PROVIDERS.

(** The config a prefill stands for once it has gone through the form: no
    schema version, and a limit of 10 when the prefill has none. *)
Definition resubmitted (p : RunConfig.t) : RunConfig.t :=
  RunConfig.mk None (RunConfig.benchmark p) (RunConfig.model p)
    (match RunConfig.limit p with Some l => Some l | None => Some (Num 10) end)
    (RunConfig.temperature p) (RunConfig.top_p p) (RunConfig.max_tokens p)
    (RunConfig.timeout p) (RunConfig.epochs p) (RunConfig.max_connections p).

End RunForm.

(** ** The run coordinator behind the HTTP boundary

    The server is not part of the front-end sources; the definitions of this
    module follow the specification of the run state machine, the run
    coordinator and the cancel and submission boundaries. *)

Module Coordinator.
Import Client.

Inductive Status : Type := queued | running | completed | failed | canceled.

Definition status_name (s : Status) : string :=
  match s with
  | queued => "queued"
  | running => "running"
  | completed => "completed"
  | failed => "failed"
  | canceled => "canceled"
  end.

Definition terminal (s : Status) : bool :=
  match s with
  | completed | failed | canceled => true
  | queued | running => false
  end.

Record RunRecord : Type := mkRunRecord {
  run_id : string;
  config : RunConfig.t;
  status : Status;
  created_at : N;
  started_at : option N;
  finished_at : option N;
  exit_code : option Z;
  error : option string
}.

(** The coordinating process: the run record store, the clock, the number of
    ids handed out, and the runs whose process [terminate()] was invoked on,
    oldest first. *)
Record State : Type := mkState {
  store : gmap string RunRecord;
  now : N;
  issued : N;
  terminated : list string
}.

(** Modelled from the spec: the cancel transition of the run state machine
    (the server is not under the front-end sources).  [queued | running ->
    canceled] sets [finished_at]; any other current state is left as it is. *)
Definition cancel_transition (t : N) (r : RunRecord) : RunRecord :=
  match status r with
  | queued | running =>
      mkRunRecord (run_id r) (config r) canceled (created_at r) (started_at r)
        (Some t) (exit_code r) (error r)
  | _ => r
  end.

(** Modelled from the spec: [cancel(run_id)] of the run coordinator (the
    server is not under the front-end sources).  It requests the cancel
    transition, invokes the launcher's [terminate()] as part of a transition
    that fires, and returns the run's resulting status; a request that does
    not match the current state is a no-op that reports the current state.
    [None] stands for a run id the store does not know. *)
Definition cancel (id : string) (c : State) : option Status * State :=
  match store c !! id with
  | None => (None, c)
  | Some r =>
      if terminal (status r) then (Some (status r), c)
      else
        let r' := cancel_transition (now c) r in
        (Some (status r'),
         mkState (<[id := r']> (store c)) (N.succ (now c)) (issued c)
           (terminated c ++ [id]))
  end.

(** Modelled from the spec: the parameter bounds of the submission boundary
    (the server is not under the front-end sources): [limit], [max_tokens],
    [timeout], [epochs], [max_connections] are integers above 0,
    [temperature] is in [0,2] and [top_p] in [0,1]. *)
Definition is_int (q : Q) : bool := (Z.rem (Qnum q) (Zpos (Qden q)) =? 0)%Z.

Definition int_above_0 (v : option number) : bool :=
  match v with
  | None => true
  | Some NaN => false
  | Some (Num q) => is_int q && negb (Qle_bool q 0)
  end.

Definition float_in (lo hi : Q) (v : option number) : bool :=
  match v with
  | None => true
  | Some NaN => false
  | Some (Num q) => Qle_bool lo q && Qle_bool q hi
  end.

Definition bounds_ok (c : RunConfig.t) : bool :=
  int_above_0 (RunConfig.limit c)
  && float_in 0 2 (RunConfig.temperature c)
  && float_in 0 1 (RunConfig.top_p c)
  && int_above_0 (RunConfig.max_tokens c)
  && int_above_0 (RunConfig.timeout c)
  && int_above_0 (RunConfig.epochs c)
  && int_above_0 (RunConfig.max_connections c).

Inductive SubmitResult : Type :=
| Accepted (run_id : string)
| ValidationError.

Section Submit.

(** The catalog, an injected capability. *)
Variable has_benchmark : string -> bool.
Variable has_model : string -> bool.

(** Modelled from the spec: [submit(config)] of the run coordinator (the
    server is not under the front-end sources).  It fails with
    [ValidationError] when the config names an unknown benchmark or model or
    violates the parameter bounds; otherwise it creates the record as
    [queued] and returns its id. *)
Definition submit (cfg : RunConfig.t) (c : State) : SubmitResult * State :=
  if has_benchmark (RunConfig.benchmark cfg) && has_model (RunConfig.model cfg)
     && bounds_ok cfg
  then
    let id := "run-" +:+ decimal (issued c) in
    (Accepted id,
     mkState
       (<[id := mkRunRecord id cfg queued (now c) None None None None]> (store c))
       (N.succ (now c)) (N.succ (issued c)) (terminated c))
  else (ValidationError, c).

End Submit.

(** [s] without the prefix [p], when it starts with it. *)
Fixpoint strip_prefix (p s : string) : option string :=
  match p, s with
  | EmptyString, _ => Some s
  | String a p', String b s' => if Ascii.eqb a b then strip_prefix p' s' else None
  | String _ _, EmptyString => None
  end.

(** [s] without the suffix [suf], when it ends with it. *)
Fixpoint strip_suffix (suf s : string) : option string :=
  if String.eqb s suf then Some ""
  else
    match s with
    | EmptyString => None
    | String c s' => String c <$> strip_suffix suf s'
    end.

(** The run id in the URL of the cancel boundary. *)
Definition cancel_route (url : string) : option string :=
  strip_prefix "/api/runs/" url ≫= strip_suffix "/cancel".

(** Modelled from the spec: the cancel boundary (the server is not under
    the front-end sources): [POST /api/runs/{id}/cancel] accepts a run id,
    triggers [cancel()] and returns the resulting status.  The spec does not
    say what an unknown run or another request is answered with; the model
    answers 404. *)
Definition fetch (url : string) (init : RequestInit.t) (c : State)
  : Completion Response.t * State :=
  let not_found := Response.mk false 404 (Return (JObj [("detail", JStr "Not Found")])) in
  match RequestInit.method init, cancel_route url with
  | Some "POST", Some id =>
      match cancel id c with
      | (Some st, c') =>
          (Return (Response.mk true 200 (Return (JObj [("status", JStr (status_name st))]))), c')
      | (None, c') => (Return not_found, c')
      end
  | _, _ => (Return not_found, c)
  end.

End Coordinator.


(** ** [pages/NewRun.tsx] *)

Module NewRun.
Import Client.

(** The [useState] cells, and the route the page last navigated to. *)
Record State : Type := mkState {
  benchmarks : list Benchmark.t;
  loading : bool;
  submitting : bool;
  error : option string;
  location : option string
}.

Definition initial : State := mkState [] true false None None.

Definition setBenchmarks (b : list Benchmark.t) (s : State) : State :=
  mkState b (loading s) (submitting s) (error s) (location s).

Definition setLoading (b : bool) (s : State) : State :=
  mkState (benchmarks s) b (submitting s) (error s) (location s).

Definition setSubmitting (b : bool) (s : State) : State :=
  mkState (benchmarks s) (loading s) b (error s) (location s).

Definition setError (e : option string) (s : State) : State :=
  mkState (benchmarks s) (loading s) (submitting s) e (location s).

Definition navigate (to : string) (s : State) : State :=
  mkState (benchmarks s) (loading s) (submitting s) (error s) (Some to).

(** [err instanceof Error ? err.message : fallback] *)
Definition message_or (fallback : string) (err : Thrown) : string :=
  match err with
  | ErrorObj _ message => message
  | NonError _ => fallback
  end.

Section Api.

Context {W : Type}.
Variable fetch : string -> RequestInit.t -> W -> Completion Response.t * W.
Variable Number_toString : Q -> string.
Variable JSON_stringify : RunConfig.t -> string.
(** [as Benchmark[]]: the page reads the parsed body at this type. *)
Variable as_Benchmarks : JSON -> list Benchmark.t.

Definition loadBenchmarks (s : State) (w : W) : State * W :=
  match listBenchmarks fetch Number_toString w with
  | (Return data, w') =>
      (setLoading false (setError None (setBenchmarks (as_Benchmarks data) s)), w')
  | (Throw err, w') =>
      (setLoading false (setError (Some (message_or "Failed to load benchmarks" err)) s), w')
  end.

Definition handleSubmit (config : RunConfig.t) (s : State) (w : W) : State * W :=
  let s := setError None (setSubmitting true s) in
  let failed (err : Thrown) :=
    setSubmitting false (setError (Some (message_or "Failed to start run" err)) s) in
  match createRun fetch Number_toString JSON_stringify config w with
  | (Return result, w') =>
      match get_prop result "run_id" with
      | Return run_id => (navigate ("/runs/" +:+ template Number_toString run_id) s, w')
      | Throw err => (failed err, w')
      end
  | (Throw err, w') => (failed err, w')
  end.

End Api.

End NewRun.

(** ** [pages/Dashboard.tsx] *)

Module Dashboard.
Import Client.

Record State : Type := mkState {
  runs : list RunSummary.t;
  loading : bool;
  error : option string
}.

Definition initial : State := mkState [] true None.

Section Api.

Context {W : Type}.
Variable fetch : string -> RequestInit.t -> W -> Completion Response.t * W.
Variable Number_toString : Q -> string.
(** [as RunSummary[]]: the page reads the parsed body at this type. *)
Variable as_RunSummaries : JSON -> list RunSummary.t.

(** [api.listRuns()] takes its default limit, 50. *)
Definition loadRuns (s : State) (w : W) : State * W :=
  match listRuns fetch Number_toString 50 w with
  | (Return data, w') => (mkState (as_RunSummaries data) false None, w')
  | (Throw err, w') =>
      (mkState (runs s) false (Some (NewRun.message_or "Failed to load runs" err)), w')
  end.

End Api.

(** [runs.filter((r) => r.status === status).length] *)
Definition count (status : string) (runs : list RunSummary.t) : nat :=
  length (List.filter (fun r => String.eqb (RunSummary.status r) status) runs).

Record Stats : Type := mkStats {
  total : nat;
  running : nat;
  completed : nat;
  failed : nat
}.

Definition stats (s : State) : Stats :=
  mkStats (length (runs s)) (count "running" (runs s)) (count "completed" (runs s))
    (count "failed" (runs s)).

End Dashboard.

(** ** [components/RunTable.tsx] *)

Module RunTable.

Section FormatDate.

(** [new Date(dateStr).getTime()], in milliseconds; [None] is [NaN], an
    invalid date.  [date.toLocaleDateString()] is the built-in. *)
Variable getTime : string -> option Z.
Variable toLocaleDateString : string -> string.

(** [formatDate], at the time [now] of [new Date()].  Every comparison
    with [NaN] is false, so an invalid date falls through to the last
    line. *)
Definition formatDate (now : Z) (dateStr : string) : string :=
  match getTime dateStr with
  | None => toLocaleDateString dateStr
  | Some date =>
      let diffMs := (now - date)%Z in
      let diffMins := (diffMs / 60000)%Z in
      let diffHours := (diffMs / 3600000)%Z in
      let diffDays := (diffMs / 86400000)%Z in
      if (diffMins <? 1)%Z then "just now"
      else if (diffMins <? 60)%Z then decimal (Z.to_N diffMins) +:+ "m ago"
      else if (diffHours <? 24)%Z then decimal (Z.to_N diffHours) +:+ "h ago"
      else if (diffDays <? 7)%Z then decimal (Z.to_N diffDays) +:+ "d ago"
      else toLocaleDateString dateStr
  end.

End FormatDate.

End RunTable.

(** ** [components/LogTail.tsx] *)

Module LogTail.

(** [content ? content.split('\n').length : 0] *)
Definition lineCount (content : option string) : nat :=
  match content with
  | Some c =>
      if String.eqb c "" then 0
      else length (RunDetailPage.split RunDetailPage.newline c)
  | None => 0
  end.

(** The string [s] has the character [c] in it. *)
Fixpoint has_char (c : ascii) (s : string) : bool :=
  match s with
  | EmptyString => false
  | String c' s' => Ascii.eqb c' c || has_char c s'
  end.

End LogTail.

(** ** Sample inputs *)

Module Samples.
Import Client.

(** A server that answers every request with the same response. *)
Definition always (response : Response.t)
  : string -> RequestInit.t -> unit -> Completion Response.t * unit :=
  fun _ _ w => (Return response, w).

Definition no_format : Q -> string := fun _ => "".

Definition empty_detail_500 : Response.t :=
  Response.mk false 500 (Return (JObj [("detail", JStr "")])).

Definition null_body_500 : Response.t := Response.mk false 500 (Return JNull).

Definition not_found_404 : Response.t :=
  Response.mk false 404 (Return (JObj [("detail", JStr "Run not found")])).

Definition canceled_200 : Response.t :=
  Response.mk true 200 (Return (JObj [("status", JStr "canceled")])).

(** Handlers whose [onCompleted] throws. *)
Definition throwing_handlers : SSEEventHandlers.t unit :=
  SSEEventHandlers.mk None (Some (fun _ w => (w, None))) None
    (Some (fun _ w => (w, Some (new_Error "render failed")))) None None None None.

Definition completed_0 : SSECompletedEvent.t :=
  SSECompletedEvent.mk (Num 0) (Some "2025-01-01T00:00:05Z").

Definition late_line : SSELogLineEvent.t := SSELogLineEvent.mk stdout "late".

(** Handlers that only return. *)
Definition quiet_handlers : SSEEventHandlers.t unit :=
  SSEEventHandlers.mk None (Some (fun _ w => (w, None))) None
    (Some (fun _ w => (w, None))) None None None (Some (fun _ w => (w, None))).

(** A [completed] event whose data is cut short. *)
Definition truncated_completed : MessageEvent :=
  completed_event (Malformed "Unexpected end of JSON input").

Definition queued_run : RunDetail.t :=
  RunDetail.mk "r1" "gsm8k" "groq/llama-3.1-8b-instant" "queued"
    "2025-01-01T00:00:00Z" None None None None None None None None [] None None.

Definition running_run : RunDetail.t :=
  RunDetail.mk "r1" "gsm8k" "groq/llama-3.1-8b-instant" "running"
    "2025-01-01T00:00:00Z" None None (Some "2025-01-01T00:00:01Z") None None None
    None None [] None None.

(** The page showing [running_run], subscribed and connected. *)
Definition live_page : Subscription RunDetailPage.State :=
  mkSubscription OPEN
    (RunDetailPage.mkState (Some "r1") (Some running_run) false None [] [] None
       true true true)
    [].

Definition progress_3_of_5 : SSEProgressEvent.t :=
  SSEProgressEvent.mk (Num 3) (Num 5) (Num 60) (Some "3/5 samples").

Definition canceled_at_5 : SSECanceledEvent.t :=
  SSECanceledEvent.mk (Some "2025-01-01T00:00:05Z").

(** A well-typed [failed] payload whose [error] is [null]. *)
Definition failed_without_error : SSEFailedEvent.t :=
  SSEFailedEvent.mk (Num 1) None (Some "2025-01-01T00:00:05Z").

Definition failed_with_error : SSEFailedEvent.t :=
  SSEFailedEvent.mk (Num 1) (Some "Process exited with code 1")
    (Some "2025-01-01T00:00:05Z").

Definition step_1 : SSELogLineEvent.t := SSELogLineEvent.mk stdout "step 1".

Definition warning_1 : SSELogLineEvent.t := SSELogLineEvent.mk stderr "warning".

(** A coordinator with one running run, ["run-0"]. *)
Definition gsm8k_config : RunConfig.t :=
  RunConfig.mk None "gsm8k" "groq/llama-3.1-8b-instant" (Some (Num 5))
    None None None None None None.

Definition one_running_run : Coordinator.State :=
  Coordinator.mkState
    {["run-0" := Coordinator.mkRunRecord "run-0" gsm8k_config Coordinator.running
                   0 (Some 1%N) None None None]}
    2 1 [].



(** The user picks a benchmark and a model and submits. *)
Definition plain_session : list RunForm.Event :=
  [RunForm.SelectBenchmark "gsm8k"; RunForm.SelectModel "openai/gpt-4o"; RunForm.Submit].

Definition plain_config : RunConfig.t :=
  RunConfig.mk None "gsm8k" "openai/gpt-4o" (Some (Num 10)) None
    None None None None None.

(** A caller that sets its own headers. *)
Definition text_plain_options : RequestInit.t :=
  RequestInit.mk (Some "POST")
    (<["Content-Type" := "text/plain"]> {["Authorization" := "Bearer t"]}) (Some "x").

(** Handlers whose [onStatus] throws a string and whose [onError] records
    the message it is handed. *)
Definition string_throwing_handlers : SSEEventHandlers.t (list string) :=
  SSEEventHandlers.mk (Some (fun _ w => (w, Some (NonError "oops")))) None None
    None None None None
    (Some (fun err w =>
             (w ++ [match err with ErrorObj _ m => m | NonError v => v end], None))).

Definition status_running : SSEStatusEvent.t :=
  SSEStatusEvent.mk "running" "2025-01-01T00:00:01Z".

(** The page showing [queued_run], subscribed and connected. *)
Definition queued_page : Subscription RunDetailPage.State :=
  mkSubscription OPEN
    (RunDetailPage.mkState (Some "r1") (Some queued_run) false None [] [] None
       true true true)
    [].

(** The page polling a running run, with no source. *)
Definition polling_state : RunDetailPage.State :=
  RunDetailPage.mkState (Some "r1") (Some running_run) false None [] [] None
    false false false.

Definition run_with_tail : RunDetail.t :=
  RunDetail.mk "r1" "gsm8k" "groq/llama-3.1-8b-instant" "running"
    "2025-01-01T00:00:00Z" None None (Some "2025-01-01T00:00:01Z") None None None
    None None [] (Some ("sample 1" +:+ String RunDetailPage.newline "sample 2")) None.

Definition run_detail_200 : Response.t := Response.mk true 200 (Return JNull).

Definition server_down_503 : Response.t :=
  Response.mk false 503 (Return (JObj [("detail", JStr "Service unavailable")])).

(** The config of an earlier run, with a model the form does not list. *)
Definition earlier_config : RunConfig.t :=
  RunConfig.mk (Some (Num 1)) "gsm8k" "groq/llama-3.1-8b-instant" None
    (Some (Num (1 # 2))) None None None None None.

Definition created_201 : Response.t :=
  Response.mk true 201 (Return (JObj [("run_id", JStr "r7")])).

Definition unknown_benchmark_400 : Response.t :=
  Response.mk false 400 (Return (JObj [("detail", JStr "Unknown benchmark")])).

Definition summary (id status : string) : RunSummary.t :=
  RunSummary.mk id "gsm8k" "groq/llama-3.1-8b-instant" status
    "2025-01-01T00:00:00Z" None None.

End Samples.

(** * Properties *)

Import Client Samples.

(** ** The request helper *)

Section RequestProperties.

Context {W : Type}.
Variable fetch : string -> RequestInit.t -> W -> Completion Response.t * W.
Variable Number_toString : Q -> string.

Lemma get_prop_not_null (v : JSON) (k : string) :
  v <> JNull ->
  get_prop v k = Return (match v with JObj members => assoc k members | _ => None end).
Proof. destruct v; intros Hv; try reflexivity. congruence. Qed.

Lemma request_not_ok_throws endpoint options w response w' :
  fetch (API_BASE +:+ endpoint) (sent_init options) w = (Return response, w') ->
  Response.ok response = false ->
  exists e, request fetch Number_toString endpoint options w = (Throw e, w').
Proof.
  intros Hf Hok. unfold request. rewrite Hf, Hok. simpl.
  destruct (get_prop _ "detail") as [detail|e]; eauto.
Qed.

Lemma request_not_ok_message endpoint options w response w' :
  fetch (API_BASE +:+ endpoint) (sent_init options) w = (Return response, w') ->
  Response.ok response = false ->
  error_body response <> JNull ->
  request fetch Number_toString endpoint options w
  = (Throw (new_Error (thrown_message Number_toString response)), w').
Proof.
  intros Hf Hok Hnull. unfold request. rewrite Hf, Hok. simpl.
  rewrite (get_prop_not_null _ _ Hnull).
  unfold thrown_message, detail_of.
  destruct (error_body response) as [| | | | |members]; try reflexivity.
  destruct (assoc "detail" members) as [d|]; reflexivity.
Qed.

Lemma request_ok endpoint options w response w' :
  fetch (API_BASE +:+ endpoint) (sent_init options) w = (Return response, w') ->
  Response.ok response = true ->
  request fetch Number_toString endpoint options w = (Response.json response, w').
Proof.
  intros Hf Hok. unfold request. rewrite Hf, Hok. reflexivity.
Qed.

(** C10, as amended.  When [fetch] resolves to a response that is not ok,
    [request] throws and returns no value; unless the error body is the JSON
    value [null], what it throws is an [Error] whose message is the body's
    [detail] member (as a string) when that member is truthy, and
    ["Request failed: "] followed by the status code otherwise.  When the
    response is ok, [request] settles as [response.json()] does, returning
    the parsed JSON body. *)
Theorem request_settles endpoint options w response w' :
  fetch (API_BASE +:+ endpoint) (sent_init options) w = (Return response, w') ->
  (Response.ok response = false ->
     (exists e, request fetch Number_toString endpoint options w = (Throw e, w'))
     /\ (error_body response <> JNull ->
         request fetch Number_toString endpoint options w
         = (Throw (new_Error (thrown_message Number_toString response)), w')))
  /\ (Response.ok response = true ->
      request fetch Number_toString endpoint options w = (Response.json response, w')).
Proof.
  intros Hf. split.
  - intros Hok. split.
    + eapply request_not_ok_throws; eauto.
    + intros Hnull. eapply request_not_ok_message; eauto.
  - intros Hok. eapply request_ok; eauto.
Qed.

End RequestProperties.

(** C10 as stated fails: a [detail] member that is present but empty gives
    the fallback message, not the member; and an error body of [null] makes
    the helper throw a [TypeError] with neither message. *)
Lemma request_detail_present_but_falsy :
  detail_of empty_detail_500 = Some (JStr "")
  /\ fst (request (always empty_detail_500) no_format "/runs" RequestInit.empty tt)
     = Throw (new_Error "Request failed: 500")
  /\ fst (request (always empty_detail_500) no_format "/runs" RequestInit.empty tt)
     <> Throw (new_Error (stated_message no_format empty_detail_500))
  /\ fst (request (always null_body_500) no_format "/runs" RequestInit.empty tt)
     = Throw (ErrorObj "TypeError" "Cannot read properties of null (reading 'detail')").
Proof.
  split; [reflexivity|]. split; [reflexivity|]. split; [|reflexivity].
  vm_compute. discriminate.
Qed.

Lemma request_settles_witness :
  request (always not_found_404) no_format "/runs/r1" RequestInit.empty tt
  = (Throw (new_Error "Run not found"), tt)
  /\ request (always canceled_200) no_format "/runs/r1/cancel" RequestInit.empty tt
     = (Return (JObj [("status", JStr "canceled")]), tt).
Proof.
  split.
  - destruct (request_settles (always not_found_404) no_format "/runs/r1"
                RequestInit.empty tt not_found_404 tt eq_refl) as [Hbad _].
    destruct (Hbad eq_refl) as [_ Hmsg].
    apply Hmsg. discriminate.
  - destruct (request_settles (always canceled_200) no_format "/runs/r1/cancel"
                RequestInit.empty tt canceled_200 tt eq_refl) as [_ Hok].
    exact (Hok eq_refl).
Defined.

(** ** The event subscription *)

Section SubscribeProperties.

Context {W : Type}.
Variable handlers : SSEEventHandlers.t W.
Variable runId : string.

Local Abbreviation es := (subscribeToRunEvents handlers runId).

Lemma quiet_snoc l c : quiet l -> returned_from_terminal c = false -> quiet (l ++ [c]).
Proof. intros Hl Hc. apply Forall_app. split; [exact Hl|]. constructor; [exact Hc|constructor]. Qed.

Lemma invoke_calls {A : Type} (s : Slot) (h : option (Handler W A)) (a : A) sub :
  readyState (fst (invoke s h a sub)) = readyState sub
  /\ (fst (invoke s h a sub) = sub /\ snd (invoke s h a sub) = None
      \/ calls (fst (invoke s h a sub))
         = calls sub ++ [mkCall s (bool_decide (is_Some (snd (invoke s h a sub))))]).
Proof.
  unfold invoke. destruct h as [f|]; simpl.
  - destruct (f a (world sub)) as [w' t]. simpl. split; [reflexivity|]. right. reflexivity.
  - split; [reflexivity|]. left. split; reflexivity.
Qed.

Lemma catch_report_step fallback err sub :
  readyState (catch_report handlers fallback err sub) = readyState sub
  /\ (quiet (calls sub) -> quiet (calls (catch_report handlers fallback err sub))).
Proof.
  unfold catch_report.
  destruct (invoke_calls OnError (SSEEventHandlers.onError handlers)
              (if instanceof_Error err then err else new_Error fallback) sub)
    as [Hr [[Hsame _]|Hc]].
  - rewrite Hsame. split; [reflexivity|tauto].
  - split; [exact Hr|]. intros Hq. rewrite Hc. apply quiet_snoc; [exact Hq|reflexivity].
Qed.

(** A listener that goes on after its handler, with a [catch] that only
    reports. *)
Lemma try_listener_step {A : Type} (s : Slot) (h : option (Handler W A))
    (rest handler : _) (data : Data A) sub :
  (rest = id /\ terminal_slot s = false \/ rest = close) ->
  (forall err sub0, readyState (handler err sub0) = readyState sub0
                    /\ (quiet (calls sub0) -> quiet (calls (handler err sub0)))) ->
  listener_step sub (try_listener s h rest handler data sub).
Proof.
  intros Hrest Hhandler Hq. unfold try_listener.
  destruct data as [message|v].
  - left. destruct (Hhandler (ErrorObj "SyntaxError" message) sub) as [Hr Hc]. auto.
  - destruct (invoke_calls s h v sub) as [Hr Hcalls].
    destruct (invoke s h v sub) as [sub' t]. simpl in Hr, Hcalls.
    destruct t as [err|].
    + left. destruct (Hhandler err sub') as [Hr' Hc'].
      split; [congruence|]. apply Hc'.
      destruct Hcalls as [[_ Hnone]|Hcalls]; [discriminate|].
      rewrite Hcalls. apply quiet_snoc; [exact Hq|].
      unfold returned_from_terminal. simpl. apply andb_false_r.
    + destruct Hrest as [[-> Hs]| ->].
      * left. split; [exact Hr|].
        destruct Hcalls as [[-> _]|Hcalls]; [exact Hq|].
        simpl. rewrite Hcalls. apply quiet_snoc; [exact Hq|].
        unfold returned_from_terminal. simpl. rewrite Hs. reflexivity.
      * right. split; [reflexivity|]. simpl.
        destruct Hcalls as [[-> _]|Hcalls]; [left; exact Hq|].
        right. eexists. exact Hcalls.
Qed.

Lemma listener_step_refl (sub : Subscription W) : listener_step sub sub.
Proof. intros Hq. left. split; [reflexivity|exact Hq]. Qed.

Ltac listener_cases :=
  first
    [ apply listener_step_refl
    | apply try_listener_step;
      [ first [ left; split; reflexivity | right; reflexivity ]
      | first [ intros err sub0; apply catch_report_step
              | intros err sub0; split; [reflexivity|tauto] ] ] ].

Lemma run_listeners_miss (ls : list (string * Listener W)) e sub :
  ~ In (event_type e) (map fst ls) -> run_listeners ls e sub = sub.
Proof.
  revert sub. induction ls as [|[type l] ls IH]; intros sub Hmiss; simpl; [reflexivity|].
  destruct (String.eqb_spec type (event_type e)) as [Heq|Hne].
  - exfalso. apply Hmiss. left. exact Heq.
  - apply IH. intros Hin. apply Hmiss. right. exact Hin.
Qed.

(** With every type registered once, a message reaches at most one
    listener: the one registered for its type. *)
Lemma run_listeners_hit (ls : list (string * Listener W)) e sub :
  List.NoDup (map fst ls) ->
  run_listeners ls e sub = sub
  \/ exists l, In (event_type e, l) ls /\ run_listeners ls e sub = l e sub.
Proof.
  revert sub. induction ls as [|[type l] ls IH]; intros sub Hnodup; simpl; [left; reflexivity|].
  inversion Hnodup as [|? ? Hnotin Hnodup']; subst.
  destruct (String.eqb_spec type (event_type e)) as [Heq|Hne].
  - right. exists l. split; [left; congruence|].
    apply run_listeners_miss. rewrite <- Heq. exact Hnotin.
  - destruct (IH sub Hnodup') as [Hsame|[l' [Hin Hrun]]]; [left; exact Hsame|].
    right. exists l'. split; [right; exact Hin|exact Hrun].
Qed.

Lemma registered_types : map fst (listeners es) = event_kinds.
Proof. reflexivity. Qed.

Lemma event_kinds_NoDup : List.NoDup event_kinds.
Proof.
  unfold event_kinds.
  repeat (constructor; [simpl; intuition discriminate|]). constructor.
Qed.

Lemma registered_listeners_step :
  Forall (fun l : Listener W => forall e sub, listener_step sub (l e sub))
    (map snd (listeners es)).
Proof.
  unfold subscribeToRunEvents, set_onerror, addEventListener, new_EventSource.
  cbn [listeners app map snd].
  repeat (constructor;
          [intros e sub;
           unfold status_listener, log_line_listener, progress_listener,
             completed_listener, failed_listener, canceled_listener,
             heartbeat_listener; listener_cases|]).
  constructor.
Qed.

(** A message reaches at most one of the seven listeners. *)
Lemma run_listeners_step e sub :
  listener_step sub (run_listeners (listeners es) e sub).
Proof.
  destruct (run_listeners_hit (listeners es) e sub) as [->|[l [Hin ->]]].
  - rewrite registered_types. apply event_kinds_NoDup.
  - apply listener_step_refl.
  - pose proof registered_listeners_step as Hall.
    rewrite List.Forall_forall in Hall. apply Hall.
    apply in_map_iff. exists (event_type e, l). split; [reflexivity|exact Hin].
Qed.

Lemma onerror_step sub :
  quiet (calls sub) -> closed_after_terminal (onerror_listener handlers sub).
Proof.
  intros Hq. unfold onerror_listener.
  destruct (invoke_calls OnError (SSEEventHandlers.onError handlers)
              (new_Error "SSE connection error") sub) as [Hr Hcalls].
  destruct (invoke OnError _ _ sub) as [sub' t]. simpl in Hr, Hcalls.
  assert (Hq' : quiet (calls sub')).
  { destruct Hcalls as [[-> _]|Hcalls]; [exact Hq|].
    rewrite Hcalls. apply quiet_snoc; [exact Hq|reflexivity]. }
  destruct t as [err|].
  - unfold closed_after_terminal. destruct (readyState sub'); auto.
  - unfold closed_after_terminal. simpl. left. exact Hq'.
Qed.

Lemma listener_step_closed_after_terminal (sub sub' : Subscription W) :
  readyState sub <> CLOSED ->
  closed_after_terminal sub -> listener_step sub sub' -> closed_after_terminal sub'.
Proof.
  intros Hopen Hinv Hstep.
  assert (Hq : quiet (calls sub)).
  { unfold closed_after_terminal in Hinv. destruct (readyState sub); tauto. }
  destruct (Hstep Hq) as [[Hr Hq']|[Hr Hc]].
  - unfold closed_after_terminal. rewrite Hr.
    destruct (readyState sub); [exact Hq'|exact Hq'|congruence].
  - unfold closed_after_terminal. rewrite Hr.
    destruct Hc as [Hq'|[c Hc]]; [left; exact Hq'|].
    right. exists (calls sub), c. split; [exact Hc|exact Hq].
Qed.

Lemma error_not_registered : ~ In "error" event_kinds.
Proof. unfold event_kinds. simpl. intuition discriminate. Qed.

(** A message on an open source: [onerror] when its type is [error], the
    listener of its type otherwise. *)
Lemma dispatch_message e sub :
  readyState sub = OPEN ->
  dispatch es (Message e) sub
  = if String.eqb (event_type e) "error" then onerror_listener handlers sub
    else run_listeners (listeners es) e sub.
Proof.
  intros Hopen. unfold dispatch. rewrite Hopen. cbv zeta.
  destruct (String.eqb_spec (event_type e) "error") as [Herr|_]; [|reflexivity].
  rewrite run_listeners_miss; [reflexivity|].
  rewrite Herr, registered_types. exact error_not_registered.
Qed.

Lemma dispatch_closed_after_terminal i sub :
  closed_after_terminal sub -> closed_after_terminal (dispatch es i sub).
Proof.
  intros Hinv.
  destruct (readyState sub) eqn:Hr; destruct i as [|e|fatal];
    try (unfold dispatch; rewrite Hr; exact Hinv);
    try (unfold dispatch; rewrite Hr; apply onerror_step; simpl;
         unfold closed_after_terminal in Hinv; rewrite Hr in Hinv; exact Hinv).
  - unfold dispatch. rewrite Hr. unfold closed_after_terminal in *.
    rewrite Hr in Hinv. exact Hinv.
  - rewrite (dispatch_message e sub Hr).
    destruct (String.eqb (event_type e) "error").
    + apply onerror_step. unfold closed_after_terminal in Hinv.
      rewrite Hr in Hinv. exact Hinv.
    + apply (listener_step_closed_after_terminal sub); [congruence|exact Hinv|].
      apply run_listeners_step.
Qed.

Lemma deliver_closed_after_terminal incoming sub :
  closed_after_terminal sub -> closed_after_terminal (deliver es incoming sub).
Proof.
  revert sub. induction incoming as [|i rest IH]; intros sub Hinv; simpl.
  - exact Hinv.
  - apply IH. apply dispatch_closed_after_terminal. exact Hinv.
Qed.

Lemma deliver_closed incoming (sub : Subscription W) :
  readyState sub = CLOSED -> deliver es incoming sub = sub.
Proof.
  intros Hc. induction incoming as [|i rest IH]; simpl; [reflexivity|].
  unfold dispatch at 1. rewrite Hc. exact IH.
Qed.

Lemma quiet_no_terminal_return before c after :
  quiet (before ++ c :: after) -> returned_from_terminal c = true -> False.
Proof.
  intros Hq Hc. apply Forall_app in Hq as [_ Hq]. inversion Hq; subst. congruence.
Qed.

Lemma snoc_split {A : Type} (l before after : list A) (c c' : A) :
  l ++ [c'] = before ++ c :: after ->
  after = [] \/ exists after', l = before ++ c :: after'.
Proof.
  intros Heq. induction after as [|z after' _] using rev_ind; [left; reflexivity|].
  right. exists after'.
  change (before ++ c :: after' ++ [z]) with (before ++ (c :: after') ++ [z]) in Heq.
  rewrite app_assoc in Heq. apply app_inj_tail in Heq as [Hl _]. exact Hl.
Qed.

Lemma try_listener_closes {A : Type} (s : Slot) (h : option (Handler W A))
    (handler : _) (v : A) sub :
  returns_normally h v (world sub) ->
  readyState (try_listener s h close handler (Parsed v) sub) = CLOSED.
Proof.
  unfold returns_normally, try_listener, invoke. destruct h as [f|]; [|reflexivity].
  destruct (f v (world sub)) as [w' t]. simpl. intros ->. reflexivity.
Qed.

Ltac closes_source :=
  intros sub v Hopen Hret; rewrite (dispatch_message _ sub Hopen);
  apply try_listener_closes; exact Hret.

Lemma terminal_return_last_call incoming w before c after :
  calls (deliver es incoming (connect w)) = before ++ c :: after ->
  returned_from_terminal c = true ->
  after = []
  /\ readyState (deliver es incoming (connect w)) = CLOSED.
Proof.
  intros Hcalls Hc.
  assert (Hinv : closed_after_terminal (deliver es incoming (connect w))).
  { apply deliver_closed_after_terminal. unfold closed_after_terminal. simpl. constructor. }
  unfold closed_after_terminal in Hinv.
  destruct (readyState (deliver es incoming (connect w))) eqn:Hr;
    try (exfalso; rewrite Hcalls in Hinv; exact (quiet_no_terminal_return _ _ _ Hinv Hc)).
  destruct Hinv as [Hq|[l [c' [Hl Hq]]]].
  - exfalso. rewrite Hcalls in Hq. exact (quiet_no_terminal_return _ _ _ Hq Hc).
  - rewrite Hcalls in Hl. symmetry in Hl. apply snoc_split in Hl as [Hafter|[after' Hl]].
    + split; [exact Hafter|reflexivity].
    + exfalso. rewrite Hl in Hq. exact (quiet_no_terminal_return _ _ _ Hq Hc).
Qed.

(** C1, as amended.  On every event stream opened by
    [subscribeToRunEvents], a terminal event ([completed], [failed] or
    [canceled]) whose handler returns normally closes the [EventSource]
    right after the handler; a closed source dispatches nothing more; and
    so, in the whole life of the subscription, a terminal handler call that
    returned normally is the last handler call of all: no [status],
    [log_line], [progress] or [heartbeat] handler runs after it. *)
Theorem terminal_return_is_last :
  (closes_after es completed_event (SSEEventHandlers.onCompleted handlers)
   /\ closes_after es failed_event (SSEEventHandlers.onFailed handlers)
   /\ closes_after es canceled_event (SSEEventHandlers.onCanceled handlers))
  /\ (forall incoming sub, readyState sub = CLOSED -> deliver es incoming sub = sub)
  /\ (forall incoming w before c after,
        calls (deliver es incoming (connect w)) = before ++ c :: after ->
        returned_from_terminal c = true ->
        after = [] /\ readyState (deliver es incoming (connect w)) = CLOSED).
Proof.
  split; [repeat split; closes_source|].
  split; [exact deliver_closed|exact terminal_return_last_call].
Qed.





End SubscribeProperties.

(** C1 as stated fails: the [completed] handler is called and throws, the
    source stays open, and the [log_line] handler runs afterwards; and a
    [completed] event whose data does not parse reaches no handler but
    [onError], after which the [log_line] handler runs as well. *)
Lemma throwing_terminal_handler_leaves_source_open :
  calls
    (deliver (subscribeToRunEvents throwing_handlers "r1")
       [Opened; Message (completed_event (Parsed completed_0));
        Message (log_line_event (Parsed late_line))]
       (connect tt))
  = [mkCall OnCompleted true; mkCall OnLogLine false]
  /\ readyState
       (deliver (subscribeToRunEvents throwing_handlers "r1")
          [Opened; Message (completed_event (Parsed completed_0));
           Message (log_line_event (Parsed late_line))]
          (connect tt))
     = OPEN
  /\ calls
       (deliver (subscribeToRunEvents quiet_handlers "r1")
          [Opened; Message truncated_completed;
           Message (log_line_event (Parsed late_line))]
          (connect tt))
     = [mkCall OnError false; mkCall OnLogLine false]
  /\ readyState
       (deliver (subscribeToRunEvents quiet_handlers "r1")
          [Opened; Message truncated_completed;
           Message (log_line_event (Parsed late_line))]
          (connect tt))
     = OPEN.
Proof. repeat split. Qed.

(** What a request leaves on a recording network: one call more. *)
Lemma request_recording (respond : string -> RequestInit.t -> Completion Response.t)
    (nts : Q -> string) (endpoint : string) (options : RequestInit.t)
    (log : list (string * RequestInit.t)) :
  snd (request (recording respond) nts endpoint options log)
  = log ++ [(API_BASE +:+ endpoint, sent_init options)].
Proof.
  unfold request, recording.
  destruct (respond (API_BASE +:+ endpoint) (sent_init options)) as [response|e];
    [|reflexivity].
  destruct (negb (Response.ok response)); [|reflexivity].
  destruct (get_prop (error_body response) "detail") as [detail|e]; reflexivity.
Qed.

(** ** The run detail page *)

Module P := RunDetailPage.

Section RunDetailProperties.

Variable runId : string.

Local Abbreviation es := (subscribeToRunEvents P.handlers runId).

Ltac open_subscription sub Hopen :=
  destruct sub as [rs w cs]; simpl in Hopen; subst rs.

(** C8.  Handling a progress event replaces the latest progress value and
    nothing else: the run record (with its status) and every other cell of
    the page keep their values, the source stays open, and neither the
    polling effect nor the activity of the run changes. *)
Theorem progress_replaces_only_progress (sub : Subscription P.State)
    (event : SSEProgressEvent.t) :
  readyState sub = OPEN ->
  let sub' := dispatch es (Message (progress_event (Parsed event))) sub in
  P.progress (world sub') = Some event
  /\ P.run (world sub') = P.run (world sub)
  /\ P.id (world sub') = P.id (world sub)
  /\ P.loading (world sub') = P.loading (world sub)
  /\ P.error (world sub') = P.error (world sub)
  /\ P.stdoutLines (world sub') = P.stdoutLines (world sub)
  /\ P.stderrLines (world sub') = P.stderrLines (world sub)
  /\ P.isSSEConnected (world sub') = P.isSSEConnected (world sub)
  /\ P.sseCleanup (world sub') = P.sseCleanup (world sub)
  /\ P.hasInitializedSSE (world sub') = P.hasInitializedSSE (world sub)
  /\ readyState sub' = OPEN
  /\ P.isActive (world sub') = P.isActive (world sub)
  /\ P.pollInterval (world sub') = P.pollInterval (world sub).
Proof.
  intros Hopen. open_subscription sub Hopen. repeat split.
Qed.

(** C9.  The [canceled] event carries [finished_at] and nothing else, and
    handling it sets [status] to [canceled] and [finished_at] on the run
    record while [exit_code] (and every other member) keeps its value; a
    page without a run record stays without one. *)
Theorem canceled_keeps_exit_code (sub : Subscription P.State)
    (event : SSECanceledEvent.t) :
  readyState sub = OPEN ->
  let sub' := dispatch es (Message (canceled_event (Parsed event))) sub in
  payload_members "canceled" = [("finished_at", false)]
  /\ (P.run (world sub) = None -> P.run (world sub') = None)
  /\ (forall prev, P.run (world sub) = Some prev ->
        exists r,
          P.run (world sub') = Some r
          /\ RunDetail.status r = "canceled"
          /\ RunDetail.finished_at r = or_undefined (SSECanceledEvent.finished_at event)
          /\ RunDetail.exit_code r = RunDetail.exit_code prev
          /\ RunDetail.error r = RunDetail.error prev
          /\ r = P.with_canceled (or_undefined (SSECanceledEvent.finished_at event)) prev)
  /\ readyState sub' = CLOSED.
Proof.
  intros Hopen. open_subscription sub Hopen. simpl.
  split; [reflexivity|]. split; [intros ->; reflexivity|]. split; [|reflexivity].
  intros prev ->. eexists. repeat split.
Qed.

(** C4, as amended.  The [failed] event carries an [error] member that is a
    string or [null]; handling it sets [status] to [failed] and stores the
    event's [error] on the run record when it is a non-empty string, and
    leaves the record without an [error] otherwise. *)
Theorem failed_stores_error_when_given (sub : Subscription P.State)
    (event : SSEFailedEvent.t) (prev : RunDetail.t) :
  readyState sub = OPEN ->
  P.run (world sub) = Some prev ->
  let sub' := dispatch es (Message (failed_event (Parsed event))) sub in
  exists r,
    P.run (world sub') = Some r
    /\ RunDetail.status r = "failed"
    /\ RunDetail.exit_code r = Some (SSEFailedEvent.exit_code event)
    /\ RunDetail.error r = or_undefined (SSEFailedEvent.error event)
    /\ (forall text, RunDetail.error r = Some text <->
                     SSEFailedEvent.error event = Some text /\ text <> "")
    /\ (RunDetail.error r = None <->
        SSEFailedEvent.error event = None \/ SSEFailedEvent.error event = Some "").
Proof.
  intros Hopen Hrun. open_subscription sub Hopen. simpl in Hrun |- *. rewrite Hrun. simpl.
  eexists. split; [reflexivity|]. simpl. repeat split.
  - destruct (SSEFailedEvent.error event) as [s|]; simpl in *; [|discriminate].
    destruct (String.eqb_spec s ""); congruence.
  - destruct (SSEFailedEvent.error event) as [s|]; simpl in *; [|discriminate].
    destruct (String.eqb_spec s ""); congruence.
  - intros [-> Hne]. simpl. destruct (String.eqb_spec text ""); congruence.
  - destruct (SSEFailedEvent.error event) as [s|]; simpl; [|auto].
    destruct (String.eqb_spec s ""); [subst; auto|discriminate].
  - intros [->| ->]; reflexivity.
Qed.

Lemma dispatch_log_line (sub : Subscription P.State) (e : SSELogLineEvent.t) :
  readyState sub = OPEN ->
  dispatch es (Message (log_line_event (Parsed e))) sub
  = mkSubscription OPEN (fst (P.onLogLine e (world sub)))
      (calls sub ++ [mkCall OnLogLine false]).
Proof.
  intros Hopen. open_subscription sub Hopen. unfold P.onLogLine.
  destruct e as [[|] line]; reflexivity.
Qed.

(** X27.  The page appends the line of each [log_line] event to the lines
    of the stream the event names: after any run of [log_line] events each
    stream shows, after the lines it had, the lines of its events in
    delivery order, repeated lines included; the run record is untouched and
    the source stays open. *)
Theorem log_lines_appended_in_order (events : list SSELogLineEvent.t)
    (sub : Subscription P.State) :
  readyState sub = OPEN ->
  let sub' := deliver es (P.log_line_messages events) sub in
  P.stdoutLines (world sub') = P.stdoutLines (world sub) ++ P.lines_of stdout events
  /\ P.stderrLines (world sub') = P.stderrLines (world sub) ++ P.lines_of stderr events
  /\ P.run (world sub') = P.run (world sub)
  /\ readyState sub' = OPEN.
Proof.
  intros Hopen. simpl. revert sub Hopen.
  induction events as [|e events IH]; intros sub Hopen; simpl.
  - rewrite !app_nil_r. auto.
  - rewrite (dispatch_log_line sub e Hopen).
    match goal with |- context [deliver _ _ ?s] => specialize (IH s eq_refl) end.
    destruct IH as (Hout & Herr & Hrun & Hready).
    rewrite Hout, Herr, Hrun, Hready. unfold P.onLogLine.
    destruct e as [[|] line]; simpl; rewrite <- ?app_assoc; auto.
Qed.

Lemma pollInterval_running (s : P.State) :
  P.pollInterval s = Some 2000%N <->
  P.falsy (P.id s) = false /\ P.isSSEConnected s = false
  /\ (P.run s = None \/ P.isActive s = true).
Proof.
  unfold P.pollInterval, P.isActive.
  destruct (P.falsy (P.id s)), (P.isSSEConnected s); simpl;
    try (split; [discriminate|intros (? & ? & ?); discriminate]).
  destruct (P.run s) as [r|].
  - destruct (_ || _); split; intros H; try discriminate; auto.
    + destruct H as (_ & _ & [H|H]); discriminate.
  - split; auto.
Qed.

(** What a successful load stores, whatever the tails are. *)
Lemma loadRun_settled_record (cast : JSON -> RunDetail.t) (body : JSON) (s : P.State) :
  P.run (P.loadRun_settled cast (Return body) s) = Some (cast body)
  /\ P.error (P.loadRun_settled cast (Return body) s) = None.
Proof.
  unfold P.loadRun_settled.
  destruct (RunDetail.stdout_tail (cast body)) as [t1|];
    destruct (RunDetail.stderr_tail (cast body)) as [t2|]; simpl;
    repeat match goal with |- context [if ?b then _ else _] => destruct b end;
    split; reflexivity.
Qed.

(** C7.  When the SSE connection errors while the page shows a run that is
    queued or running, the error handler marks SSE disconnected and clears
    the initialised flag, the source is closed, and the polling effect
    holds a 2000 ms interval.  Each tick makes exactly one request, a fetch
    of [/api/runs/{id}?log_lines=100], the run detail endpoint, and a
    successful answer becomes the run record of the page; and
    [subscribeToEvents] is free to open a new source. *)
Theorem sse_error_falls_back_to_polling (sub : Subscription P.State) (fatal : bool)
    (i : string) :
  readyState sub <> CLOSED ->
  P.id (world sub) = Some i ->
  i <> "" ->
  P.isActive (world sub) = true ->
  let sub' := dispatch es (ConnectionError fatal) sub in
  P.isSSEConnected (world sub') = false
  /\ P.hasInitializedSSE (world sub') = false
  /\ readyState sub' = CLOSED
  /\ calls sub' = calls sub ++ [mkCall OnError false]
  /\ P.run (world sub') = P.run (world sub)
  /\ P.pollInterval (world sub') = Some 2000%N
  /\ (forall respond nts cast (log : list (string * RequestInit.t)),
        let tick := P.loadRun (recording respond) nts cast (world sub') log in
        snd tick
        = log ++ [("/api/runs/" +:+ i +:+ "?log_lines=100", sent_init RequestInit.empty)]
        /\ (forall status body,
              respond ("/api/runs/" +:+ i +:+ "?log_lines=100")
                (sent_init RequestInit.empty)
              = Return (Response.mk true status (Return body)) ->
              P.run (fst tick) = Some (cast body) /\ P.error (fst tick) = None)
        /\ P.isSSEConnected (fst tick) = false)
  /\ snd (P.subscribeToEvents (world sub')) = Some (subscribeToRunEvents P.handlers i)
  /\ P.isSSEConnected (fst (P.subscribeToEvents (world sub'))) = true.
Proof.
  intros Hopen Hid Hne Hactive.
  assert (Hfalsy : P.falsy (Some i) = false).
  { simpl. destruct (String.eqb_spec i ""); congruence. }
  assert (Hstep : dispatch es (ConnectionError fatal) sub
                  = mkSubscription CLOSED
                      (P.set_hasInitializedSSE false (P.setIsSSEConnected false (world sub)))
                      (calls sub ++ [mkCall OnError false])).
  { destruct sub as [rs w cs]. simpl in Hopen. destruct rs; try congruence; reflexivity. }
  cbv zeta. rewrite Hstep. cbn [world readyState calls].
  split; [reflexivity|]. split; [reflexivity|]. split; [reflexivity|].
  split; [reflexivity|]. split; [reflexivity|]. split.
  - apply pollInterval_running. simpl. rewrite Hid. split; [exact Hfalsy|].
    split; [reflexivity|]. right. exact Hactive.
  - split.
    + intros respond nts cast log.
      set (s' := P.set_hasInitializedSSE false (P.setIsSSEConnected false (world sub))).
      assert (Hid' : P.id s' = Some i) by exact Hid.
      assert (Hload : P.loadRun (recording respond) nts cast s' log
                      = (P.loadRun_settled cast
                           (fst (getRun (recording respond) nts i 100 log)) s',
                         snd (getRun (recording respond) nts i 100 log))).
      { unfold P.loadRun. rewrite Hid', Hfalsy.
        destruct (getRun (recording respond) nts i 100 log). reflexivity. }
      rewrite Hload. cbn [fst snd]. split; [|split].
      * unfold getRun. rewrite request_recording. reflexivity.
      * intros status body Hrespond.
        assert (Hget : fst (getRun (recording respond) nts i 100 log) = Return body).
        { unfold getRun, request, recording.
          change (API_BASE +:+ "/runs/" +:+ i +:+ "?log_lines=" +:+ decimal 100)
            with ("/api/runs/" +:+ i +:+ "?log_lines=100").
          rewrite Hrespond. reflexivity. }
        rewrite Hget. apply loadRun_settled_record.
      * destruct (fst (getRun (recording respond) nts i 100 log)) as [body|err].
        -- unfold P.loadRun_settled.
           destruct (RunDetail.stdout_tail (cast body)) as [t1|];
             destruct (RunDetail.stderr_tail (cast body)) as [t2|]; simpl;
             repeat match goal with |- context [if ?b then _ else _] => destruct b end;
             reflexivity.
        -- reflexivity.
    + unfold P.subscribeToEvents. simpl. rewrite Hid, Hfalsy. simpl. auto.
Qed.

End RunDetailProperties.

(** ** Canceling a run *)

Module C := Coordinator.

Section CancelProperties.

Variable Number_toString : Q -> string.

Lemma string_length_app (a b : string) :
  String.length (a +:+ b) = String.length a + String.length b.
Proof. induction a as [|c a IH]; simpl; [reflexivity|]. rewrite IH. reflexivity. Qed.

Lemma strip_suffix_app (suf s : string) : C.strip_suffix suf (s +:+ suf) = Some s.
Proof.
  induction s as [|c s IH].
  - simpl. destruct suf; simpl; rewrite ?Ascii.eqb_refl, ?String.eqb_refl; reflexivity.
  - change (String c s +:+ suf) with (String c (s +:+ suf)).
    cbn [C.strip_suffix].
    destruct (String.eqb_spec (String c (s +:+ suf)) suf) as [Heq|_].
    + exfalso. apply (f_equal String.length) in Heq. simpl in Heq.
      rewrite string_length_app in Heq. lia.
    + rewrite IH. reflexivity.
Qed.

Lemma cancel_route_of_cancelRun (id : string) :
  C.cancel_route (API_BASE +:+ "/runs/" +:+ id +:+ "/cancel") = Some id.
Proof.
  unfold C.cancel_route.
  change (C.strip_prefix "/api/runs/" (API_BASE +:+ "/runs/" +:+ id +:+ "/cancel"))
    with (Some (id +:+ "/cancel")).
  simpl. apply strip_suffix_app.
Qed.

(** Through the cancel boundary, [cancelRun] returns the status that
    [cancel] reports. *)
Lemma cancelRun_reports_cancel (id : string) (c : C.State) :
  cancelRun C.fetch Number_toString id c
  = match C.cancel id c with
    | (Some st, c') => (Return (JObj [("status", JStr (C.status_name st))]), c')
    | (None, c') => (Throw (new_Error "Not Found"), c')
    end.
Proof.
  unfold cancelRun, request, C.fetch. cbn [sent_init RequestInit.method].
  rewrite cancel_route_of_cancelRun.
  destruct (C.cancel id c) as [[st|] c']; reflexivity.
Qed.

Lemma cancel_known (id : string) (c : C.State) (r : C.RunRecord) :
  C.store c !! id = Some r ->
  exists st,
    C.terminal st = true
    /\ fst (C.cancel id c) = Some st
    /\ C.status <$> C.store (snd (C.cancel id c)) !! id = Some st
    /\ (C.terminal (C.status r) = true ->
        st = C.status r /\ snd (C.cancel id c) = c)
    /\ (C.terminal (C.status r) = false ->
        st = C.canceled
        /\ C.terminated (snd (C.cancel id c)) = C.terminated c ++ [id]).
Proof.
  intros Hr. unfold C.cancel. rewrite Hr.
  destruct (C.terminal (C.status r)) eqn:Hterm; simpl.
  - exists (C.status r). rewrite Hr. simpl. repeat split; auto; discriminate.
  - exists C.canceled. unfold C.cancel_transition.
    rewrite lookup_insert_eq.
    destruct (C.status r); try discriminate; simpl; repeat split; auto; discriminate.
Qed.

(** C3.  For a run the store knows, two calls of [cancelRun] in succession
    return the same terminal status, which is the status the run record then
    has; the second call changes nothing; and the two calls together invoke
    the termination of the external process at most once. *)
Theorem cancel_twice_same_status (id : string) (c : C.State) (r : C.RunRecord) :
  C.store c !! id = Some r ->
  let first := cancelRun C.fetch Number_toString id c in
  let second := cancelRun C.fetch Number_toString id (snd first) in
  exists st,
    C.terminal st = true
    /\ fst first = Return (JObj [("status", JStr (C.status_name st))])
    /\ fst second = fst first
    /\ C.status <$> C.store (snd first) !! id = Some st
    /\ snd second = snd first
    /\ (C.terminated (snd second) = C.terminated c
        \/ C.terminated (snd second) = C.terminated c ++ [id]).
Proof.
  intros Hr.
  destruct (cancel_known id c r Hr) as (st & Hterm & Hfst & Hstore & Hdone & Hlive).
  destruct (C.cancel id c) as [o c1] eqn:Hc1.
  simpl in Hfst, Hstore, Hdone, Hlive. subst o.
  destruct (C.store c1 !! id) as [r1|] eqn:Hr1; [|discriminate].
  simpl in Hstore. injection Hstore as Hst.
  destruct (cancel_known id c1 r1 Hr1) as (st2 & _ & Hfst2 & _ & Hdone2 & _).
  rewrite Hst in Hdone2. destruct (Hdone2 Hterm) as [-> Hsame].
  destruct (C.cancel id c1) as [o2 c2] eqn:Hc2. simpl in Hfst2, Hsame. subst o2 c2.
  cbv zeta. rewrite cancelRun_reports_cancel, Hc1. cbn [fst snd].
  rewrite cancelRun_reports_cancel, Hc2. cbn [fst snd].
  exists st. rewrite Hr1. simpl. rewrite Hst.
  split; [exact Hterm|]. split; [reflexivity|]. split; [reflexivity|].
  split; [reflexivity|]. split; [reflexivity|].
  destruct (C.terminal (C.status r)) eqn:Hrt.
  - left. destruct (Hdone eq_refl) as [_ ->]. reflexivity.
  - right. destruct (Hlive eq_refl) as [_ ->]. reflexivity.
Qed.

End CancelProperties.

(** ** The run form *)

Module F := RunForm.

Section RunFormProperties.

Variable parseInt : string -> number.
Variable parseFloat : string -> number.


Lemma handleSubmit_config (s : F.State) (c : RunConfig.t) :
  F.handleSubmit s = Some c -> c = F.config_of s.
Proof.
  unfold F.handleSubmit, F.config_of.
  destruct (_ || _); [discriminate|]. intros H. injection H as <-. reflexivity.
Qed.

(** What a submit that reaches [onSubmit] has passed. *)
Lemma submit_checked (loading : bool) (s s' : F.State) (c : RunConfig.t) :
  F.step parseInt parseFloat loading s F.Submit = (s', Some c) ->
  s' = s /\ c = F.config_of s /\ F.withinMinMax s = true.
Proof.
  simpl. destruct (F.submitDisabled loading s); [discriminate|].
  destruct (F.withinMinMax s) eqn:Hvalid; [|discriminate].
  intros H. injection H as <- Hc. auto using handleSubmit_config.
Qed.

Lemma step_submits_only_on_Submit (loading : bool) (s s' : F.State) (e : F.Event)
    (c : RunConfig.t) :
  F.step parseInt parseFloat loading s e = (s', Some c) -> e = F.Submit.
Proof. destruct e; simpl; try discriminate. reflexivity. Qed.

Lemma session_submitted (loading : bool) (events : list F.Event) (s0 : F.State)
    (c : RunConfig.t) :
  In c (snd (F.session parseInt parseFloat loading s0 events)) ->
  exists s, F.step parseInt parseFloat loading s F.Submit = (s, Some c).
Proof.
  revert s0. induction events as [|e events IH]; intros s0; simpl; [tauto|].
  destruct (F.step parseInt parseFloat loading s0 e) as [s1 submitted] eqn:Hstep.
  specialize (IH s1).
  destruct (F.session parseInt parseFloat loading s1 events) as [s2 later].
  simpl in *. destruct submitted as [c0|]; [|exact IH].
  intros [<-|Hin]; [|exact (IH Hin)].
  pose proof (step_submits_only_on_Submit _ _ _ _ _ Hstep) as ->.
  destruct (submit_checked _ _ _ _ Hstep) as [-> _]. eauto.
Qed.

(** With a benchmark and a model named, [handleSubmit] hands on the cells
    whatever numbers they hold. *)
Lemma handleSubmit_enabled (s : F.State) :
  (F.submitDisabled false s = false /\ F.handleSubmit s = Some (F.config_of s))
  \/ (F.submitDisabled false s = true /\ F.handleSubmit s = None).
Proof.
  unfold F.submitDisabled, F.handleSubmit, F.config_of.
  destruct (String.eqb (F.benchmark s) ""); [right; split; reflexivity|].
  destruct (String.eqb (F.model s) "custom") eqn:Hc.
  - destruct (String.eqb_spec (F.model s) "") as [Hm|_].
    + rewrite Hm in Hc. discriminate.
    + destruct (String.eqb (F.customModel s) "");
        [right; split; reflexivity|left; split; reflexivity].
  - destruct (String.eqb (F.model s) "");
      [right; split; reflexivity|left; split; reflexivity].
Qed.



End RunFormProperties.



(** ** The submission boundary *)

Section SubmitProperties.

Variable has_benchmark : string -> bool.
Variable has_model : string -> bool.

Lemma int_above_0_positive (v : option number) :
  C.int_above_0 v = true -> F.positive v.
Proof.
  destruct v as [[|q]|]; simpl; try discriminate; auto.
  intros H. apply andb_true_iff in H as [_ H]. apply negb_true_iff in H.
  apply Qnot_le_lt. intros Hle. apply Qle_bool_iff in Hle. congruence.
Qed.

Lemma float_in_between (lo hi : Q) (v : option number) :
  C.float_in lo hi v = true -> F.between lo hi v.
Proof.
  destruct v as [[|q]|]; simpl; try discriminate; auto.
  intros H. apply andb_true_iff in H as [Hlo Hhi].
  split; apply Qle_bool_iff; assumption.
Qed.

(** The coordinator accepts a submission only within the parameter
    bounds, and files it as a queued run. *)
Lemma accepted_submission_within_bounds (cfg : RunConfig.t) (c c' : C.State)
    (id : string) :
  C.submit has_benchmark has_model cfg c = (C.Accepted id, c') ->
  F.within_bounds cfg
  /\ C.status <$> C.store c' !! id = Some C.queued
  /\ C.terminated c' = C.terminated c.
Proof.
  unfold C.submit.
  destruct (has_benchmark _ && has_model _ && C.bounds_ok cfg) eqn:Hok; [|discriminate].
  intros H. injection H as <- <-. simpl. rewrite lookup_insert_eq.
  split; [|auto].
  apply andb_true_iff in Hok as [_ Hb]. unfold C.bounds_ok in Hb.
  repeat (apply andb_true_iff in Hb as [Hb ?]).
  unfold F.within_bounds.
  repeat split; first [apply int_above_0_positive | apply float_in_between]; assumption.
Qed.

End SubmitProperties.

(** ** The theorems at sample inputs *)

Lemma terminal_return_is_last_witness :
  calls
    (deliver (subscribeToRunEvents P.handlers "r1")
       [Opened; Message (completed_event (Parsed completed_0));
        Message (log_line_event (Parsed late_line))]
       (connect (world live_page)))
  = [mkCall OnCompleted false]
  /\ readyState
       (deliver (subscribeToRunEvents P.handlers "r1")
          [Opened; Message (completed_event (Parsed completed_0));
           Message (log_line_event (Parsed late_line))]
          (connect (world live_page)))
     = CLOSED.
Proof.
  split; [reflexivity|].
  destruct (terminal_return_is_last P.handlers "r1") as (_ & _ & Hlast).
  destruct (Hlast
              [Opened; Message (completed_event (Parsed completed_0));
               Message (log_line_event (Parsed late_line))]
              (world live_page) [] (mkCall OnCompleted false) [] eq_refl eq_refl)
    as [_ Hclosed].
  exact Hclosed.
Defined.

Lemma progress_replaces_only_progress_witness :
  P.progress
    (world (dispatch (subscribeToRunEvents P.handlers "r1")
              (Message (progress_event (Parsed progress_3_of_5))) live_page))
  = Some progress_3_of_5
  /\ P.run
       (world (dispatch (subscribeToRunEvents P.handlers "r1")
                 (Message (progress_event (Parsed progress_3_of_5))) live_page))
     = Some running_run.
Proof.
  destruct (progress_replaces_only_progress "r1" live_page progress_3_of_5 eq_refl)
    as (Hprogress & Hrun & _).
  split; [exact Hprogress|exact Hrun].
Defined.

Lemma canceled_keeps_exit_code_witness :
  exists r,
    P.run
      (world (dispatch (subscribeToRunEvents P.handlers "r1")
                (Message (canceled_event (Parsed canceled_at_5))) live_page))
    = Some r
    /\ RunDetail.status r = "canceled"
    /\ RunDetail.exit_code r = None.
Proof.
  destruct (canceled_keeps_exit_code "r1" live_page canceled_at_5 eq_refl)
    as (_ & _ & Hrun & _).
  destruct (Hrun running_run eq_refl) as (r & Hr & Hstatus & _ & Hexit & _).
  exists r. split; [exact Hr|]. split; [exact Hstatus|exact Hexit].
Defined.

Lemma failed_stores_error_when_given_witness :
  exists r,
    P.run
      (world (dispatch (subscribeToRunEvents P.handlers "r1")
                (Message (failed_event (Parsed failed_with_error))) live_page))
    = Some r
    /\ RunDetail.status r = "failed"
    /\ RunDetail.error r = Some "Process exited with code 1".
Proof.
  destruct (failed_stores_error_when_given "r1" live_page failed_with_error
              running_run eq_refl eq_refl)
    as (r & Hr & Hstatus & _ & Herror & _).
  exists r. split; [exact Hr|]. split; [exact Hstatus|exact Herror].
Defined.

(** C4 as stated fails: a [failed] event whose [error] is [null] is
    well-typed, and handling it leaves a failed run record without an
    [error]. *)
Lemma failed_event_without_error :
  SSEFailedEvent.error failed_without_error = None
  /\ RunDetail.status
     <$> P.run
           (world (dispatch (subscribeToRunEvents P.handlers "r1")
                     (Message (failed_event (Parsed failed_without_error))) live_page))
     = Some "failed"
  /\ P.run
       (world (dispatch (subscribeToRunEvents P.handlers "r1")
                 (Message (failed_event (Parsed failed_without_error))) live_page))
     ≫= RunDetail.error
     = None.
Proof. repeat split. Qed.


Lemma log_lines_appended_in_order_witness :
  P.stdoutLines
    (world (deliver (subscribeToRunEvents P.handlers "r1")
              (P.log_line_messages [step_1; warning_1; late_line]) live_page))
  = ["step 1"; "late"]
  /\ P.stderrLines
       (world (deliver (subscribeToRunEvents P.handlers "r1")
                 (P.log_line_messages [step_1; warning_1; late_line]) live_page))
     = ["warning"].
Proof.
  destruct (log_lines_appended_in_order "r1" [step_1; warning_1; late_line] live_page
              eq_refl)
    as (Hout & Herr & _).
  split; [exact Hout|exact Herr].
Defined.

Lemma sse_error_falls_back_to_polling_witness :
  P.isSSEConnected
    (world (dispatch (subscribeToRunEvents P.handlers "r1") (ConnectionError false)
              live_page))
  = false
  /\ P.pollInterval
       (world (dispatch (subscribeToRunEvents P.handlers "r1") (ConnectionError false)
                 live_page))
     = Some 2000%N.
Proof.
  assert (Hopen : readyState live_page <> CLOSED) by discriminate.
  assert (Hid : "r1" <> "") by discriminate.
  destruct (sse_error_falls_back_to_polling "r1" live_page false "r1" Hopen eq_refl Hid
              eq_refl)
    as (Hdisconnected & _ & _ & _ & _ & Hpoll & _).
  split; [exact Hdisconnected|exact Hpoll].
Defined.

Lemma cancel_twice_same_status_witness :
  fst (cancelRun C.fetch no_format "run-0" one_running_run)
  = Return (JObj [("status", JStr "canceled")])
  /\ fst (cancelRun C.fetch no_format "run-0"
            (snd (cancelRun C.fetch no_format "run-0" one_running_run)))
     = Return (JObj [("status", JStr "canceled")])
  /\ C.terminated
       (snd (cancelRun C.fetch no_format "run-0"
               (snd (cancelRun C.fetch no_format "run-0" one_running_run))))
     = ["run-0"]
  /\ exists st,
       C.status
       <$> C.store (snd (cancelRun C.fetch no_format "run-0" one_running_run)) !! "run-0"
       = Some st.
Proof.
  split; [reflexivity|]. split; [reflexivity|]. split; [reflexivity|].
  destruct (cancel_twice_same_status no_format "run-0" one_running_run
              (C.mkRunRecord "run-0" gsm8k_config C.running 0 (Some 1%N) None None None)
              eq_refl)
    as (st & _ & _ & _ & Hstatus & _).
  exists st. exact Hstatus.
Defined.

(** * Further properties of the sources *)

(** ** The request helper and its callers *)

Section RequestCalls.

Variable respond : string -> RequestInit.t -> Completion Response.t.
Variable Number_toString : Q -> string.

Lemma sent_init_content_type (options : RequestInit.t) :
  RequestInit.headers (sent_init options) !! "Content-Type"
  = Some (default "application/json" (RequestInit.headers options !! "Content-Type")).
Proof.
  unfold sent_init. cbn [RequestInit.headers]. rewrite lookup_union.
  destruct (RequestInit.headers options !! "Content-Type") as [v|]; simpl.
  - rewrite lookup_singleton_eq. reflexivity.
  - rewrite lookup_singleton_eq. reflexivity.
Qed.

Lemma sent_init_other_header (options : RequestInit.t) (k : string) :
  k <> "Content-Type" ->
  RequestInit.headers (sent_init options) !! k = RequestInit.headers options !! k.
Proof.
  intros Hk. unfold sent_init. cbn [RequestInit.headers]. rewrite lookup_union.
  rewrite lookup_singleton_ne by congruence.
  destruct (RequestInit.headers options !! k); reflexivity.
Qed.

(** X1.  Whatever the response, [request] makes exactly one [fetch]: to
    [API_BASE] followed by the endpoint, with the caller's method and body,
    every header the caller gave, and [Content-Type: application/json]
    unless the caller gave a [Content-Type] of its own. *)
Theorem request_fetches_once (endpoint : string) (options : RequestInit.t)
    (log : list (string * RequestInit.t)) :
  exists init,
    snd (request (recording respond) Number_toString endpoint options log)
    = log ++ [("/api" +:+ endpoint, init)]
    /\ RequestInit.method init = RequestInit.method options
    /\ RequestInit.body init = RequestInit.body options
    /\ RequestInit.headers init !! "Content-Type"
       = Some (default "application/json" (RequestInit.headers options !! "Content-Type"))
    /\ (forall k, k <> "Content-Type" ->
          RequestInit.headers init !! k = RequestInit.headers options !! k).
Proof.
  exists (sent_init options). split.
  - unfold request, recording.
    destruct (respond (API_BASE +:+ endpoint) (sent_init options)) as [response|e];
      [|reflexivity].
    destruct (negb (Response.ok response)); [|reflexivity].
    destruct (get_prop (error_body response) "detail") as [detail|e]; reflexivity.
  - split; [reflexivity|]. split; [reflexivity|].
    split; [apply sent_init_content_type|apply sent_init_other_header].
Qed.

End RequestCalls.

(** ** The error paths of a subscription *)

Section SubscribeErrors.

Context {W : Type}.
Variable handlers : SSEEventHandlers.t W.
Variable runId : string.

Local Abbreviation es := (subscribeToRunEvents handlers runId).

(** X2.  Once the function returned by [subscribeToRunEvents] has been
    called, nothing that arrives on the stream runs a handler or changes
    the subscriber's world. *)
Theorem cleanup_silences_source (incoming : list Incoming) (sub : Subscription W) :
  calls (deliver es incoming (cleanup sub)) = calls sub
  /\ world (deliver es incoming (cleanup sub)) = world sub
  /\ readyState (deliver es incoming (cleanup sub)) = CLOSED.
Proof.
  rewrite deliver_closed by reflexivity. repeat split.
Qed.

Lemma invoke_only_called {A : Type} (s : Slot) (h : option (Handler W A)) (a : A)
    (sub : Subscription W) :
  only_called s sub (fst (invoke s h a sub)).
Proof.
  unfold invoke. destruct h as [f|]; simpl.
  - destruct (f a (world sub)) as [w' t]. simpl.
    eexists. split; [reflexivity|]. split; [simpl; lia|]. repeat constructor.
  - exists []. rewrite app_nil_r. split; [reflexivity|]. split; [simpl; lia|constructor].
Qed.

Lemma invoke_world {A : Type} (s : Slot) (h : option (Handler W A)) (a : A)
    (sub : Subscription W) :
  world (fst (invoke s h a sub))
  = match h with Some f => fst (f a (world sub)) | None => world sub end
  /\ readyState (fst (invoke s h a sub)) = readyState sub.
Proof.
  unfold invoke. destruct h as [f|]; simpl; [|auto].
  destruct (f a (world sub)) as [w' t]. auto.
Qed.

Lemma catch_report_malformed {A : Type} (s : Slot) (h : option (Handler W A))
    (rest : _) (fallback message : string) (sub : Subscription W) :
  readyState sub = OPEN ->
  let sub' := try_listener s h rest (catch_report handlers fallback) (Malformed message) sub in
  world sub' = reported handlers (ErrorObj "SyntaxError" message) (world sub)
  /\ readyState sub' = OPEN
  /\ only_called OnError sub sub'.
Proof.
  intros Hopen. simpl. unfold catch_report. simpl.
  destruct (invoke_world OnError (SSEEventHandlers.onError handlers)
              (ErrorObj "SyntaxError" message) sub) as [Hw Hr].
  split; [exact Hw|]. split; [congruence|]. apply invoke_only_called.
Qed.

Ltac to_listener Hopen :=
  unfold dispatch; rewrite Hopen; cbv zeta;
  cbn [run_listeners listeners subscribeToRunEvents set_onerror addEventListener
         new_EventSource app String.eqb Ascii.eqb Bool.eqb event_type];
  unfold status_listener, log_line_listener, progress_listener, completed_listener,
    failed_listener, canceled_listener, heartbeat_listener;
  cbn [as_SSEStatusEvent as_SSELogLineEvent as_SSEProgressEvent as_SSECompletedEvent
         as_SSEFailedEvent as_SSECanceledEvent as_SSEHeartbeatEvent].

Ltac malformed_case :=
  intros sub message Hopen; to_listener Hopen;
  match goal with
  | |- context [try_listener ?s ?h ?rest (catch_report _ ?fb) _ _] =>
      apply (catch_report_malformed s h rest fb message sub Hopen)
  end.

(** X3.  A [status], [log_line], [progress], [completed], [failed] or
    [canceled] message whose data does not parse reaches no handler but
    [onError], which is handed the [SyntaxError] itself; the source stays
    open, also for the three terminal kinds. *)
Theorem unparsable_event_is_reported :
  reports_malformed es handlers status_event
  /\ reports_malformed es handlers log_line_event
  /\ reports_malformed es handlers progress_event
  /\ reports_malformed es handlers completed_event
  /\ reports_malformed es handlers failed_event
  /\ reports_malformed es handlers canceled_event.
Proof. repeat apply conj; malformed_case. Qed.

Lemma catch_report_throw {A : Type} (s : Slot) (f : Handler W A)
    (rest : _) (fallback : string) (v : A) (w' : W) (err : Thrown)
    (sub : Subscription W) :
  readyState sub = OPEN ->
  f v (world sub) = (w', Some err) ->
  let sub' := try_listener s (Some f) rest (catch_report handlers fallback) (Parsed v) sub in
  world sub' = reported handlers (if instanceof_Error err then err else new_Error fallback) w'
  /\ readyState sub' = OPEN.
Proof.
  intros Hopen Hf. simpl. unfold try_listener, invoke. rewrite Hf.
  unfold catch_report.
  match goal with
  | |- context [invoke OnError ?h ?e ?s0] =>
      destruct (invoke_world OnError h e s0) as [Hw Hr]
  end.
  split; [exact Hw|]. rewrite Hr. exact Hopen.
Qed.

Ltac throw_case :=
  intros sub f v w' err Hopen Hh Hf; to_listener Hopen; rewrite Hh;
  match goal with
  | |- context [try_listener ?s _ ?rest _ _ _] =>
      apply (catch_report_throw s f rest _ v w' err sub Hopen Hf)
  end.

(** X4.  When the handler of a [status], [log_line], [progress],
    [completed], [failed] or [canceled] message throws, [onError] is handed
    what was thrown if it is an [Error], and otherwise a new [Error] saying
    ["Failed to parse <kind> event"]; the source stays open. *)
Theorem thrown_value_is_wrapped :
  reports_throw es handlers status_event
    (SSEEventHandlers.onStatus handlers) "Failed to parse status event"
  /\ reports_throw es handlers log_line_event
       (SSEEventHandlers.onLogLine handlers) "Failed to parse log_line event"
  /\ reports_throw es handlers progress_event
       (SSEEventHandlers.onProgress handlers) "Failed to parse progress event"
  /\ reports_throw es handlers completed_event
       (SSEEventHandlers.onCompleted handlers) "Failed to parse completed event"
  /\ reports_throw es handlers failed_event
       (SSEEventHandlers.onFailed handlers) "Failed to parse failed event"
  /\ reports_throw es handlers canceled_event
       (SSEEventHandlers.onCanceled handlers) "Failed to parse canceled event".
Proof. repeat apply conj; throw_case. Qed.

(** X5.  Heartbeat errors are non-critical: a [heartbeat] message never
    reaches [onError] and never closes the source, whether its data parses
    or not and whether [onHeartbeat] throws or not; when its data does not
    parse, nothing happens at all. *)
Theorem heartbeat_never_reports (data : Data SSEHeartbeatEvent.t) (sub : Subscription W) :
  readyState sub = OPEN ->
  readyState (dispatch es (Message (heartbeat_event data)) sub) = OPEN
  /\ only_called OnHeartbeat sub (dispatch es (Message (heartbeat_event data)) sub)
  /\ (forall message,
        data = Malformed message ->
        dispatch es (Message (heartbeat_event data)) sub = sub)
  /\ (forall v,
        data = Parsed v ->
        world (dispatch es (Message (heartbeat_event data)) sub)
        = match SSEEventHandlers.onHeartbeat handlers with
          | Some f => fst (f v (world sub))
          | None => world sub
          end).
Proof.
  intros Hopen. to_listener Hopen.
  destruct data as [message|v]; simpl.
  - split; [exact Hopen|]. split; [|split; [reflexivity|discriminate]].
    exists []. rewrite app_nil_r. split; [reflexivity|]. split; [simpl; lia|constructor].
  - destruct (invoke_world OnHeartbeat (SSEEventHandlers.onHeartbeat handlers) v sub)
      as [Hw Hr].
    pose proof (invoke_only_called OnHeartbeat (SSEEventHandlers.onHeartbeat handlers) v sub)
      as Hcalls.
    destruct (invoke OnHeartbeat (SSEEventHandlers.onHeartbeat handlers) v sub)
      as [sub' [err|]]; simpl in *.
    + split; [congruence|]. split; [exact Hcalls|]. split; [discriminate|].
      intros v0 Hv. injection Hv as <-. exact Hw.
    + split; [congruence|]. split; [exact Hcalls|]. split; [discriminate|].
      intros v0 Hv. injection Hv as <-. exact Hw.
Qed.

Lemma try_listener_stays {A : Type} (s : Slot) (h : option (Handler W A))
    (handler : _) (data : Data A) (sub : Subscription W) :
  (forall err sub0, readyState (handler err sub0) = readyState sub0) ->
  readyState (try_listener s h Datatypes.id handler data sub) = readyState sub.
Proof.
  intros Hhandler. unfold try_listener. destruct data as [message|v]; [apply Hhandler|].
  destruct (invoke_world s h v sub) as [_ Hr].
  destruct (invoke s h v sub) as [sub' [err|]]; simpl in *.
  - rewrite Hhandler. exact Hr.
  - exact Hr.
Qed.

Lemma catch_report_stays (fallback : string) (err : Thrown) (sub0 : Subscription W) :
  readyState (catch_report handlers fallback err sub0) = readyState sub0.
Proof. apply catch_report_step. Qed.

(** X6.  A message closes an open source only if its type is [completed],
    [failed], [canceled] or [error]: no [status], [log_line], [progress] or
    [heartbeat] message, and no message of any other type, closes it,
    whatever the handlers return or throw.  (The handlers act on the
    subscriber's state; one that itself calls the cleanup function is not
    covered.) *)
Theorem only_terminal_message_closes (e : MessageEvent) (sub : Subscription W) :
  readyState sub = OPEN ->
  readyState (dispatch es (Message e) sub) = CLOSED ->
  In (event_type e) ["completed"; "failed"; "canceled"; "error"].
Proof.
  intros Hopen Hclosed. rewrite (dispatch_message handlers runId e sub Hopen) in Hclosed.
  destruct (String.eqb_spec (event_type e) "error") as [->|_]; [simpl; auto|].
  destruct (run_listeners_hit (listeners es) e sub) as [Hsame|[l [Hin Hrun]]].
  - rewrite registered_types. apply event_kinds_NoDup.
  - rewrite Hsame in Hclosed. congruence.
  - rewrite Hrun in Hclosed.
    unfold subscribeToRunEvents, set_onerror, addEventListener, new_EventSource in Hin.
    cbn [listeners app] in Hin. simpl In in Hin.
    destruct Hin as [Heq|[Heq|[Heq|[Heq|[Heq|[Heq|[Heq|[]]]]]]]];
      injection Heq as Htype Hl; rewrite <- Htype; simpl; auto;
      exfalso; subst l;
      unfold status_listener, log_line_listener, progress_listener,
        heartbeat_listener in Hclosed;
      rewrite try_listener_stays in Hclosed
        by first [ apply catch_report_stays | reflexivity ];
      congruence.
Qed.

(** X7.  A connection error hands [onError] an [Error] saying ["SSE
    connection error"] and calls no other handler.  The source is closed
    afterwards when [onError] returns normally (or is not supplied); when
    [onError] throws, the [close] is skipped, and after an error that was
    not fatal the source is left connecting. *)
Theorem connection_error_reports_then_closes (fatal : bool) (sub : Subscription W) :
  readyState sub <> CLOSED ->
  world (dispatch es (ConnectionError fatal) sub)
  = reported handlers (new_Error "SSE connection error") (world sub)
  /\ only_called OnError sub (dispatch es (ConnectionError fatal) sub)
  /\ (returns_normally (SSEEventHandlers.onError handlers)
        (new_Error "SSE connection error") (world sub) ->
      readyState (dispatch es (ConnectionError fatal) sub) = CLOSED)
  /\ (~ returns_normally (SSEEventHandlers.onError handlers)
          (new_Error "SSE connection error") (world sub) ->
      readyState (dispatch es (ConnectionError fatal) sub)
      = if fatal then CLOSED else CONNECTING).
Proof.
  intros Hlive.
  assert (Hstep : dispatch es (ConnectionError fatal) sub
                  = onerror_listener handlers
                      (mkSubscription (if fatal then CLOSED else CONNECTING)
                         (world sub) (calls sub))).
  { unfold dispatch. destruct (readyState sub); [reflexivity|reflexivity|congruence]. }
  rewrite Hstep. unfold onerror_listener, reported, returns_normally, only_called, invoke.
  destruct (SSEEventHandlers.onError handlers) as [g|]; simpl.
  - destruct (g (new_Error "SSE connection error") (world sub)) as [w' [err|]]; simpl.
    + split; [reflexivity|]. split.
      * eexists. split; [reflexivity|]. split; [simpl; lia|repeat constructor].
      * split; [discriminate|reflexivity].
    + split; [reflexivity|]. split.
      * eexists. split; [reflexivity|]. split; [simpl; lia|repeat constructor].
      * split; [reflexivity|]. intros Hn. exfalso. apply Hn. reflexivity.
  - split; [reflexivity|]. split.
    + exists []. rewrite app_nil_r. split; [reflexivity|]. split; [simpl; lia|constructor].
    + split; [reflexivity|]. intros Hn. exfalso. apply Hn. exact I.
Qed.

End SubscribeErrors.

Lemma heartbeat_never_reports_witness :
  dispatch (subscribeToRunEvents P.handlers "r1")
    (Message (heartbeat_event (Malformed "Unexpected token"))) live_page
  = live_page.
Proof.
  destruct (heartbeat_never_reports P.handlers "r1" (Malformed "Unexpected token")
              live_page eq_refl)
    as (_ & _ & Hsame & _).
  exact (Hsame "Unexpected token" eq_refl).
Defined.

Lemma only_terminal_message_closes_witness :
  In "completed" ["completed"; "failed"; "canceled"; "error"].
Proof.
  exact (only_terminal_message_closes P.handlers "r1"
           (completed_event (Parsed completed_0)) live_page eq_refl eq_refl).
Defined.

Lemma connection_error_reports_then_closes_witness :
  readyState
    (dispatch (subscribeToRunEvents throwing_handlers "r1") (ConnectionError false)
       (mkSubscription OPEN tt []))
  = CLOSED
  /\ calls
       (dispatch (subscribeToRunEvents throwing_handlers "r1") (ConnectionError false)
          (mkSubscription OPEN tt []))
     = [].
Proof.
  assert (Hlive : readyState (mkSubscription OPEN tt []) <> CLOSED) by discriminate.
  destruct (connection_error_reports_then_closes throwing_handlers "r1" false
              (mkSubscription OPEN tt []) Hlive)
    as (_ & _ & Hclosed & _).
  split; [exact (Hclosed I)|reflexivity].
Defined.

(** A handler that throws a string: [onError] is handed the fallback. *)
Lemma thrown_value_is_wrapped_witness :
  world
    (dispatch (subscribeToRunEvents string_throwing_handlers "r1")
       (Message (status_event (Parsed status_running)))
       (mkSubscription OPEN [] []))
  = ["Failed to parse status event"].
Proof.
  destruct (thrown_value_is_wrapped string_throwing_handlers "r1") as [Hstatus _].
  destruct (Hstatus (mkSubscription OPEN [] [])
              (fun _ w => (w, Some (NonError "oops"))) status_running [] (NonError "oops")
              eq_refl eq_refl eq_refl)
    as [Hworld _].
  exact Hworld.
Defined.

Lemma unparsable_event_is_reported_witness :
  readyState
    (dispatch (subscribeToRunEvents quiet_handlers "r1") (Message truncated_completed)
       (mkSubscription OPEN tt []))
  = OPEN.
Proof.
  destruct (unparsable_event_is_reported quiet_handlers "r1") as (_ & _ & _ & Hc & _).
  destruct (Hc (mkSubscription OPEN tt []) "Unexpected end of JSON input" eq_refl)
    as (_ & Hopen & _).
  exact Hopen.
Defined.

(** ** Loading and cancelling on the run detail page *)

Lemma split_nonempty (sep : ascii) (s : string) : P.split sep s <> [].
Proof.
  destruct s as [|c s]; simpl; [discriminate|].
  destruct (Ascii.eqb c sep); [discriminate|].
  destruct (P.split sep s); discriminate.
Qed.

Lemma concat_cons_char (sep : string) (c : ascii) (h : string) (tl : list string) :
  String.concat sep (String c h :: tl) = String c (String.concat sep (h :: tl)).
Proof. destruct tl; reflexivity. Qed.

(** Joining what [split] made gives the string back. *)
Lemma join_split (s : string) : P.join (P.split P.newline s) = s.
Proof.
  unfold P.join. induction s as [|c s IH]; [reflexivity|].
  cbn [P.split]. destruct (Ascii.eqb_spec c P.newline) as [->|Hne].
  - pose proof (split_nonempty P.newline s) as Hs.
    destruct (P.split P.newline s) as [|h tl]; [congruence|].
    change (String.concat (String P.newline "") ("" :: h :: tl))
      with (String P.newline (String.concat (String P.newline "") (h :: tl))).
    rewrite IH. reflexivity.
  - pose proof (split_nonempty P.newline s) as Hs.
    destruct (P.split P.newline s) as [|h tl]; [congruence|].
    rewrite concat_cons_char, IH. reflexivity.
Qed.

Section PageLoading.

Context {W : Type}.
Variable fetch : string -> RequestInit.t -> W -> Completion Response.t * W.
Variable Number_toString : Q -> string.
Variable as_RunDetail : JSON -> RunDetail.t.

Lemma falsy_some (i : string) : i <> "" -> P.falsy (Some i) = false.
Proof. intros Hi. simpl. destruct (String.eqb_spec i ""); congruence. Qed.

Lemma loadRun_settles (s : P.State) (w : W) (i : string) :
  P.id s = Some i ->
  i <> "" ->
  P.loadRun fetch Number_toString as_RunDetail s w
  = (P.loadRun_settled as_RunDetail (fst (getRun fetch Number_toString i 100 w)) s,
     snd (getRun fetch Number_toString i 100 w)).
Proof.
  intros Hid Hi. unfold P.loadRun. rewrite Hid, (falsy_some i Hi).
  destruct (getRun fetch Number_toString i 100 w). reflexivity.
Qed.

Lemma loadRun_settled_frame (r : Completion JSON) (s : P.State) :
  P.loading (P.loadRun_settled as_RunDetail r s) = false
  /\ P.id (P.loadRun_settled as_RunDetail r s) = P.id s
  /\ P.progress (P.loadRun_settled as_RunDetail r s) = P.progress s
  /\ P.isSSEConnected (P.loadRun_settled as_RunDetail r s) = P.isSSEConnected s
  /\ P.sseCleanup (P.loadRun_settled as_RunDetail r s) = P.sseCleanup s
  /\ P.hasInitializedSSE (P.loadRun_settled as_RunDetail r s) = P.hasInitializedSSE s.
Proof.
  unfold P.loadRun_settled. destruct r as [body|err]; [|repeat split].
  destruct (RunDetail.stdout_tail (as_RunDetail body)) as [t1|];
    destruct (RunDetail.stderr_tail (as_RunDetail body)) as [t2|]; simpl;
    repeat match goal with |- context [if ?b then _ else _] => destruct b end;
    repeat split.
Qed.

(** X8.  Whether the request succeeds or fails, a load of the run ends
    with the loading flag cleared, and it never touches the progress value,
    the SSE flags or the route id. *)
Theorem loadRun_clears_loading (s : P.State) (w : W) (i : string) :
  P.id s = Some i ->
  i <> "" ->
  P.loading (fst (P.loadRun fetch Number_toString as_RunDetail s w)) = false
  /\ P.progress (fst (P.loadRun fetch Number_toString as_RunDetail s w)) = P.progress s
  /\ P.isSSEConnected (fst (P.loadRun fetch Number_toString as_RunDetail s w))
     = P.isSSEConnected s
  /\ P.hasInitializedSSE (fst (P.loadRun fetch Number_toString as_RunDetail s w))
     = P.hasInitializedSSE s
  /\ P.id (fst (P.loadRun fetch Number_toString as_RunDetail s w)) = Some i.
Proof.
  intros Hid Hi. rewrite (loadRun_settles s w i Hid Hi). simpl.
  destruct (loadRun_settled_frame (fst (getRun fetch Number_toString i 100 w)) s)
    as (Hl & Hi' & Hp & Hc & _ & Hh).
  rewrite Hl, Hp, Hc, Hh, Hi'. auto.
Qed.

(** X9.  When a load fails with an [Error], the run record and the log
    lines the page holds stay as they are, but the page shows the error
    text in place of the run until a later load succeeds. *)
Theorem failed_load_hides_run (s : P.State) (w w' : W) (i name text : string) :
  P.id s = Some i ->
  i <> "" ->
  text <> "" ->
  getRun fetch Number_toString i 100 w = (Throw (ErrorObj name text), w') ->
  P.run (fst (P.loadRun fetch Number_toString as_RunDetail s w)) = P.run s
  /\ P.stdoutLines (fst (P.loadRun fetch Number_toString as_RunDetail s w))
     = P.stdoutLines s
  /\ P.stderrLines (fst (P.loadRun fetch Number_toString as_RunDetail s w))
     = P.stderrLines s
  /\ P.error (fst (P.loadRun fetch Number_toString as_RunDetail s w)) = Some text
  /\ P.render (fst (P.loadRun fetch Number_toString as_RunDetail s w)) = P.ErrorPage text.
Proof.
  intros Hid Hi Htext Hget. rewrite (loadRun_settles s w i Hid Hi), Hget. simpl.
  repeat split. unfold P.render. simpl.
  destruct (String.eqb_spec text ""); [congruence|reflexivity].
Qed.

(** X10.  While SSE is connected, a successful load replaces the run
    record and clears the error, and leaves the live log lines alone. *)
Theorem load_keeps_live_lines (s : P.State) (w w' : W) (i : string) (body : JSON) :
  P.id s = Some i ->
  i <> "" ->
  P.isSSEConnected s = true ->
  getRun fetch Number_toString i 100 w = (Return body, w') ->
  P.stdoutLines (fst (P.loadRun fetch Number_toString as_RunDetail s w)) = P.stdoutLines s
  /\ P.stderrLines (fst (P.loadRun fetch Number_toString as_RunDetail s w))
     = P.stderrLines s
  /\ P.run (fst (P.loadRun fetch Number_toString as_RunDetail s w))
     = Some (as_RunDetail body)
  /\ P.error (fst (P.loadRun fetch Number_toString as_RunDetail s w)) = None.
Proof.
  intros Hid Hi Hconn Hget. rewrite (loadRun_settles s w i Hid Hi), Hget. simpl.
  destruct (RunDetail.stdout_tail (as_RunDetail body)) as [t1|];
    destruct (RunDetail.stderr_tail (as_RunDetail body)) as [t2|]; simpl;
    rewrite ?Hconn; simpl; rewrite ?Hconn; simpl; repeat split.
Qed.

Lemma settled_polled_tail (s : P.State) (body : JSON) (tail : string) :
  P.isSSEConnected s = false ->
  RunDetail.stdout_tail (as_RunDetail body) = Some tail ->
  tail <> "" ->
  P.stdoutLines (P.loadRun_settled as_RunDetail (Return body) s) = P.split P.newline tail
  /\ P.run (P.loadRun_settled as_RunDetail (Return body) s) = Some (as_RunDetail body)
  /\ P.error (P.loadRun_settled as_RunDetail (Return body) s) = None
  /\ P.loading (P.loadRun_settled as_RunDetail (Return body) s) = false.
Proof.
  intros Hconn Htail Hne.
  assert (Heqb : String.eqb tail "" = false).
  { destruct (String.eqb_spec tail ""); congruence. }
  unfold P.loadRun_settled. rewrite Htail.
  destruct (RunDetail.stderr_tail (as_RunDetail body)) as [t|]; simpl;
    rewrite Hconn, Heqb; simpl;
    [destruct (String.eqb t ""); simpl; rewrite ?Hconn; simpl|]; repeat split.
Qed.

(** X11.  While SSE is not connected, a successful load whose run record
    has a non-empty stdout tail replaces the stdout lines by the lines of
    that tail, and the page then displays the tail exactly as it was sent. *)
Theorem polled_tail_is_displayed (s : P.State) (w w' : W) (i tail : string)
    (body : JSON) :
  P.id s = Some i ->
  i <> "" ->
  P.isSSEConnected s = false ->
  getRun fetch Number_toString i 100 w = (Return body, w') ->
  RunDetail.stdout_tail (as_RunDetail body) = Some tail ->
  tail <> "" ->
  P.stdoutLines (fst (P.loadRun fetch Number_toString as_RunDetail s w))
  = P.split P.newline tail
  /\ P.displayStdout (fst (P.loadRun fetch Number_toString as_RunDetail s w))
       (as_RunDetail body)
     = tail
  /\ P.render (fst (P.loadRun fetch Number_toString as_RunDetail s w))
     = P.RunPage (as_RunDetail body).
Proof.
  intros Hid Hi Hconn Hget Htail Hne.
  rewrite (loadRun_settles s w i Hid Hi), Hget. cbn [fst].
  destruct (settled_polled_tail s body tail Hconn Htail Hne) as (Hout & Hrun & Herr & Hload).
  assert (Heqb : String.eqb tail "" = false).
  { destruct (String.eqb_spec tail ""); congruence. }
  split; [exact Hout|]. split.
  - unfold P.displayStdout. rewrite Hout, join_split.
    unfold P.or_else. rewrite !Heqb. reflexivity.
  - unfold P.render. rewrite Hload, Herr, Hrun. reflexivity.
Qed.

End PageLoading.

(** A load while SSE is not connected, on a recording network: one request
    to the run detail endpoint; a successful answer becomes the run record,
    and its stdout tail, when it is not empty, the stdout lines. *)
Lemma disconnected_load (respond : string -> RequestInit.t -> Completion Response.t)
    (nts : Q -> string) (cast : JSON -> RunDetail.t) (s : P.State) (i : string)
    (log : list (string * RequestInit.t)) :
  P.id s = Some i ->
  i <> "" ->
  P.isSSEConnected s = false ->
  snd (P.loadRun (recording respond) nts cast s log)
  = log ++ [("/api/runs/" +:+ i +:+ "?log_lines=100", sent_init RequestInit.empty)]
  /\ P.progress (fst (P.loadRun (recording respond) nts cast s log)) = P.progress s
  /\ (forall status body,
        respond ("/api/runs/" +:+ i +:+ "?log_lines=100") (sent_init RequestInit.empty)
        = Return (Response.mk true status (Return body)) ->
        P.run (fst (P.loadRun (recording respond) nts cast s log)) = Some (cast body)
        /\ (forall tail,
              RunDetail.stdout_tail (cast body) = Some tail ->
              tail <> "" ->
              P.stdoutLines (fst (P.loadRun (recording respond) nts cast s log))
              = P.split P.newline tail)
        /\ (P.or_else (RunDetail.stdout_tail (cast body)) None = None ->
            P.stdoutLines (fst (P.loadRun (recording respond) nts cast s log))
            = P.stdoutLines s)).
Proof.
  intros Hid Hi Hconn.
  rewrite (loadRun_settles (recording respond) nts cast s log i Hid Hi). cbn [fst snd].
  split; [unfold getRun; rewrite request_recording; reflexivity|].
  split; [apply loadRun_settled_frame|].
  intros status body Hrespond.
  assert (Hget : fst (getRun (recording respond) nts i 100 log) = Return body).
  { unfold getRun, request, recording.
    change (API_BASE +:+ "/runs/" +:+ i +:+ "?log_lines=" +:+ decimal 100)
      with ("/api/runs/" +:+ i +:+ "?log_lines=100").
    rewrite Hrespond. reflexivity. }
  rewrite Hget. split; [apply loadRun_settled_record|]. split.
  - intros tail Htail Hne. apply (settled_polled_tail cast s body tail Hconn Htail Hne).
  - intros Hnone. unfold P.loadRun_settled.
    destruct (RunDetail.stdout_tail (cast body)) as [t1|] eqn:Ht1.
    + simpl in Hnone. destruct (String.eqb t1 "") eqn:He; [|discriminate].
      destruct (RunDetail.stderr_tail (cast body)) as [t2|]; simpl;
        rewrite ?Hconn, ?He; simpl;
        repeat match goal with |- context [if ?b then _ else _] => destruct b end;
        reflexivity.
    + destruct (RunDetail.stderr_tail (cast body)) as [t2|]; simpl;
        repeat match goal with |- context [if ?b then _ else _] => destruct b end;
        reflexivity.
Qed.

Section PageCancel.

Variable respond : string -> RequestInit.t -> Completion Response.t.
Variable Number_toString : Q -> string.
Variable as_RunDetail : JSON -> RunDetail.t.

(** X12.  [handleCancel] posts to the cancel endpoint of the run, with no
    body; if that call returns, it loads the run once through the run
    detail endpoint, and if it throws, it makes no further request, leaves
    the run record as it is and stores the error text. *)
Theorem handleCancel_requests (s : P.State) (i : string)
    (log : list (string * RequestInit.t)) :
  P.id s = Some i ->
  i <> "" ->
  match fst (cancelRun (recording respond) Number_toString i log) with
  | Return _ =>
      snd (P.handleCancel (recording respond) Number_toString as_RunDetail s log)
      = log
        ++ [("/api/runs/" +:+ i +:+ "/cancel",
             sent_init (RequestInit.mk (Some "POST") ∅ None));
            ("/api/runs/" +:+ i +:+ "?log_lines=100", sent_init RequestInit.empty)]
  | Throw err =>
      snd (P.handleCancel (recording respond) Number_toString as_RunDetail s log)
      = log
        ++ [("/api/runs/" +:+ i +:+ "/cancel",
             sent_init (RequestInit.mk (Some "POST") ∅ None))]
      /\ P.run (fst (P.handleCancel (recording respond) Number_toString as_RunDetail s log))
         = P.run s
      /\ P.error (fst (P.handleCancel (recording respond) Number_toString as_RunDetail s log))
         = Some (match err with
                 | ErrorObj _ text => text
                 | NonError _ => "Failed to cancel run"
                 end)
  end.
Proof.
  intros Hid Hi. unfold P.handleCancel. rewrite Hid, (falsy_some i Hi).
  pose proof (request_recording respond Number_toString ("/runs/" +:+ i +:+ "/cancel")
                (RequestInit.mk (Some "POST") ∅ None) log) as Hcancel.
  fold (cancelRun (recording respond) Number_toString i log) in Hcancel.
  destruct (cancelRun (recording respond) Number_toString i log) as [[body|err] log1].
  - simpl in Hcancel |- *. subst log1.
    rewrite (loadRun_settles (recording respond) Number_toString as_RunDetail s _ i Hid Hi).
    simpl. unfold getRun. rewrite request_recording.
    rewrite <- app_assoc. reflexivity.
  - simpl in Hcancel |- *. subst log1. repeat split.
Qed.

End PageCancel.

(** ** The life of the page's subscription *)

Section PageSubscription.

Variable runId : string.

Local Abbreviation es := (subscribeToRunEvents P.handlers runId).

(** X13.  [subscribeToEvents] opens a source exactly when the page has a
    route id and has not initialised SSE yet; it then marks SSE connected
    and initialised, and a second call opens nothing and changes nothing. *)
Theorem subscribeToEvents_opens_once (s : P.State) :
  (P.falsy (P.id s) = true \/ P.hasInitializedSSE s = true ->
   P.subscribeToEvents s = (s, None))
  /\ (forall i,
        P.id s = Some i -> i <> "" -> P.hasInitializedSSE s = false ->
        snd (P.subscribeToEvents s) = Some (subscribeToRunEvents P.handlers i)
        /\ P.isSSEConnected (fst (P.subscribeToEvents s)) = true
        /\ P.hasInitializedSSE (fst (P.subscribeToEvents s)) = true
        /\ P.run (fst (P.subscribeToEvents s)) = P.run s
        /\ P.subscribeToEvents (fst (P.subscribeToEvents s))
           = (fst (P.subscribeToEvents s), None)).
Proof.
  split.
  - intros Hguard. unfold P.subscribeToEvents.
    destruct (P.id s) as [i|] eqn:Hid; [|reflexivity].
    destruct Hguard as [Hf|Hh].
    + rewrite Hf. reflexivity.
    + rewrite Hh, orb_true_r. reflexivity.
  - intros i Hid Hi Hinit. unfold P.subscribeToEvents.
    rewrite Hid, (falsy_some i Hi), Hinit. simpl.
    rewrite Hid, (falsy_some i Hi). repeat split.
Qed.

(** X14.  When a [status] event changes the status of the run the page
    shows to another active status, the effect that starts SSE runs again:
    its cleanup closes the source, and the effect opens no new one because
    SSE is still marked initialised.  The run is then active, SSE is still
    marked connected, so the page does not poll either, and nothing that
    arrives later reaches the page. *)
Theorem status_change_closes_the_source (sub : Subscription P.State)
    (event : SSEStatusEvent.t) (r : RunDetail.t) (i : string) :
  readyState sub = OPEN ->
  P.id (world sub) = Some i ->
  i <> "" ->
  P.run (world sub) = Some r ->
  P.sseCleanup (world sub) = true ->
  P.hasInitializedSSE (world sub) = true ->
  P.isSSEConnected (world sub) = true ->
  SSEStatusEvent.status event <> RunDetail.status r ->
  SSEStatusEvent.status event = "running" \/ SSEStatusEvent.status event = "queued" ->
  let after :=
    P.after_update (world sub) (dispatch es (Message (status_event (Parsed event))) sub) in
  readyState (fst after) = CLOSED
  /\ snd after = None
  /\ P.isActive (world (fst after)) = true
  /\ P.isSSEConnected (world (fst after)) = true
  /\ P.pollInterval (world (fst after)) = None
  /\ snd (P.subscribeToEvents (world (fst after))) = None
  /\ (forall incoming, deliver es incoming (fst after) = fst after).
Proof.
  intros Hopen Hid Hi Hrun Hclean Hinit Hconn Hchange Hactive.
  destruct sub as [rs [sid srun sl serr so se sp sc scl sh] cs]. simpl in *. subst.
  assert (Hi' : String.eqb i "" = false).
  { destruct (String.eqb_spec i ""); congruence. }
  assert (Hact : (String.eqb (SSEStatusEvent.status event) "running"
                  || String.eqb (SSEStatusEvent.status event) "queued") = true).
  { destruct Hactive as [-> | ->]; reflexivity. }
  unfold P.after_update, P.status_dep. simpl.
  destruct (decide (Some (RunDetail.status r) = Some (SSEStatusEvent.status event)))
    as [Heq|_]; [congruence|].
  unfold P.startSSE_rerun, P.startSSE_cleanup, P.startSSE_effect, P.isActive,
    P.subscribeToEvents, P.pollInterval.
  simpl. rewrite Hact. simpl. rewrite Hi'. simpl. rewrite ?Hact.
  repeat apply conj; rewrite ?Hi'; try reflexivity.
  intros incoming. apply deliver_closed. reflexivity.
Qed.

(** X16.  A terminal event on a live page that shows a run ends the run
    on the page: the record gets the terminal status, the source is closed,
    SSE is marked disconnected, the page does not poll, and the handler
    leaves the log lines and the progress value alone.  Marking SSE
    disconnected rebuilds [loadRun], so the page loads the run once more,
    with one request to the run detail endpoint: when the answer has a
    stdout tail that is not empty, the lines of that tail replace the live
    stdout lines; when it has none, the live lines stay. *)
Theorem terminal_event_quiesces_page (sub : Subscription P.State)
    (m : MessageEvent) (r : RunDetail.t) (i : string) :
  readyState sub = OPEN ->
  P.id (world sub) = Some i ->
  i <> "" ->
  P.run (world sub) = Some r ->
  P.isSSEConnected (world sub) = true ->
  P.terminal_message m ->
  let sub' := dispatch es (Message m) sub in
  (exists r',
     P.run (world sub') = Some r'
     /\ RunDetail.status r' = event_type m
     /\ RunDetail.run_id r' = RunDetail.run_id r)
  /\ readyState sub' = CLOSED
  /\ P.isSSEConnected (world sub') = false
  /\ P.isActive (world sub') = false
  /\ P.pollInterval (world sub') = None
  /\ P.stdoutLines (world sub') = P.stdoutLines (world sub)
  /\ P.stderrLines (world sub') = P.stderrLines (world sub)
  /\ P.progress (world sub') = P.progress (world sub)
  /\ (forall respond nts cast (log : list (string * RequestInit.t)),
        let reload :=
          P.initialLoad_effect (recording respond) nts cast (world sub) (world sub') log in
        snd reload
        = log ++ [("/api/runs/" +:+ i +:+ "?log_lines=100", sent_init RequestInit.empty)]
        /\ P.progress (fst reload) = P.progress (world sub)
        /\ (forall status body,
              respond ("/api/runs/" +:+ i +:+ "?log_lines=100")
                (sent_init RequestInit.empty)
              = Return (Response.mk true status (Return body)) ->
              P.run (fst reload) = Some (cast body)
              /\ (forall tail,
                    RunDetail.stdout_tail (cast body) = Some tail ->
                    tail <> "" ->
                    P.stdoutLines (fst reload) = P.split P.newline tail)
              /\ (P.or_else (RunDetail.stdout_tail (cast body)) None = None ->
                  P.stdoutLines (fst reload) = P.stdoutLines (world sub)))).
Proof.
  intros Hopen Hid Hi Hrun Hconn Hterm.
  destruct sub as [rs s cs]. simpl in Hopen, Hid, Hrun, Hconn. subst rs.
  assert (Hreload :
    forall s', P.id s' = Some i -> P.isSSEConnected s' = false ->
      P.stdoutLines s' = P.stdoutLines s -> P.progress s' = P.progress s ->
      forall respond nts cast (log : list (string * RequestInit.t)),
        let reload := P.initialLoad_effect (recording respond) nts cast s s' log in
        snd reload
        = log ++ [("/api/runs/" +:+ i +:+ "?log_lines=100", sent_init RequestInit.empty)]
        /\ P.progress (fst reload) = P.progress s
        /\ (forall status body,
              respond ("/api/runs/" +:+ i +:+ "?log_lines=100")
                (sent_init RequestInit.empty)
              = Return (Response.mk true status (Return body)) ->
              P.run (fst reload) = Some (cast body)
              /\ (forall tail,
                    RunDetail.stdout_tail (cast body) = Some tail ->
                    tail <> "" ->
                    P.stdoutLines (fst reload) = P.split P.newline tail)
              /\ (P.or_else (RunDetail.stdout_tail (cast body)) None = None ->
                  P.stdoutLines (fst reload) = P.stdoutLines s))).
  { intros s' Hid' Hconn' Hout' Hprog' respond nts cast log.
    unfold P.initialLoad_effect, P.loadRun_rebuilt.
    rewrite Hid, Hid', Hconn, Hconn'. rewrite bool_decide_eq_true_2 by reflexivity.
    cbn [negb Bool.eqb orb].
    destruct (disconnected_load respond nts cast s' i log Hid' Hi Hconn')
      as (Hlog & Hprog & Hok).
    cbv zeta. split; [exact Hlog|]. split; [congruence|].
    intros status body Hrespond.
    destruct (Hok status body Hrespond) as (Hrec & Htail & Hnone).
    split; [exact Hrec|]. split; [exact Htail|].
    intros Hn. rewrite <- Hout'. exact (Hnone Hn). }
  destruct m as [d|d|d|[?|v]|[?|v]|[?|v]|d|?]; simpl in Hterm; try contradiction;
    cbv zeta;
    (split; [simpl; rewrite Hrun; eexists; repeat split|]);
    (split; [reflexivity|]); (split; [reflexivity|]);
    (split; [unfold P.isActive; simpl; rewrite Hrun; reflexivity|]);
    (split; [unfold P.pollInterval; simpl; rewrite Hrun; simpl;
             destruct (P.falsy (P.id s)); reflexivity|]);
    (split; [reflexivity|]); (split; [reflexivity|]); (split; [reflexivity|]);
    apply Hreload; first [exact Hid | reflexivity].
Qed.

End PageSubscription.

(** ** The run form: providers, prefill and submission *)

Lemma includes_In (m : string) (l : list string) : F.includes m l = true <-> In m l.
Proof.
  unfold F.includes. rewrite existsb_exists. split.
  - intros [x [Hin Heq]]. apply String.eqb_eq in Heq. subst. exact Hin.
  - intros Hin. exists m. split; [exact Hin|apply String.eqb_refl].
Qed.

Lemma offered_monotone (keys keys' : list string) (prefix : string) :
  incl keys keys' ->
  existsb (fun p => F.includes p keys) (F.possibleProviders prefix) = true ->
  existsb (fun p => F.includes p keys') (F.possibleProviders prefix) = true.
Proof.
  intros Hincl H. apply existsb_exists in H as [p [Hp Hin]].
  apply existsb_exists. exists p. split; [exact Hp|].
  apply includes_In. apply Hincl. apply includes_In. exact Hin.
Qed.

(** X17.  The model menu always offers the "Other" provider, whose only
    model is the custom one; a user without API keys is offered nothing
    else; every provider offered is one of [MODEL_PROVIDERS]; and adding API
    keys never takes a provider off the menu. *)
Theorem other_provider_always_offered :
  (forall apiKeys, In ("Other", "other", ["custom"]) (F.filteredProviders apiKeys))
  /\ F.filteredProviders [] = [("Other", "other", ["custom"])]
  /\ (forall apiKeys provider,
        In provider (F.filteredProviders apiKeys) -> In provider F.MODEL_PROVIDERS)
  /\ (forall apiKeys apiKeys',
        incl apiKeys apiKeys' ->
        incl (F.filteredProviders apiKeys) (F.filteredProviders apiKeys')).
Proof.
  split.
  { intros apiKeys. unfold F.filteredProviders. apply filter_In. split; [|reflexivity].
    unfold F.MODEL_PROVIDERS. repeat (first [left; reflexivity | right]). }
  split; [vm_compute; reflexivity|]. split.
  - intros apiKeys provider Hin. unfold F.filteredProviders in Hin.
    apply filter_In in Hin. tauto.
  - intros apiKeys apiKeys' Hincl provider Hin. unfold F.filteredProviders in *.
    apply filter_In in Hin as [Hin Hoffer]. apply filter_In. split; [exact Hin|].
    apply orb_true_iff in Hoffer as [Hother|Hkey]; apply orb_true_iff;
      [left; exact Hother|right].
    exact (offered_monotone apiKeys apiKeys' _ Hincl Hkey).
Qed.

(** X18.  "Run Again" reproduces the config: a form prefilled with a config
    that has a benchmark and a model submits, untouched, that same config
    (with a limit of 10 if it had none, and without its schema version),
    whether or not the form lists the model; except that a prefill whose
    model is the literal ["custom"] cannot be submitted at all. *)
Theorem prefill_round_trip (p : RunConfig.t) :
  RunConfig.benchmark p <> "" ->
  RunConfig.model p <> "" ->
  (RunConfig.model p <> "custom" ->
   F.handleSubmit (F.initial (Some p)) = Some (F.resubmitted p))
  /\ (RunConfig.model p = "custom" -> F.handleSubmit (F.initial (Some p)) = None).
Proof.
  intros Hb Hm.
  assert (Hbe : String.eqb (RunConfig.benchmark p) "" = false).
  { destruct (String.eqb_spec (RunConfig.benchmark p) ""); congruence. }
  assert (Hme : String.eqb (RunConfig.model p) "" = false).
  { destruct (String.eqb_spec (RunConfig.model p) ""); congruence. }
  split.
  - intros Hc.
    assert (Hce : String.eqb (RunConfig.model p) "custom" = false).
    { destruct (String.eqb_spec (RunConfig.model p) "custom"); congruence. }
    unfold F.handleSubmit, F.initial, F.resubmitted. rewrite Hme. cbn [negb].
    destruct (F.includes (RunConfig.model p) F.allModelIds); cbn -[F.allModelIds].
    + rewrite Hce, Hbe, Hme. reflexivity.
    + rewrite Hbe, Hme. reflexivity.
  - intros Hc.
    assert (Hknown : F.includes "custom" F.allModelIds = true) by (vm_compute; reflexivity).
    unfold F.handleSubmit, F.initial. rewrite Hc.
    cbn -[F.includes F.allModelIds]. rewrite Hknown.
    cbn -[F.includes F.allModelIds]. rewrite Hbe. reflexivity.
Qed.

Section FormSubmission.

Variable parseInt : string -> number.
Variable parseFloat : string -> number.

Lemma handleSubmit_named (s : F.State) (c : RunConfig.t) :
  F.handleSubmit s = Some c ->
  RunConfig.benchmark c <> "" /\ RunConfig.model c <> ""
  /\ RunConfig.schema_version c = None.
Proof.
  unfold F.handleSubmit.
  destruct (String.eqb_spec (F.benchmark s) "") as [|Hb]; [discriminate|].
  destruct (String.eqb_spec
              (if String.eqb (F.model s) "custom" then F.customModel s else F.model s) "")
    as [|Hm]; [discriminate|].
  simpl. intros H. injection H as <-. simpl. auto.
Qed.

(** X19.  No config the form hands to [onSubmit] has an empty benchmark or
    an empty model, and none carries a schema version. *)
Theorem submitted_config_is_named (loading : bool) (s0 : F.State)
    (events : list F.Event) (c : RunConfig.t) :
  In c (snd (F.session parseInt parseFloat loading s0 events)) ->
  RunConfig.benchmark c <> "" /\ RunConfig.model c <> ""
  /\ RunConfig.schema_version c = None.
Proof.
  intros Hin.
  destruct (session_submitted parseInt parseFloat _ _ _ _ Hin) as [s Hstep].
  simpl in Hstep. destruct (F.submitDisabled loading s); [discriminate|].
  destruct (F.withinMinMax s); [|discriminate].
  apply (handleSubmit_named s). congruence.
Qed.

(** X20.  The [disabled] test of the submit button and the check at the
    head of [handleSubmit] agree: with the button enabled, a call of
    [handleSubmit] always reaches [onSubmit], with the config of the cells;
    with the button disabled for a missing benchmark or model, a call would
    reach nothing; and while [loading] is set the button is disabled
    whatever the cells hold. *)
Theorem enabled_submit_reaches_onSubmit (s : F.State) :
  (F.submitDisabled false s = false <-> F.handleSubmit s = Some (F.config_of s))
  /\ (F.submitDisabled false s = true <-> F.handleSubmit s = None)
  /\ (forall loading,
        F.submitDisabled loading s = false -> F.handleSubmit s = Some (F.config_of s))
  /\ F.submitDisabled true s = true.
Proof.
  pose proof (handleSubmit_enabled s) as Hcases.
  assert (Hloading : forall loading, F.submitDisabled loading s = false ->
                                     F.submitDisabled false s = false).
  { intros loading. unfold F.submitDisabled. rewrite !orb_false_iff. tauto. }
  split; [|split; [|split]].
  - destruct Hcases as [[-> ->]|[-> ->]]; split; intros H;
      first [reflexivity | discriminate H].
  - destruct Hcases as [[-> ->]|[-> ->]]; split; intros H;
      first [reflexivity | discriminate H].
  - intros loading Hd. apply Hloading in Hd.
    destruct Hcases as [[_ Hs]|[Hd' _]]; [exact Hs|congruence].
  - unfold F.submitDisabled. apply orb_true_r.
Qed.

(** X21.  While the [loading] prop is set, nothing the user does with the
    form reaches [onSubmit]. *)
Theorem loading_form_submits_nothing (s0 : F.State) (events : list F.Event) :
  snd (F.session parseInt parseFloat true s0 events) = [].
Proof.
  revert s0. induction events as [|e events IH]; intros s0; [reflexivity|].
  cbn [F.session].
  destruct (F.step parseInt parseFloat true s0 e) as [s1 submitted] eqn:Hstep.
  specialize (IH s1).
  destruct (F.session parseInt parseFloat true s1 events) as [s2 later].
  simpl in IH |- *. subst later.
  destruct submitted as [c|]; [|reflexivity].
  pose proof (step_submits_only_on_Submit parseInt parseFloat _ _ _ _ _ Hstep) as ->.
  simpl in Hstep. unfold F.submitDisabled in Hstep. rewrite orb_true_r in Hstep.
  discriminate.
Qed.

End FormSubmission.

(** ** Starting a run from the new run page *)

Module N := NewRun.

Section NewRunSubmit.

Context {W : Type}.
Variable fetch : string -> RequestInit.t -> W -> Completion Response.t * W.
Variable Number_toString : Q -> string.
Variable JSON_stringify : RunConfig.t -> string.

(** X22.  [handleSubmit] of the new run page posts the config to [/runs].
    When the server refuses it, the page shows the message of the refusal,
    re-enables the form and does not navigate; when the server answers with
    an object that has a [run_id] string, the page navigates to the page of
    that run, shows no error, and keeps the form disabled. *)
Theorem new_run_submit_outcomes (config : RunConfig.t) (s : N.State) (w w' : W)
    (response : Response.t) :
  fetch "/api/runs"
    (sent_init (RequestInit.mk (Some "POST") ∅ (Some (JSON_stringify config)))) w
  = (Return response, w') ->
  (Response.ok response = false ->
   error_body response <> JNull ->
   N.error (fst (N.handleSubmit fetch Number_toString JSON_stringify config s w))
   = Some (thrown_message Number_toString response)
   /\ N.submitting (fst (N.handleSubmit fetch Number_toString JSON_stringify config s w))
      = false
   /\ N.location (fst (N.handleSubmit fetch Number_toString JSON_stringify config s w))
      = N.location s)
  /\ (forall members id,
        Response.ok response = true ->
        Response.json response = Return (JObj members) ->
        assoc "run_id" members = Some (JStr id) ->
        N.location (fst (N.handleSubmit fetch Number_toString JSON_stringify config s w))
        = Some ("/runs/" +:+ id)
        /\ N.error (fst (N.handleSubmit fetch Number_toString JSON_stringify config s w))
           = None
        /\ N.submitting (fst (N.handleSubmit fetch Number_toString JSON_stringify config s w))
           = true
        /\ forall form,
             F.submitDisabled
               (N.submitting
                  (fst (N.handleSubmit fetch Number_toString JSON_stringify config s w)))
               form
             = true).
Proof.
  intros Hfetch. split.
  - intros Hok Hnull. unfold N.handleSubmit, createRun.
    rewrite (request_not_ok_message fetch Number_toString "/runs" _ w response w' Hfetch
               Hok Hnull).
    repeat split.
  - intros members id Hok Hjson Hid. unfold N.handleSubmit, createRun.
    rewrite (request_ok fetch Number_toString "/runs" _ w response w' Hfetch Hok), Hjson.
    simpl. rewrite Hid. simpl. repeat split.
    intros form. unfold F.submitDisabled. apply orb_true_r.
Qed.

End NewRunSubmit.

(** ** The dashboard *)

Module D := Dashboard.

Lemma count_cons (status : string) (r : RunSummary.t) (runs : list RunSummary.t) :
  D.count status (r :: runs)
  = (if String.eqb (RunSummary.status r) status then 1 else 0) + D.count status runs.
Proof.
  unfold D.count. simpl. destruct (String.eqb (RunSummary.status r) status); reflexivity.
Qed.

(** The runs that are neither running, completed nor failed. *)
Lemma other_runs_cons (r : RunSummary.t) (runs : list RunSummary.t) :
  (if String.eqb (RunSummary.status r) "running" then 1 else 0)
  + (if String.eqb (RunSummary.status r) "completed" then 1 else 0)
  + (if String.eqb (RunSummary.status r) "failed" then 1 else 0)
  + (if negb (String.eqb (RunSummary.status r) "running")
        && negb (String.eqb (RunSummary.status r) "completed")
        && negb (String.eqb (RunSummary.status r) "failed") then 1 else 0)
  = 1.
Proof.
  destruct (String.eqb_spec (RunSummary.status r) "running") as [->|_]; [reflexivity|].
  destruct (String.eqb_spec (RunSummary.status r) "completed") as [->|_]; [reflexivity|].
  destruct (String.eqb_spec (RunSummary.status r) "failed") as [_|_]; reflexivity.
Qed.

(** X23.  The counters of the dashboard count every run at most once: the
    total is the running, the completed and the failed runs together with
    the runs of any other status (queued, canceled), which only the total
    counts. *)
Theorem stats_count_each_run_once (s : D.State) :
  D.total (D.stats s)
  = D.running (D.stats s) + D.completed (D.stats s) + D.failed (D.stats s)
    + length
        (List.filter
           (fun r =>
              negb (String.eqb (RunSummary.status r) "running")
              && negb (String.eqb (RunSummary.status r) "completed")
              && negb (String.eqb (RunSummary.status r) "failed"))
           (D.runs s))
  /\ D.running (D.stats s) + D.completed (D.stats s) + D.failed (D.stats s)
     <= D.total (D.stats s).
Proof.
  assert (Hsum : forall runs : list RunSummary.t,
             length runs
             = D.count "running" runs + D.count "completed" runs + D.count "failed" runs
               + length
                   (List.filter
                      (fun r =>
                         negb (String.eqb (RunSummary.status r) "running")
                         && negb (String.eqb (RunSummary.status r) "completed")
                         && negb (String.eqb (RunSummary.status r) "failed"))
                      runs)).
  { induction runs as [|r runs IH]; [reflexivity|].
    rewrite !count_cons. cbn [List.filter length].
    pose proof (other_runs_cons r runs) as Hone.
    destruct (negb (String.eqb (RunSummary.status r) "running")
              && negb (String.eqb (RunSummary.status r) "completed")
              && negb (String.eqb (RunSummary.status r) "failed"));
      cbn [length]; lia. }
  unfold D.stats. cbn [D.total D.running D.completed D.failed].
  pose proof (Hsum (D.runs s)). lia.
Qed.

Section DashboardLoad.

Variable respond : string -> RequestInit.t -> Completion Response.t.
Variable Number_toString : Q -> string.
Variable as_RunSummaries : JSON -> list RunSummary.t.

(** X24.  A refresh of the dashboard asks for [/runs?limit=50], once.  When
    it fails, the list of runs (and so every counter) stays as it was and
    the error text is stored; when it succeeds, the list is replaced and the
    error cleared; either way the loading flag is cleared. *)
Theorem failed_refresh_keeps_runs (s : D.State) (log : list (string * RequestInit.t)) :
  snd (D.loadRuns (recording respond) Number_toString as_RunSummaries s log)
  = log ++ [("/api/runs?limit=50", sent_init RequestInit.empty)]
  /\ D.loading (fst (D.loadRuns (recording respond) Number_toString as_RunSummaries s log))
     = false
  /\ match fst (listRuns (recording respond) Number_toString 50 log) with
     | Return data =>
         D.runs (fst (D.loadRuns (recording respond) Number_toString as_RunSummaries s log))
         = as_RunSummaries data
         /\ D.error
              (fst (D.loadRuns (recording respond) Number_toString as_RunSummaries s log))
            = None
     | Throw err =>
         D.runs (fst (D.loadRuns (recording respond) Number_toString as_RunSummaries s log))
         = D.runs s
         /\ D.stats
              (fst (D.loadRuns (recording respond) Number_toString as_RunSummaries s log))
            = D.stats s
         /\ D.error
              (fst (D.loadRuns (recording respond) Number_toString as_RunSummaries s log))
            = Some (N.message_or "Failed to load runs" err)
     end.
Proof.
  unfold D.loadRuns.
  pose proof (request_recording respond Number_toString "/runs?limit=50"
                RequestInit.empty log) as Hlog.
  change (request (recording respond) Number_toString "/runs?limit=50" RequestInit.empty log)
    with (listRuns (recording respond) Number_toString 50 log) in Hlog.
  destruct (listRuns (recording respond) Number_toString 50 log) as [[data|err] log1];
    simpl in Hlog |- *; subst log1; repeat split.
Qed.

End DashboardLoad.

(** ** The age of a run in the run table *)

Module T := RunTable.

Section FormatDateProperties.

Variable getTime : string -> option Z.
Variable toLocaleDateString : string -> string.

Local Open Scope Z_scope.

(** X25.  For a valid date, [formatDate] shows "just now" for anything
    less than a minute old (and for a date in the future), whole minutes
    from 1 to 59 below an hour, whole hours from 1 to 23 below a day, whole
    days from 1 to 6 below a week, and the locale date from a week on; for
    an invalid date it shows what the locale formatting makes of it. *)
Theorem formatDate_buckets (now : Z) (dateStr : string) :
  (getTime dateStr = None ->
   T.formatDate getTime toLocaleDateString now dateStr = toLocaleDateString dateStr)
  /\ (forall date,
        getTime dateStr = Some date ->
        (now - date < 60000 ->
         T.formatDate getTime toLocaleDateString now dateStr = "just now")
        /\ (60000 <= now - date < 3600000 ->
            1 <= (now - date) / 60000 <= 59
            /\ T.formatDate getTime toLocaleDateString now dateStr
               = decimal (Z.to_N ((now - date) / 60000)) +:+ "m ago")
        /\ (3600000 <= now - date < 86400000 ->
            1 <= (now - date) / 3600000 <= 23
            /\ T.formatDate getTime toLocaleDateString now dateStr
               = decimal (Z.to_N ((now - date) / 3600000)) +:+ "h ago")
        /\ (86400000 <= now - date < 604800000 ->
            1 <= (now - date) / 86400000 <= 6
            /\ T.formatDate getTime toLocaleDateString now dateStr
               = decimal (Z.to_N ((now - date) / 86400000)) +:+ "d ago")
        /\ (604800000 <= now - date ->
            T.formatDate getTime toLocaleDateString now dateStr
            = toLocaleDateString dateStr)).
Proof.
  split.
  - intros Hnan. unfold T.formatDate. rewrite Hnan. reflexivity.
  - intros date Hdate. unfold T.formatDate. rewrite Hdate. cbv zeta.
    set (d := now - date).
    assert (Hm : forall q, 60000 * q <= d -> q <= d / 60000)
      by (intros; apply Z.div_le_lower_bound; lia).
    assert (Hm' : forall q, d < 60000 * q -> d / 60000 < q)
      by (intros; apply Z.div_lt_upper_bound; lia).
    assert (Hh : forall q, 3600000 * q <= d -> q <= d / 3600000)
      by (intros; apply Z.div_le_lower_bound; lia).
    assert (Hh' : forall q, d < 3600000 * q -> d / 3600000 < q)
      by (intros; apply Z.div_lt_upper_bound; lia).
    assert (Hd : forall q, 86400000 * q <= d -> q <= d / 86400000)
      by (intros; apply Z.div_le_lower_bound; lia).
    assert (Hd' : forall q, d < 86400000 * q -> d / 86400000 < q)
      by (intros; apply Z.div_lt_upper_bound; lia).
    repeat apply conj.
    + intros Hlt. pose proof (Hm' 1 ltac:(lia)).
      destruct (Z.ltb_spec (d / 60000) 1); [reflexivity|lia].
    + intros [Hlo Hhi]. pose proof (Hm 1 ltac:(lia)). pose proof (Hm' 60 ltac:(lia)).
      split; [lia|].
      destruct (Z.ltb_spec (d / 60000) 1); [lia|].
      destruct (Z.ltb_spec (d / 60000) 60); [reflexivity|lia].
    + intros [Hlo Hhi]. pose proof (Hm 60 ltac:(lia)).
      pose proof (Hh 1 ltac:(lia)). pose proof (Hh' 24 ltac:(lia)).
      split; [lia|].
      destruct (Z.ltb_spec (d / 60000) 1); [lia|].
      destruct (Z.ltb_spec (d / 60000) 60); [lia|].
      destruct (Z.ltb_spec (d / 3600000) 24); [reflexivity|lia].
    + intros [Hlo Hhi]. pose proof (Hm 60 ltac:(lia)).
      pose proof (Hh 24 ltac:(lia)).
      pose proof (Hd 1 ltac:(lia)). pose proof (Hd' 7 ltac:(lia)).
      split; [lia|].
      destruct (Z.ltb_spec (d / 60000) 1); [lia|].
      destruct (Z.ltb_spec (d / 60000) 60); [lia|].
      destruct (Z.ltb_spec (d / 3600000) 24); [lia|].
      destruct (Z.ltb_spec (d / 86400000) 7); [reflexivity|lia].
    + intros Hlo. pose proof (Hm 60 ltac:(lia)).
      pose proof (Hh 24 ltac:(lia)). pose proof (Hd 7 ltac:(lia)).
      destruct (Z.ltb_spec (d / 60000) 1); [lia|].
      destruct (Z.ltb_spec (d / 60000) 60); [lia|].
      destruct (Z.ltb_spec (d / 3600000) 24); [lia|].
      destruct (Z.ltb_spec (d / 86400000) 7); [lia|reflexivity].
Qed.

End FormatDateProperties.

(** ** The line counter of the log view *)

Module L := LogTail.

Lemma split_String (sep c : ascii) (s : string) :
  P.split sep (String c s)
  = if Ascii.eqb c sep then "" :: P.split sep s
    else match P.split sep s with
         | [] => [String c ""]
         | h :: t => String c h :: t
         end.
Proof. reflexivity. Qed.

Lemma split_no_newline (h : string) :
  L.has_char P.newline h = false -> P.split P.newline h = [h].
Proof.
  induction h as [|c h IH]; [reflexivity|].
  intros Hc. change (Ascii.eqb c P.newline || L.has_char P.newline h = false) in Hc.
  apply orb_false_iff in Hc as [Hc Hh].
  rewrite split_String, Hc, (IH Hh). reflexivity.
Qed.

Lemma split_app_newline (h rest : string) :
  L.has_char P.newline h = false ->
  P.split P.newline (h +:+ String P.newline rest) = h :: P.split P.newline rest.
Proof.
  induction h as [|c h IH]; intros Hc.
  - change ("" +:+ String P.newline rest) with (String P.newline rest).
    rewrite split_String, Ascii.eqb_refl. reflexivity.
  - change (Ascii.eqb c P.newline || L.has_char P.newline h = false) in Hc.
    apply orb_false_iff in Hc as [Hc Hh].
    change (String c h +:+ String P.newline rest)
      with (String c (h +:+ String P.newline rest)).
    rewrite split_String, Hc, (IH Hh). reflexivity.
Qed.

(** Splitting what [join] made of lines without newlines gives the lines
    back. *)
Lemma split_join (lines : list string) :
  lines <> [] ->
  Forall (fun l => L.has_char P.newline l = false) lines ->
  P.split P.newline (P.join lines) = lines.
Proof.
  unfold P.join. induction lines as [|l lines IH]; [congruence|].
  intros _ Hall. inversion Hall as [|? ? Hl Hrest]; subst.
  destruct lines as [|l' lines].
  - simpl. apply split_no_newline. exact Hl.
  - change (String.concat (String P.newline "") (l :: l' :: lines))
      with (l +:+ String P.newline (String.concat (String P.newline "") (l' :: lines))).
    rewrite (split_app_newline _ _ Hl), IH; [reflexivity|discriminate|exact Hrest].
Qed.

(** X26.  The log view counts no lines exactly when it has no content
    (none, or the empty string); and while the page displays live stdout
    lines, none of which has a newline in it, the counter shows how many
    live lines there are. *)
Theorem live_lines_are_counted :
  (forall content, L.lineCount content = 0 <-> content = None \/ content = Some "")
  /\ (forall (s : P.State) (r : RunDetail.t),
        P.join (P.stdoutLines s) <> "" ->
        Forall (fun l => L.has_char P.newline l = false) (P.stdoutLines s) ->
        P.displayStdout s r = P.join (P.stdoutLines s)
        /\ L.lineCount (Some (P.displayStdout s r)) = length (P.stdoutLines s)).
Proof.
  split.
  - intros [c|]; simpl; [|tauto].
    destruct (String.eqb_spec c "") as [->|Hne]; [tauto|].
    pose proof (split_nonempty P.newline c) as Hs.
    destruct (P.split P.newline c); [congruence|]. simpl.
    split; [discriminate|]. intros [H|H]; congruence.
  - intros s r Hne Hall.
    assert (Heqb : String.eqb (P.join (P.stdoutLines s)) "" = false).
    { destruct (String.eqb_spec (P.join (P.stdoutLines s)) ""); congruence. }
    assert (Hdisplay : P.displayStdout s r = P.join (P.stdoutLines s)).
    { unfold P.displayStdout, P.or_else. rewrite !Heqb. reflexivity. }
    split; [exact Hdisplay|]. rewrite Hdisplay. unfold L.lineCount. rewrite Heqb.
    rewrite split_join; [reflexivity| |exact Hall].
    intros Hnil. rewrite Hnil in Hne. apply Hne. reflexivity.
Qed.

(** ** The further theorems at sample inputs *)

Lemma loadRun_clears_loading_witness :
  P.loading
    (fst (P.loadRun (always server_down_503) no_format (fun _ => running_run)
            (P.initial (Some "r1")) tt))
  = false.
Proof.
  assert (Hid : "r1" <> "") by discriminate.
  destruct (loadRun_clears_loading (always server_down_503) no_format
              (fun _ => running_run) (P.initial (Some "r1")) tt "r1" eq_refl Hid)
    as (Hloading & _).
  exact Hloading.
Defined.

Lemma failed_load_hides_run_witness :
  P.render
    (fst (P.loadRun (always server_down_503) no_format (fun _ => running_run)
            polling_state tt))
  = P.ErrorPage "Service unavailable"
  /\ P.run
       (fst (P.loadRun (always server_down_503) no_format (fun _ => running_run)
               polling_state tt))
     = Some running_run.
Proof.
  assert (Hid : "r1" <> "") by discriminate.
  assert (Htext : "Service unavailable" <> "") by discriminate.
  destruct (failed_load_hides_run (always server_down_503) no_format
              (fun _ => running_run) polling_state tt tt "r1" "Error"
              "Service unavailable" eq_refl Hid Htext eq_refl)
    as (Hrun & _ & _ & _ & Hrender).
  split; [exact Hrender|exact Hrun].
Defined.

Lemma load_keeps_live_lines_witness :
  P.stdoutLines
    (fst (P.loadRun (always run_detail_200) no_format (fun _ => run_with_tail)
            (P.setStdoutLines (fun _ => ["live 1"]) (world live_page)) tt))
  = ["live 1"].
Proof.
  assert (Hid : "r1" <> "") by discriminate.
  destruct (load_keeps_live_lines (always run_detail_200) no_format
              (fun _ => run_with_tail)
              (P.setStdoutLines (fun _ => ["live 1"]) (world live_page)) tt tt "r1" JNull
              eq_refl Hid eq_refl eq_refl)
    as (Hlines & _).
  exact Hlines.
Defined.

Lemma polled_tail_is_displayed_witness :
  P.stdoutLines
    (fst (P.loadRun (always run_detail_200) no_format (fun _ => run_with_tail)
            polling_state tt))
  = ["sample 1"; "sample 2"].
Proof.
  assert (Hid : "r1" <> "") by discriminate.
  assert (Htail : "sample 1" +:+ String P.newline "sample 2" <> "") by discriminate.
  destruct (polled_tail_is_displayed (always run_detail_200) no_format
              (fun _ => run_with_tail) polling_state tt tt "r1"
              ("sample 1" +:+ String P.newline "sample 2") JNull
              eq_refl Hid eq_refl eq_refl eq_refl Htail)
    as (Hlines & _).
  exact Hlines.
Defined.

Lemma handleCancel_requests_witness :
  snd (P.handleCancel (recording (fun _ _ => Return server_down_503)) no_format
         (fun _ => running_run) polling_state [])
  = [("/api/runs/r1/cancel", sent_init (RequestInit.mk (Some "POST") ∅ None))].
Proof.
  assert (Hid : "r1" <> "") by discriminate.
  pose proof (handleCancel_requests (fun _ _ => Return server_down_503) no_format
                (fun _ => running_run) polling_state "r1" [] eq_refl Hid) as H.
  simpl in H. destruct H as [Hlog _]. exact Hlog.
Defined.

Lemma status_change_closes_the_source_witness :
  readyState
    (fst (P.after_update (world queued_page)
            (dispatch (subscribeToRunEvents P.handlers "r1")
               (Message (status_event (Parsed status_running))) queued_page)))
  = CLOSED
  /\ P.pollInterval
       (world
          (fst (P.after_update (world queued_page)
                  (dispatch (subscribeToRunEvents P.handlers "r1")
                     (Message (status_event (Parsed status_running))) queued_page))))
     = None.
Proof.
  assert (Hid : "r1" <> "") by discriminate.
  assert (Hchange : SSEStatusEvent.status status_running <> RunDetail.status queued_run)
    by discriminate.
  destruct (status_change_closes_the_source "r1" queued_page status_running queued_run
              "r1" eq_refl eq_refl Hid eq_refl eq_refl eq_refl eq_refl Hchange
              (or_introl eq_refl))
    as (Hclosed & _ & _ & _ & Hpoll & _).
  split; [exact Hclosed|exact Hpoll].
Defined.

Lemma terminal_event_quiesces_page_witness :
  readyState
    (dispatch (subscribeToRunEvents P.handlers "r1")
       (Message (completed_event (Parsed completed_0))) live_page)
  = CLOSED
  /\ P.stdoutLines
       (fst (P.initialLoad_effect (recording (fun _ _ => Return run_detail_200)) no_format
               (fun _ => run_with_tail) (world live_page)
               (world (dispatch (subscribeToRunEvents P.handlers "r1")
                         (Message (completed_event (Parsed completed_0))) live_page))
               []))
     = ["sample 1"; "sample 2"].
Proof.
  assert (Hid : "r1" <> "") by discriminate.
  destruct (terminal_event_quiesces_page "r1" live_page
              (completed_event (Parsed completed_0)) running_run "r1"
              eq_refl eq_refl Hid eq_refl eq_refl I)
    as (_ & Hclosed & _ & _ & _ & _ & _ & _ & Hreload).
  split; [exact Hclosed|].
  destruct (Hreload (fun _ _ => Return run_detail_200) no_format (fun _ => run_with_tail) [])
    as (_ & _ & Hok).
  destruct (Hok 200%N JNull eq_refl) as (_ & Htail & _).
  assert (Hne : "sample 1" +:+ String P.newline "sample 2" <> "") by discriminate.
  exact (Htail _ eq_refl Hne).
Defined.

Lemma prefill_round_trip_witness :
  F.handleSubmit (F.initial (Some earlier_config)) = Some (F.resubmitted earlier_config).
Proof.
  assert (Hb : RunConfig.benchmark earlier_config <> "") by discriminate.
  assert (Hm : RunConfig.model earlier_config <> "") by discriminate.
  assert (Hc : RunConfig.model earlier_config <> "custom") by discriminate.
  destruct (prefill_round_trip earlier_config Hb Hm) as [Hsubmit _].
  exact (Hsubmit Hc).
Defined.

Lemma submitted_config_is_named_witness :
  RunConfig.benchmark plain_config <> "" /\ RunConfig.model plain_config <> "".
Proof.
  destruct (submitted_config_is_named F.parseDigits F.parseDigits false (F.initial None)
              plain_session plain_config (or_introl eq_refl))
    as (Hb & Hm & _).
  split; [exact Hb|exact Hm].
Defined.

Lemma new_run_submit_outcomes_witness :
  N.error
    (fst (N.handleSubmit (always unknown_benchmark_400) no_format (fun _ => "{}")
            plain_config N.initial tt))
  = Some "Unknown benchmark"
  /\ N.location
       (fst (N.handleSubmit (always created_201) no_format (fun _ => "{}")
               plain_config N.initial tt))
     = Some "/runs/r7".
Proof.
  split.
  - destruct (new_run_submit_outcomes (always unknown_benchmark_400) no_format
                (fun _ => "{}") plain_config N.initial tt tt unknown_benchmark_400 eq_refl)
      as [Hrefused _].
    assert (Hbody : error_body unknown_benchmark_400 <> JNull) by discriminate.
    destruct (Hrefused eq_refl Hbody) as [Herror _]. exact Herror.
  - destruct (new_run_submit_outcomes (always created_201) no_format
                (fun _ => "{}") plain_config N.initial tt tt created_201 eq_refl)
      as [_ Hcreated].
    destruct (Hcreated [("run_id", JStr "r7")] "r7" eq_refl eq_refl eq_refl)
      as [Hlocation _].
    exact Hlocation.
Defined.
